(** * docker/systemctl.py: a shallow embedding of the service lifecycle engine

    The development follows the layout of the Python source: module level
    helpers ([pid_exists], [checkstatus]), the descriptor model with its
    two parsers ([UnitConfigParser]), and the methods of [Systemctl].
    Python exceptions are values of [exn]; a computation that touches the
    operating system is a function on [World] in the monad [M].  Library
    calls whose result is decided outside the program ([os.kill],
    [subprocess.Popen], [os.path.abspath], what other processes do while
    the engine sleeps) are fields of the record [OS].  The verdict of the
    shell pattern matcher of [fnmatch] is a parameter of the functions
    that call it, with a model of it in [Fnmatch]; the patterns the
    matcher refuses to compile are those of [Fnmatch.refused].  Time
    passes only in [time.sleep].  Logging calls are left out. *)

From Stdlib Require Import ZArith String Ascii List Lia.
From Stdlib Require Import Decimal DecimalString DecimalZ.
From stdpp Require Import gmap strings list sorting.
Import ListNotations.

Open Scope string_scope.
Open Scope Z_scope.

(** ** Python strings *)

Module Str.

Definition nl : ascii := "010"%char.

(** ["\n"] *)
Definition NL : string := String nl EmptyString.

(** [string.whitespace] of the C locale, what [str.strip()] removes. *)
Definition isspace (c : ascii) : bool :=
  let n := N_of_ascii c in
  ((9 <=? n) && (n <=? 13))%N || (n =? 32)%N.

Definition isdigit (c : ascii) : bool :=
  let n := N_of_ascii c in ((48 <=? n) && (n <=? 57))%N.

(** [\w] of [re] without LOCALE or UNICODE: letters, digits, underscore. *)
Definition isword (c : ascii) : bool :=
  let n := N_of_ascii c in
  ((48 <=? n) && (n <=? 57) || (65 <=? n) && (n <=? 90)
   || (97 <=? n) && (n <=? 122) || (n =? 95))%N.

Fixpoint lstrip (s : string) : string :=
  match s with
  | String c s' => if isspace c then lstrip s' else s
  | EmptyString => EmptyString
  end.

Fixpoint rstrip (s : string) : string :=
  match s with
  | String c s' =>
      match rstrip s' with
      | EmptyString => if isspace c then EmptyString else String c EmptyString
      | r => String c r
      end
  | EmptyString => EmptyString
  end.

(** [s.strip()] *)
Definition strip (s : string) : string := rstrip (lstrip s).

(** [s.startswith(p)] *)
Fixpoint startswith (s p : string) {struct p} : bool :=
  match p with
  | EmptyString => true
  | String b p' =>
      match s with
      | String a s' => Ascii.eqb a b && startswith s' p'
      | EmptyString => false
      end
  end.

(** [s.endswith(p)] *)
Definition endswith (s p : string) : bool :=
  startswith (String.rev s) (String.rev p).

(** [s[1:]] *)
Definition tail (s : string) : string :=
  match s with
  | String _ s' => s'
  | EmptyString => EmptyString
  end.

(** The truth value of a string: [not s] is [negb (truthy s)]. *)
Definition truthy (s : string) : bool :=
  match s with
  | EmptyString => false
  | _ => true
  end.

Definition lower_char (c : ascii) : ascii :=
  let n := N_of_ascii c in
  if ((65 <=? n) && (n <=? 90))%N then ascii_of_N (n + 32) else c.

(** [s.lower()] *)
Fixpoint lower (s : string) : string :=
  match s with
  | String c s' => String (lower_char c) (lower s')
  | EmptyString => EmptyString
  end.

(** [s.split(sep)] for a separator of one character *)
Fixpoint split (sep : ascii) (s : string) : list string :=
  match s with
  | EmptyString => [EmptyString]
  | String c s' =>
      if Ascii.eqb c sep then EmptyString :: split sep s'
      else match split sep s' with
           | l :: ls => String c l :: ls
           | [] => [String c EmptyString]
           end
  end.

(** [s.split("\n")] *)
Definition split_nl (s : string) : list string := split nl s.

(** [sub in s] *)
Fixpoint contains (s sub : string) : bool :=
  startswith s sub
  || match s with
     | String _ s' => contains s' sub
     | EmptyString => false
     end.

(** The backslash as a string. *)
Definition backslash : string := String "092"%char EmptyString.

(** The lines a file object iterates over: each keeps its newline. *)
Fixpoint readlines (s : string) : list string :=
  match s with
  | EmptyString => []
  | String c s' =>
      if Ascii.eqb c nl then String c EmptyString :: readlines s'
      else match readlines s' with
           | l :: ls => String c l :: ls
           | [] => [String c EmptyString]
           end
  end.

End Str.

(** ** Regular expressions *)

(** The pieces the patterns of the source are made of. *)
Module Re.

(** The longest run of characters of a class at the start of [s], and the
    rest: a class with a star or a plus, followed by something outside
    the class. *)
Fixpoint span (class : ascii -> bool) (s : string) : string * string :=
  match s with
  | String c s' =>
      if class c then
        let '(w, r) := span class s' in (String c w, r)
      else (EmptyString, s)
  | EmptyString => (EmptyString, EmptyString)
  end.

(** The longest run of word characters at the start of [s], and the rest. *)
Definition span_word (s : string) : string * string := span Str.isword s.

(** The characters of [s] before the first [q], and what follows that
    [q]; [None] when [s] has no [q]. *)
Fixpoint until_char (q : ascii) (s : string) : option (string * string) :=
  match s with
  | String c s' =>
      if Ascii.eqb c q then Some (EmptyString, s')
      else match until_char q s' with
           | Some (v, r) => Some (String c v, r)
           | None => None
           end
  | EmptyString => None
  end.

(** The group matching any characters but a newline, as many as there
    are: the characters before the first newline. *)
Fixpoint dot_star (s : string) : string :=
  match s with
  | String c s' => if Ascii.eqb c Str.nl then EmptyString
                   else String c (dot_star s')
  | EmptyString => EmptyString
  end.

End Re.

(** ** Exceptions and results *)

(** The exceptions the program meets; [ReError] is [re.error], which
    [re.compile] raises for a pattern it refuses. *)
Inductive exn : Type :=
| ValueError (msg : string)
| OSError (errno : Z)
| IOError (errno : Z)
| AttributeError (msg : string)
| IndexError (msg : string)
| TypeError (msg : string)
| Exception (msg : string)
| ReError (msg : string).

Inductive result (A : Type) : Type :=
| Return (a : A)
| Raise (e : exn).
Arguments Return {A} a.
Arguments Raise {A} e.

(** [for x in xs: s = f s x], stopping at the first exception. *)
Fixpoint fold_result {A S} (f : S -> A -> result S) (s : S) (xs : list A)
  : result S :=
  match xs with
  | [] => Return s
  | x :: xs' =>
      match f s x with
      | Return s' => fold_result f s' xs'
      | Raise e => Raise e
      end
  end.

(** [[x for x in xs if test(x)]], stopping at the first exception. *)
Fixpoint filter_result {A} (test : A -> result bool) (xs : list A)
  : result (list A) :=
  match xs with
  | [] => Return []
  | x :: xs' =>
      match test x with
      | Raise e => Raise e
      | Return b =>
          match filter_result test xs' with
          | Raise e => Raise e
          | Return l => Return (if b then x :: l else l)
          end
      end
  end.

(** [errno.EPERM], [errno.ESRCH], [errno.ENOENT], [errno.EINVAL] on Linux. *)
Definition EPERM : Z := 1.
Definition ENOENT : Z := 2.
Definition ESRCH : Z := 3.
Definition EINVAL : Z := 22.

(** [signal.SIGKILL], [signal.SIGTERM] *)
Definition SIGKILL : Z := 9.
Definition SIGTERM : Z := 15.

(** The values a PID variable holds in the source: [None], a string (the
    [""] default of [read_pid_file]) or an integer. *)
Inductive pyval : Type :=
| PyNone
| PyStr (s : string)
| PyInt (n : Z).

(** [not v] is [negb (py_truthy v)]. *)
Definition py_truthy (v : pyval) : bool :=
  match v with
  | PyNone => false
  | PyStr s => Str.truthy s
  | PyInt n => negb (n =? 0)
  end.

(** ** Integers as text *)

(** ["{}".format(n)] and [str(n)] for an integer. *)
Definition str_of_int (n : Z) : string := NilZero.string_of_int (Z.to_int n).

(** [str(v)] *)
Definition py_str (v : pyval) : string :=
  match v with
  | PyNone => "None"
  | PyStr s => s
  | PyInt n => str_of_int n
  end.

(** [int(s)] for a string: surrounding whitespace, an optional sign and
    decimal digits; anything else is a [ValueError]. *)
Definition py_int (s : string) : result Z :=
  let s := Str.strip s in
  let '(negative, digits) :=
    match s with
    | String "-" r => (true, r)
    | String "+" r => (false, r)
    | _ => (false, s)
    end in
  match NilZero.uint_of_string digits with
  | Some d => Return (if negative then - Z.of_uint d else Z.of_uint d)
  | None => Raise (ValueError "invalid literal for int() with base 10")
  end.

(** ** [os.path] *)

Module Path.

Definition slash : ascii := "/"%char.

Fixpoint has_slash (s : string) : bool :=
  match s with
  | String c s' => Ascii.eqb c slash || has_slash s'
  | EmptyString => false
  end.

(** [p[:p.rfind('/')+1]] *)
Fixpoint head (p : string) : string :=
  match p with
  | String c p' => if has_slash p then String c (head p') else EmptyString
  | EmptyString => EmptyString
  end.

(** [os.path.basename(p)]: [p[p.rfind('/')+1:]] *)
Fixpoint basename (p : string) : string :=
  match p with
  | String c p' => if has_slash p then basename p' else p
  | EmptyString => EmptyString
  end.

Fixpoint all_slashes (s : string) : bool :=
  match s with
  | String c s' => Ascii.eqb c slash && all_slashes s'
  | EmptyString => true
  end.

(** [s.rstrip('/')] *)
Fixpoint rstrip_slash (s : string) : string :=
  match s with
  | String c s' =>
      match rstrip_slash s' with
      | EmptyString =>
          if Ascii.eqb c slash then EmptyString else String c EmptyString
      | r => String c r
      end
  | EmptyString => EmptyString
  end.

(** [os.path.dirname(p)] *)
Definition dirname (p : string) : string :=
  let h := head p in
  if Str.truthy h && negb (all_slashes h) then rstrip_slash h else h.

(** [os.path.join(a, b)] *)
Definition join (a b : string) : string :=
  if Str.startswith b "/" then b
  else if negb (Str.truthy a) || Str.endswith a "/" then a +:+ b
  else a +:+ "/" +:+ b.

(** The directories above [p], nearest first. *)
Fixpoint ancestors (fuel : nat) (p : string) : list string :=
  match fuel with
  | O => []
  | S fuel' =>
      let d := dirname p in
      if negb (Str.truthy d) || String.eqb d p then []
      else d :: ancestors fuel' d
  end.

End Path.

(** ** The file system *)

(** Directories and regular files (with their contents) by path.  A path
    is the string the program passes: two spellings of one path are two
    keys. *)
Record FS : Type := mkFS {
  fs_dirs : gset string;
  fs_files : gmap string string }.

Definition EEXIST : Z := 17.
Definition ENOTDIR : Z := 20.
Definition EISDIR : Z := 21.

Module Fs.

(** [os.path.isdir(p)] *)
Definition isdir (fs : FS) (p : string) : bool :=
  bool_decide (p ∈ fs_dirs fs).

(** [os.path.isfile(p)] *)
Definition isfile (fs : FS) (p : string) : bool :=
  bool_decide (is_Some (fs_files fs !! p)).

Fixpoint strip_prefix (p s : string) : option string :=
  match p with
  | EmptyString => Some s
  | String a p' =>
      match s with
      | String b s' => if Ascii.eqb a b then strip_prefix p' s' else None
      | EmptyString => None
      end
  end.

(** The name [n] with [q = os.path.join(d, n)], when [q] lies directly
    in [d]. *)
Definition child_of (d q : string) : option string :=
  let prefix := if Str.endswith d "/" then d else d +:+ "/" in
  match strip_prefix prefix q with
  | Some n => if Str.truthy n && negb (Path.has_slash n) then Some n else None
  | None => None
  end.

(** [os.listdir(d)] *)
Definition listdir (fs : FS) (d : string) : result (list string) :=
  if isdir fs d then
    Return (omap (child_of d)
              (elements (fs_dirs fs) ++ (map_to_list (fs_files fs)).*1)%list)
  else Raise (OSError (if isfile fs d then ENOTDIR else ENOENT)).

(** [open(p).read()] *)
Definition read (fs : FS) (p : string) : result string :=
  match fs_files fs !! p with
  | Some text => Return text
  | None => Raise (IOError (if isdir fs p then EISDIR else ENOENT))
  end.

(** [open(p, "w").write(text)]; the parent directory is not looked at. *)
Definition write (fs : FS) (p text : string) : result FS :=
  if isdir fs p then Raise (IOError EISDIR)
  else Return (mkFS (fs_dirs fs) (<[p := text]> (fs_files fs))).

(** [os.makedirs(d)]: [d] and the missing directories above it. *)
Definition makedirs (fs : FS) (d : string) : result FS :=
  if isdir fs d || isfile fs d then Raise (OSError EEXIST)
  else
    let above := Path.ancestors (String.length d) d in
    if existsb (isfile fs) above then Raise (OSError ENOTDIR)
    else Return (mkFS (fs_dirs fs ∪ list_to_set (d :: above)) (fs_files fs)).

(** [os.remove(p)] *)
Definition remove (fs : FS) (p : string) : result FS :=
  if isfile fs p then Return (mkFS (fs_dirs fs) (delete p (fs_files fs)))
  else Raise (OSError (if isdir fs p then EISDIR else ENOENT)).

End Fs.

(** ** The descriptor model *)

Module UnitConfigParser.

(** [_dict] maps a section to its options and an option to the list of its
    values; [_files] are the files read, in order.  A section is a string,
    or [None] for what a file sets before its first section header. *)
Record t : Type := mk {
  _allow_no_value : bool;
  _dict : gmap (option string) (gmap string (list string));
  _files : list string }.

(** [UnitConfigParser()] *)
Definition new : t := mk false ∅ [].

(** ["{}".format(section)] *)
Definition str_of_section (section : option string) : string :=
  match section with
  | Some s => s
  | None => "None"
  end.

(** [conf.add_section(section)] *)
Definition add_section (conf : t) (section : option string) : t :=
  match _dict conf !! section with
  | None =>
      mk (_allow_no_value conf) (<[section := ∅]> (_dict conf)) (_files conf)
  | Some _ => conf
  end.

(** [conf.has_section(section)] *)
Definition has_section (conf : t) (section : option string) : bool :=
  bool_decide (is_Some (_dict conf !! section)).

(** [conf.set(section, option, value)] *)
Definition set (conf : t) (section : option string) (opt value : string) : t :=
  let d := _dict conf in
  let sec := match d !! section with
             | None => ∅
             | Some sec => sec
             end in
  let sec :=
    match sec !! opt with
    | None => <[opt := [value]]> sec
    | Some l => <[opt := (l ++ [value])%list]> sec
    end in
  let sec := if negb (Str.truthy value) then <[opt := []]> sec else sec in
  mk (_allow_no_value conf) (<[section := sec]> d) (_files conf).

(** [l[0]] *)
Definition index0 (l : list string) : result (option string) :=
  match l with
  | v :: _ => Return (Some v)
  | [] => Raise (IndexError "list index out of range")
  end.

(** [conf.get(section, option, default, allow_no_value)]; the Python
    [None] is [None] both as the default and as the value returned. *)
Definition get (conf : t) (section : option string) (opt : string)
    (default : option string) (allow_no_value : bool)
  : result (option string) :=
  let allow_no_value := allow_no_value || _allow_no_value conf in
  match _dict conf !! section with
  | None =>
      match default with
      | Some d => Return (Some d)
      | None =>
          if allow_no_value then Return None
          else Raise (AttributeError
                        ("section " +:+ str_of_section section
                         +:+ " does not exist"))
      end
  | Some sec =>
      match sec !! opt with
      | None =>
          match default with
          | Some d => Return (Some d)
          | None =>
              if allow_no_value then Return None
              else Raise (AttributeError
                            ("option " +:+ opt +:+ " in "
                             +:+ str_of_section section +:+ " does not exist"))
          end
      | Some l =>
          if bool_decide (l = []) then
            match default with
            | Some d => Return (Some d)
            | None => if allow_no_value then Return None else index0 l
            end
          else index0 l
      end
  end.

(** [conf.getlist(section, option, default, allow_no_value)] *)
Definition getlist (conf : t) (section : option string) (opt : string)
    (default : option (list string)) (allow_no_value : bool)
  : result (option (list string)) :=
  let allow_no_value := allow_no_value || _allow_no_value conf in
  match _dict conf !! section with
  | None =>
      match default with
      | Some d => Return (Some d)
      | None =>
          if allow_no_value then Return (Some [])
          else Raise (AttributeError
                        ("section " +:+ str_of_section section
                         +:+ " does not exist"))
      end
  | Some sec =>
      match sec !! opt with
      | None =>
          match default with
          | Some d => Return (Some d)
          | None =>
              if allow_no_value then Return None
              else Raise (AttributeError
                            ("option " +:+ opt +:+ " in "
                             +:+ str_of_section section +:+ " does not exist"))
          end
      | Some l => Return (Some l)
      end
  end.

(** [conf.loaded()] *)
Definition loaded (conf : t) : nat := length (_files conf).

(** [conf.filename()] *)
Definition filename (conf : t) : option string := last (_files conf).

(** The string a call of [get] with a string default returns. *)
Definition get_default (conf : t) (section : option string)
    (opt default : string) : string :=
  match get conf section opt (Some default) false with
  | Return (Some v) => v
  | _ => default
  end.

(** [if os.path.isfile(filename): self._files.append(filename)] *)
Definition note_file (fs : FS) (conf : t) (filename : string) : t :=
  if Fs.isfile fs filename
  then mk (_allow_no_value conf) (_dict conf) (_files conf ++ [filename])%list
  else conf.

(** *** The modern dialect *)

(** The local variables of the loop of [read_sysd]. *)
Record sysd_state : Type := mk_sysd {
  sysd_conf : t;
  section : option string;
  nextline : bool;
  name : string;
  text : string }.

(** [line[1:x]] with [x = line.find("]")] when [x > 0], for a line that
    starts with an opening bracket. *)
Definition section_name (line : string) : option string :=
  match Re.until_char "]"%char (Str.tail line) with
  | Some (inner, _) => Some inner
  | None => None
  end.

(** The match of a line against one or more word characters, an equals
    sign and the rest: [m.group(1)] and [m.group(2)]. *)
Definition match_setting (line : string) : option (string * string) :=
  match Re.span_word line with
  | (String c w, String "=" rest) => Some (String c w, Re.dot_star rest)
  | _ => None
  end.

(** The body of the loop of [read_sysd] for one line. *)
Definition read_sysd_line (st : sysd_state) (orig_line : string)
  : result sysd_state :=
  if nextline st then
    let text := text st +:+ orig_line in
    if Str.endswith (Str.rstrip text) Str.backslash then
      Return (mk_sysd (sysd_conf st) (section st) true (name st)
                (Str.rstrip text +:+ Str.NL))
    else
      Return (mk_sysd (set (sysd_conf st) (section st) (name st) text)
                (section st) true (name st) text)
  else
    let line := Str.strip orig_line in
    if negb (Str.truthy line) then Return st
    else if Str.startswith line "#" then Return st
    else if Str.startswith line "[" then
      match section_name line with
      | Some inner =>
          Return (mk_sysd (add_section (sysd_conf st) (Some inner))
                    (Some inner) false (name st) (text st))
      | None => Return st
      end
    else
      match match_setting line with
      | None => Raise (Exception "bad ini line")
      | Some (name, text) =>
          let text := Str.strip text in
          if Str.endswith text Str.backslash then
            Return (mk_sysd (sysd_conf st) (section st) true name
                      (text +:+ Str.NL))
          else
            Return (mk_sysd (set (sysd_conf st) (section st) name text)
                      (section st) false name text)
      end.

(** [conf.read_sysd(filename)] *)
Definition read_sysd (fs : FS) (conf : t) (filename : string) : result t :=
  let conf := note_file fs conf filename in
  match Fs.read fs filename with
  | Raise e => Raise e
  | Return content =>
      match fold_result read_sysd_line (mk_sysd conf None false "" "")
              (Str.readlines content) with
      | Return st => Return (sysd_conf st)
      | Raise e => Raise e
      end
  end.

(** *** The legacy dialect *)

(** What follows the non-blank characters and the blanks at the start of
    a header line: a word character, further word characters or hyphens,
    a colon and the rest.  The key and the rest. *)
Definition match_key (r : string) : option (string * string) :=
  match r with
  | String c r' =>
      if Str.isword c then
        match Re.span (fun c => Str.isword c || Ascii.eqb c "-"%char) r' with
        | (k, String ":" v) => Some (String c k, Re.dot_star v)
        | _ => None
        end
      else None
  | EmptyString => None
  end.

(** The match of a header line whose first characters, at least one and
    none of them blank, are already taken: the run of non-blank
    characters is tried longest first, the blanks after it all go. *)
Fixpoint match_header_from (s : string) : option (string * string) :=
  match s with
  | String c s' =>
      if Str.isspace c then match_key (Str.lstrip s)
      else match match_header_from s' with
           | Some kv => Some kv
           | None => match_key s
           end
  | EmptyString => None
  end.

(** The match of a line against non-blank characters, blanks, a key, a
    colon and the rest: [m.group(1)] and [m.group(2)]. *)
Definition match_header (line : string) : option (string * string) :=
  match line with
  | String c s => if Str.isspace c then None else match_header_from s
  | EmptyString => None
  end.

(** The local variables of the loop of [read_sysv]. *)
Record sysv_state : Type := mk_sysv {
  sysv_conf : t;
  initinfo : bool;
  sysv_section : option string }.

(** The body of the loop of [read_sysv] for one line. *)
Definition read_sysv_line (st : sysv_state) (orig_line : string) : sysv_state :=
  let line := Str.strip orig_line in
  if Str.startswith line "#" then
    let st :=
      if Str.contains line " BEGIN INIT INFO"
      then mk_sysv (sysv_conf st) true (Some "init.d")
      else st in
    let st :=
      if Str.contains line " END INIT INFO"
      then mk_sysv (sysv_conf st) false (sysv_section st)
      else st in
    if initinfo st then
      match match_header line with
      | Some (key, value) =>
          mk_sysv (set (sysv_conf st) (sysv_section st) key (Str.strip value))
            (initinfo st) (sysv_section st)
      | None => st
      end
    else st
  else st.

(** The body of the loop over [check.split(" ")]. *)
Definition required_start (conf : t) (item : string) : t :=
  let conf := if String.eqb (Str.strip item) "$network"
              then set conf (Some "Unit") "After" "network.target" else conf in
  let conf := if String.eqb (Str.strip item) "$remote_fs"
              then set conf (Some "Unit") "After" "remote-fs.target" else conf in
  let conf := if String.eqb (Str.strip item) "$local_fs"
              then set conf (Some "Unit") "After" "local-fs.target" else conf in
  if String.eqb (Str.strip item) "$timer"
  then set conf (Some "Unit") "Requires" "basic.target" else conf.

(** [conf.read_sysv(filename)] *)
Definition read_sysv (fs : FS) (conf : t) (filename : string) : result t :=
  let conf := note_file fs conf filename in
  match Fs.read fs filename with
  | Raise e => Raise e
  | Return content =>
      let st := foldl read_sysv_line (mk_sysv conf false None)
                  (Str.readlines content) in
      let conf := sysv_conf st in
      let description := get_default conf (Some "init.d") "Description" "" in
      let conf := set conf (Some "Unit") "Description" description in
      let check := get_default conf (Some "init.d") "Required-Start" "" in
      let conf := foldl required_start conf (Str.split " "%char check) in
      let provides := get_default conf (Some "init.d") "Provides" "" in
      let conf := if Str.truthy provides
                  then set conf (Some "Install") "Alias" provides else conf in
      let runlevels := get_default conf (Some "init.d") "Default-Start" "" in
      let conf := if Str.contains runlevels "5"
                  then set conf (Some "Install") "WantedBy" "graphical.target"
                  else conf in
      let conf := if Str.contains runlevels "3"
                  then set conf (Some "Install") "WantedBy" "multi-user.target"
                  else conf in
      Return (set conf (Some "Service") "Type" "sysv")
  end.

End UnitConfigParser.

(** ** Sorting *)

(** The order of Python on byte strings. *)
Definition str_le (a b : string) : Prop := String.leb a b = true.

#[global] Instance str_le_dec (a b : string) : Decision (str_le a b).
Proof. unfold str_le. apply _. Defined.

(** [sorted(l)] for a list of strings *)
Definition sorted (l : list string) : list string := merge_sort str_le l.

(** ** The engine object and the world around it *)

(** The module level settings. *)
Module Globals.
Definition _sysd_default : string := "multi-user.target".
Definition _sysd_folder1 : string := "/usr/lib/systemd/system".
Definition _sysd_folder2 : string := "/etc/systemd/system".
Definition _sysv_folder1 : string := "/etc/init.d".
Definition _sysv_folder2 : string := "/var/run/init.d".
Definition _waitprocfile : nat := 100.
Definition _waitkillproc : nat := 10.
Definition _force : bool := false.
End Globals.

(** The attributes of a [Systemctl] instance.  The two catalogues are
    [None] until the first scan. *)
Record Systemctl : Type := mkSystemctl {
  _sysd_folder1 : string;
  _sysd_folder2 : string;
  _sysv_folder1 : string;
  _sysv_folder2 : string;
  _waitprocfile : nat;
  _waitkillproc : nat;
  _force : bool;
  _loaded_file_sysv : gmap string UnitConfigParser.t;
  _loaded_file_sysd : gmap string UnitConfigParser.t;
  _file_for_unit_sysv : option (gmap string string);
  _file_for_unit_sysd : option (gmap string string) }.

(** [Systemctl()] *)
Definition Systemctl_init : Systemctl :=
  mkSystemctl Globals._sysd_folder1 Globals._sysd_folder2
    Globals._sysv_folder1 Globals._sysv_folder2
    Globals._waitprocfile Globals._waitkillproc Globals._force
    ∅ ∅ None None.

(** The class attributes of [Systemctl]. *)
Definition igno_centos : list string := ["netconsole"; "network"].
Definition igno_opensuse : list string :=
  ["raw"; "pppoe"; "*.local"; "boot.*"; "rpmconf*"].
Definition igno_ubuntu : list string :=
  ["mount*"; "umount*"; "ondemand"; "*.local"].
Definition igno_always : list string := ["network*"; "dbus"; "systemd-*"].

Definition set_file_for_unit_sysd (self : Systemctl)
    (m : option (gmap string string)) : Systemctl :=
  mkSystemctl (_sysd_folder1 self) (_sysd_folder2 self) (_sysv_folder1 self)
    (_sysv_folder2 self) (_waitprocfile self) (_waitkillproc self)
    (_force self) (_loaded_file_sysv self) (_loaded_file_sysd self)
    (_file_for_unit_sysv self) m.

Definition set_file_for_unit_sysv (self : Systemctl)
    (m : option (gmap string string)) : Systemctl :=
  mkSystemctl (_sysd_folder1 self) (_sysd_folder2 self) (_sysv_folder1 self)
    (_sysv_folder2 self) (_waitprocfile self) (_waitkillproc self)
    (_force self) (_loaded_file_sysv self) (_loaded_file_sysd self)
    m (_file_for_unit_sysd self).

Definition set_loaded_file_sysd (self : Systemctl)
    (m : gmap string UnitConfigParser.t) : Systemctl :=
  mkSystemctl (_sysd_folder1 self) (_sysd_folder2 self) (_sysv_folder1 self)
    (_sysv_folder2 self) (_waitprocfile self) (_waitkillproc self)
    (_force self) (_loaded_file_sysv self) m
    (_file_for_unit_sysv self) (_file_for_unit_sysd self).

Definition set_loaded_file_sysv (self : Systemctl)
    (m : gmap string UnitConfigParser.t) : Systemctl :=
  mkSystemctl (_sysd_folder1 self) (_sysd_folder2 self) (_sysv_folder1 self)
    (_sysv_folder2 self) (_waitprocfile self) (_waitkillproc self)
    (_force self) m (_loaded_file_sysd self)
    (_file_for_unit_sysv self) (_file_for_unit_sysd self).

(** The dictionary behind a catalogue attribute. *)
Definition catalogue (m : option (gmap string string)) : gmap string string :=
  match m with
  | Some m => m
  | None => ∅
  end.

(** [m.keys()] *)
Definition keys {A} (m : gmap string A) : list string := (map_to_list m).*1.

(** What the operating system holds: the file system and the PIDs in the
    process table. *)
Record Sys : Type := mkSys {
  sys_fs : FS;
  sys_procs : gset Z }.

(** The object [subprocess.Popen] returns. *)
Module Popen.
Record t : Type := mk {
  pid : Z;
  args : string;
  returncode : option Z }.
End Popen.

Inductive Event : Type :=
| EvKill (pid sig : Z)
| EvSleep (seconds : nat)
| EvPopen (cmd : string) (env : gmap string string) (pid : Z)
| EvWait (pid : Z).

(** The system, the seconds spent in [time.sleep], the calls made so far
    (oldest first) and the engine object. *)
Record World : Type := mkWorld {
  w_sys : Sys;
  w_clock : nat;
  w_trace : list Event;
  w_self : Systemctl }.

(** What is decided outside the program. *)
Record OS : Type := mkOS {
  (** [os.environ] *)
  os_environ : gmap string string;
  (** [os.path.abspath], which depends on the working directory *)
  os_abspath : string -> string;
  (** [os.kill(pid, sig)]: [None] when the call succeeds, the [errno] of
      the [OSError] otherwise *)
  os_kill : Z -> Z -> Sys -> option Z * Sys;
  (** [subprocess.Popen(cmd, shell=True, env=env)]: the PID of the child *)
  os_popen : string -> gmap string string -> Sys -> Z * Sys;
  (** [run.wait()]: the exit status of the child *)
  os_wait : Popen.t -> Sys -> Z * Sys;
  (** what the other processes do during one second of [time.sleep], given
      the seconds slept before *)
  os_elapse : nat -> Sys -> Sys }.

(** ** The monad of the engine *)

Definition M (A : Type) : Type := World -> result A * World.

Definition ret {A} (a : A) : M A := fun w => (Return a, w).
Definition raise {A} (e : exn) : M A := fun w => (Raise e, w).
Definition bind {A B} (m : M A) (f : A -> M B) : M B :=
  fun w => match m w with
           | (Return a, w') => f a w'
           | (Raise e, w') => (Raise e, w')
           end.
(** [try: m except: h] *)
Definition try_except {A} (m : M A) (h : exn -> M A) : M A :=
  fun w => match m w with
           | (Return a, w') => (Return a, w')
           | (Raise e, w') => h e w'
           end.
Definition lift {A} (r : result A) : M A := fun w => (r, w).

Notation "'let*' x ':=' m 'in' k" := (bind m (fun x => k))
  (at level 10, x name, m at level 200, k at level 200).

(** [for x in xs: s = body x s], stopping at the first exception. *)
Fixpoint for_fold {A S} (xs : list A) (s : S) (body : A -> S -> M S) : M S :=
  match xs with
  | [] => ret s
  | x :: xs' => let* s' := body x s in for_fold xs' s' body
  end.

(** [for x in xs: body x] *)
Definition for_each {A} (xs : list A) (body : A -> M unit) : M unit :=
  for_fold xs tt (fun x _ => body x).

(** Iterating over the value of [getlist]: [None] is not iterable. *)
Definition iter (r : result (option (list string))) : M (list string) :=
  let* l := lift r in
  match l with
  | Some l => ret l
  | None => raise (TypeError "'NoneType' object is not iterable")
  end.

Definition get_fs : M FS := fun w => (Return (sys_fs (w_sys w)), w).

Definition put_fs (fs : FS) : M unit :=
  fun w => (Return tt,
            mkWorld (mkSys fs (sys_procs (w_sys w))) (w_clock w) (w_trace w)
                    (w_self w)).

(** A call that changes the file system or raises. *)
Definition fs_update (f : FS -> result FS) : M unit :=
  let* fs := get_fs in
  let* fs' := lift (f fs) in
  put_fs fs'.

Definition get_self : M Systemctl := fun w => (Return (w_self w), w).

Definition put_self (self : Systemctl) : M unit :=
  fun w => (Return tt, mkWorld (w_sys w) (w_clock w) (w_trace w) self).

(** [checkstatus(cmd)] *)
Definition checkstatus (cmd : string) : bool * string :=
  if Str.startswith cmd "-" then (false, Str.tail cmd)
  else (true, cmd).

(** ** Environment lines *)

Module EnvLine.

Definition squote : ascii := "039"%char.
Definition dquote : ascii := "034"%char.

(** The common start of the three patterns, one or more word characters
    and an equals sign: the name and what follows the sign. *)
Definition match_name (line : string) : option (string * string) :=
  match Re.span_word line with
  | (String c w, String "=" rest) => Some (String c w, rest)
  | _ => None
  end.

(** The first and second pattern: after the equals sign a quote [q], any
    characters but [q], and [q] again. *)
Definition match_quoted (q : ascii) (line : string) : option (string * string) :=
  match match_name line with
  | Some (name, String c rest) =>
      if Ascii.eqb c q then
        match Re.until_char q rest with
        | Some (value, _) => Some (name, value)
        | None => None
        end
      else None
  | _ => None
  end.

(** The third pattern: after the equals sign the rest of the line. *)
Definition match_plain (line : string) : option (string * string) :=
  match match_name line with
  | Some (name, rest) => Some (name, Re.dot_star rest)
  | None => None
  end.

(** The body of the loop of [read_env_file] and [read_env_part] for one
    line: the pair it yields, if any. *)
Definition parse (real_line : string) : option (string * string) :=
  let line := Str.strip real_line in
  if negb (Str.truthy line) || Str.startswith line "#" then None
  else
    match match_quoted squote line with
    | Some nv => Some nv
    | None =>
        match match_quoted dquote line with
        | Some nv => Some nv
        | None => match_plain line
        end
    end.

End EnvLine.

(** ** A matcher for shell patterns *)

(** [fnmatch.fnmatchcase(name, pat)] translates the pattern to a regular
    expression, compiles it and matches the name: [*] stands for any
    characters, [?] for one, a bracket expression for one character of a
    set, with [!] to negate it.  Compiling fails on a bracket expression
    with a range whose end lies below its start: [refused] is the error
    of the compilation, and [fnmatchcase] the verdict of the match for a
    pattern that compiles. *)
Module Fnmatch.

Inductive token : Type :=
| Star
| Quest
| Lit (c : ascii)
| Class (negated : bool) (ranges : list (ascii * ascii)).

(** The members of a bracket expression: [c-d] is a range unless the
    hyphen comes last. *)
Fixpoint ranges_of (stuff : list ascii) : list (ascii * ascii) :=
  match stuff with
  | [] => []
  | c :: rest =>
      match rest with
      | h :: d :: rest' =>
          if Ascii.eqb h "-"%char then (c, d) :: ranges_of rest'
          else (c, c) :: ranges_of rest
      | _ => (c, c) :: ranges_of rest
      end
  end.

Definition class_of (stuff : string) : token :=
  match stuff with
  | String c stuff' =>
      if Ascii.eqb c "!"%char
      then Class true (ranges_of (list_ascii_of_string stuff'))
      else Class false (ranges_of (list_ascii_of_string stuff))
  | EmptyString => Class false []
  end.

(** The pattern as tokens, as [fnmatch.translate] reads it. *)
Fixpoint tokens (fuel : nat) (pat : string) : list token :=
  match fuel with
  | O => []
  | S fuel' =>
      match pat with
      | EmptyString => []
      | String c rest =>
          if Ascii.eqb c "*"%char then Star :: tokens fuel' rest
          else if Ascii.eqb c "?"%char then Quest :: tokens fuel' rest
          else if Ascii.eqb c "["%char then
            let '(bang, r1) :=
              match rest with
              | String "!" r => ("!", r)
              | _ => ("", rest)
              end in
            let '(first, r2) :=
              match r1 with
              | String "]" r => ("]", r)
              | _ => ("", r1)
              end in
            match Re.until_char "]"%char r2 with
            | None => Lit c :: tokens fuel' rest
            | Some (body, rest') =>
                class_of (bang +:+ first +:+ body) :: tokens fuel' rest'
            end
          else Lit c :: tokens fuel' rest
      end
  end.

Definition in_range (c : ascii) (r : ascii * ascii) : bool :=
  ((N_of_ascii r.1 <=? N_of_ascii c) && (N_of_ascii c <=? N_of_ascii r.2))%N.

Fixpoint matches (ts : list token) (name : string) : bool :=
  match ts with
  | [] => negb (Str.truthy name)
  | Star :: ts' =>
      (fix star (s : string) : bool :=
         matches ts' s
         || match s with
            | String _ s' => star s'
            | EmptyString => false
            end) name
  | Quest :: ts' =>
      match name with
      | String _ s' => matches ts' s'
      | EmptyString => false
      end
  | Lit c :: ts' =>
      match name with
      | String d s' => Ascii.eqb c d && matches ts' s'
      | EmptyString => false
      end
  | Class negated ranges :: ts' =>
      match name with
      | String d s' => xorb negated (existsb (in_range d) ranges)
                       && matches ts' s'
      | EmptyString => false
      end
  end.

(** [re_pat.match(name) is not None] for the compiled pattern *)
Definition fnmatchcase (name pat : string) : bool :=
  matches (tokens (String.length pat) pat) name.

(** A range the compiler refuses: its end lies below its start. *)
Definition bad_range (r : ascii * ascii) : bool :=
  (N_of_ascii r.2 <? N_of_ascii r.1)%N.

Definition bad_token (t : token) : bool :=
  match t with
  | Class _ ranges => existsb bad_range ranges
  | _ => false
  end.

(** What [re.compile(translate(pat))] raises, if anything. *)
Definition refused (pat : string) : option exn :=
  if existsb bad_token (tokens (String.length pat) pat)
  then Some (ReError "bad character range")
  else None.

End Fnmatch.

(** ** The engine *)

Section Engine.

Variable os : OS.

(** The verdict of [fnmatch.fnmatchcase(name, pattern)] for a pattern
    that compiles. *)
Variable fnmatchcase : string -> string -> bool.

(** [fnmatch.fnmatchcase(name, pattern)]: the pattern is compiled, which
    raises for a pattern that is refused, and then matched. *)
Definition fnmatch_fnmatchcase (name pat : string) : result bool :=
  match Fnmatch.refused pat with
  | Some e => Raise e
  | None => Return (fnmatchcase name pat)
  end.

(** *** System calls *)

(** [os.kill(pid, sig)] *)
Definition kill (pid sig : Z) : M unit :=
  fun w =>
    let '(r, s) := os_kill os pid sig (w_sys w) in
    let w' := mkWorld s (w_clock w) (w_trace w ++ [EvKill pid sig])%list
                      (w_self w) in
    match r with
    | None => (Return tt, w')
    | Some e => (Raise (OSError e), w')
    end.

(** The world after [n] more seconds. *)
Fixpoint elapse (n : nat) (w : World) : World :=
  match n with
  | O => w
  | S n' =>
      elapse n' (mkWorld (os_elapse os (w_clock w) (w_sys w)) (S (w_clock w))
                         (w_trace w) (w_self w))
  end.

(** [time.sleep(seconds)] *)
Definition time_sleep (seconds : nat) : M unit :=
  fun w =>
    (Return tt,
     elapse seconds
       (mkWorld (w_sys w) (w_clock w) (w_trace w ++ [EvSleep seconds])%list
                (w_self w))).

(** [subprocess.Popen(cmd, shell=True, env=env)] *)
Definition Popen_new (cmd : string) (env : gmap string string) : M Popen.t :=
  fun w =>
    let '(p, s) := os_popen os cmd env (w_sys w) in
    (Return (Popen.mk p cmd None),
     mkWorld s (w_clock w) (w_trace w ++ [EvPopen cmd env p])%list (w_self w)).

(** [run.wait()], which sets [run.returncode] *)
Definition Popen_wait (run : Popen.t) : M Popen.t :=
  fun w =>
    let '(rc, s) := os_wait os run (w_sys w) in
    (Return (Popen.mk (Popen.pid run) (Popen.args run) (Some rc)),
     mkWorld s (w_clock w) (w_trace w ++ [EvWait (Popen.pid run)])%list (w_self w)).

(** The truth value of [run.returncode]. *)
Definition failed (run : Popen.t) : bool :=
  match Popen.returncode run with
  | Some rc => negb (rc =? 0)
  | None => false
  end.

(** *** Module level functions *)

(** [pid_exists(pid)] *)
Definition pid_exists (pid : pyval) : M bool :=
  match pid with
  | PyNone => ret false
  | PyStr _ =>
      (* a string is neither below nor equal to 0, and os.kill refuses it *)
      raise (TypeError "an integer is required")
  | PyInt pid =>
      if pid <? 0 then ret false
      else if pid =? 0 then raise (ValueError "invalid PID 0")
      else
        try_except (let* _ := kill pid 0 in ret true)
          (fun err =>
             match err with
             | OSError errno =>
                 if errno =? ESRCH then ret false
                 else if errno =? EPERM then ret true
                 else raise err
             | _ => raise err
             end)
  end.

(** [subprocess_nowait(cmd, env)] *)
Definition subprocess_nowait (cmd : string) (env : gmap string string)
  : M Popen.t :=
  Popen_new cmd env.

(** [subprocess_wait(cmd, env, check)] *)
Definition subprocess_wait (cmd : string) (env : gmap string string)
    (check : bool) : M Popen.t :=
  let* run := Popen_new cmd env in
  let* run := Popen_wait run in
  if check && failed run then raise (Exception "command failed")
  else ret run.

(** *** PID files *)

(** [self.sleep(seconds)] *)
Definition sleep (seconds : option nat) : M unit :=
  time_sleep (match seconds with
              | Some (S n) => S n
              | _ => 1%nat
              end).

(** The loop of [read_pid_file]: the integer on the first line that is
    not blank, [pid] when every line is blank. *)
Fixpoint first_pid (lines : list string) (pid : pyval) : result pyval :=
  match lines with
  | [] => Return pid
  | line :: lines' =>
      if Str.truthy (Str.strip line) then
        match py_int (Str.strip line) with
        | Return n => Return (PyInt n)
        | Raise e => Raise e
        end
      else first_pid lines' pid
  end.

(** [self.read_pid_file(pid_file, default)] *)
Definition read_pid_file (pid_file : option string) (default : pyval)
  : M pyval :=
  match pid_file with
  | None => ret default
  | Some pid_file =>
      if negb (Str.truthy pid_file) then ret default
      else
        let* fs := get_fs in
        if negb (Fs.isfile fs pid_file) then ret default
        else
          try_except
            (let* text := lift (Fs.read fs pid_file) in
             lift (first_pid (Str.readlines text) default))
            (fun _ => ret default)
  end.

(** [self.write_pid_file(pid_file, pid)] *)
Definition write_pid_file (pid_file : option string) (pid : Z) : M bool :=
  match pid_file with
  | None => ret false
  | Some pid_file =>
      if negb (Str.truthy pid_file) then ret false
      else
        let dirpath := Path.dirname (os_abspath os pid_file) in
        let* fs := get_fs in
        let* _ := if negb (Fs.isdir fs dirpath)
                  then fs_update (fun fs => Fs.makedirs fs dirpath)
                  else ret tt in
        let* _ := fs_update
                    (fun fs => Fs.write fs pid_file (str_of_int pid +:+ Str.NL)) in
        ret true
  end.

(** The loop of [wait_pid_file], [n] rounds. *)
Fixpoint wait_pid_loop (n : nat) (dirpath pid_file : string) : M pyval :=
  match n with
  | O => ret PyNone
  | S n' =>
      let* fs := get_fs in
      if negb (Fs.isdir fs dirpath) then
        let* _ := sleep (Some 1%nat) in
        wait_pid_loop n' dirpath pid_file
      else
        let* pid := read_pid_file (Some pid_file) PyNone in
        if negb (py_truthy pid) then wait_pid_loop n' dirpath pid_file
        else
          let* alive := pid_exists pid in
          if negb alive then wait_pid_loop n' dirpath pid_file
          else ret pid
  end.

(** [self.wait_pid_file(pid_file)] *)
Definition wait_pid_file (pid_file : option string) : M pyval :=
  match pid_file with
  | None =>
      raise (AttributeError "'NoneType' object has no attribute 'startswith'")
  | Some pid_file =>
      let dirpath := Path.dirname (os_abspath os pid_file) in
      let* self := get_self in
      wait_pid_loop (_waitprocfile self) dirpath pid_file
  end.

(** [self.default_pid_file(unit)] *)
Definition default_pid_file (unit : string) : string :=
  "/var/run/" +:+ unit +:+ ".pid".

(** *** The environment of a command *)

(** [self.read_env_part(env_part)] *)
Definition read_env_part (env_part : string) : list (string * string) :=
  omap EnvLine.parse (Str.split_nl env_part).

(** [self.read_env_file(env_file)] *)
Definition read_env_file (env_file : string) : M (list (string * string)) :=
  let* fs := get_fs in
  let dash := Str.startswith env_file "-" in
  let env_file := if dash then Str.tail env_file else env_file in
  if dash && negb (Fs.isfile fs env_file) then ret []
  else
    try_except
      (let* text := lift (Fs.read fs env_file) in
       ret (omap EnvLine.parse (Str.readlines text)))
      (fun _ => ret []).

(** [for name, value in pairs: env[name] = value] *)
Definition overlay (env : gmap string string) (pairs : list (string * string))
  : gmap string string :=
  foldl (fun env nv => <[nv.1 := nv.2]> env) env pairs.

(** [self.get_env(conf)] *)
Definition get_env (conf : UnitConfigParser.t) : M (gmap string string) :=
  let env := os_environ os in
  let* parts :=
    iter (UnitConfigParser.getlist conf (Some "Service") "Environment" (Some []) false) in
  let* env :=
    for_fold parts env
      (fun env_part env => ret (overlay env (read_env_part env_part))) in
  let* files :=
    iter (UnitConfigParser.getlist conf (Some "Service") "EnvironmentFile" (Some [])
            false) in
  for_fold files env
    (fun env_file env =>
       let* pairs := read_env_file env_file in
       ret (overlay env pairs)).

(** The string a call of [conf.get] with a default returns; [None] has no
    string methods. *)
Definition get_str (conf : UnitConfigParser.t) (section : option string)
    (opt default : string) : M string :=
  let* v := lift (UnitConfigParser.get conf section opt (Some default) false) in
  match v with
  | Some s => ret s
  | None => raise (AttributeError "'NoneType' object has no attribute")
  end.

(** [self.sudo_from(conf)] *)
Definition sudo_from (conf : UnitConfigParser.t) : M string :=
  let* runuser := get_str conf (Some "Service") "User" "" in
  let* rungroup := get_str conf (Some "Service") "Group" "" in
  if Str.truthy runuser && Str.truthy rungroup then
    ret ("/usr/sbin/runuser -g " +:+ rungroup +:+ " -u " +:+ runuser +:+ " -- ")
  else if Str.truthy runuser then
    ret ("/usr/sbin/runuser -u " +:+ runuser +:+ " -- ")
  else if Str.truthy rungroup then
    ret ("/usr/sbin/runuser -g " +:+ rungroup +:+ " -- ")
  else ret "".

(** [self.get_pid_file_from(conf)] *)
Definition get_pid_file_from (conf : UnitConfigParser.t) : M (option string) :=
  match UnitConfigParser.filename conf with
  | None => ret None
  | Some filename =>
      if negb (Str.truthy filename) then ret None
      else
        let unit := Path.basename filename in
        let default := default_pid_file unit in
        lift (UnitConfigParser.get conf (Some "Service") "PIDFile" (Some default) false)
  end.

(** *** Killing *)

(** The first loop of [kill_pid], [n] rounds. *)
Fixpoint kill_pid_term (n : nat) (pid : Z) : M unit :=
  match n with
  | O => ret tt
  | S n' =>
      let* _ := kill pid SIGTERM in
      let* alive := pid_exists (PyInt pid) in
      if negb alive then ret tt
      else
        let* _ := sleep (Some 1%nat) in
        let* alive := pid_exists (PyInt pid) in
        if negb alive then ret tt
        else kill_pid_term n' pid
  end.

(** The second loop of [kill_pid], [n] rounds. *)
Fixpoint kill_pid_kill (n : nat) (pid : Z) : M unit :=
  match n with
  | O => ret tt
  | S n' =>
      let* alive := pid_exists (PyInt pid) in
      if negb alive then ret tt
      else
        let* _ := kill pid SIGKILL in
        let* _ := sleep (Some 1%nat) in
        kill_pid_kill n' pid
  end.

(** [self.kill_pid(pid)] *)
Definition kill_pid (pid : pyval) : M unit :=
  if negb (py_truthy pid) then ret tt
  else
    match pid with
    | PyInt pid =>
        let* self := get_self in
        let* _ := kill_pid_term (_waitkillproc self) pid in
        kill_pid_kill (_waitkillproc self) pid
    | _ => raise (TypeError "an integer is required")
    end.

(** [self.active_pid_from(conf)] *)
Definition active_pid_from (conf : UnitConfigParser.t) : M pyval :=
  let* pid_file := get_pid_file_from conf in
  let* pid := read_pid_file pid_file PyNone in
  let* exists_ := pid_exists pid in
  if negb exists_ then ret PyNone else ret pid.

(** [self.is_active_from(conf)] *)
Definition is_active_from (conf : UnitConfigParser.t) : M bool :=
  let* pid := active_pid_from conf in
  match pid with
  | PyNone => ret false
  | _ => ret true
  end.

(** *** The lifecycle verbs *)

(** [x in xs] for strings *)
Definition str_in (x : string) (xs : list string) : bool :=
  existsb (String.eqb x) xs.

(** The loop each verb runs before and after its primary action:
    [for cmd in conf.getlist("Service", hook, []): check, cmd =
    checkstatus(cmd); subprocess_wait(cmd, env, check=check)]. *)
Definition run_hooks (conf : UnitConfigParser.t) (hook : string)
    (env : gmap string string) : M unit :=
  let* cmds := iter (UnitConfigParser.getlist conf (Some "Service") hook (Some []) false) in
  for_each cmds
    (fun cmd =>
       let '(check, cmd) := checkstatus cmd in
       let* _ := subprocess_wait cmd env check in
       ret tt).

(** [runs = conf.get("Service", "Type", "simple").lower()] *)
Definition run_type (conf : UnitConfigParser.t) : M string :=
  let* t := get_str conf (Some "Service") "Type" "simple" in
  ret (Str.lower t).

(** ["'%s' verb" % conf.filename()] *)
Definition sysv_cmd (conf : UnitConfigParser.t) (verb : string) : string :=
  let exe := match UnitConfigParser.filename conf with
             | Some f => f
             | None => "None"
             end in
  "'" +:+ exe +:+ "' " +:+ verb.

(** [self.start_unit_from(conf)].  The guard [if not conf: return] never
    fires: an instance of [UnitConfigParser] is true. *)
Definition start_unit_from (conf : UnitConfigParser.t) : M bool :=
  let* runs := run_type conf in
  let* sudo := sudo_from conf in
  let* env := get_env conf in
  let* _ := run_hooks conf "ExecStartPre" env in
  let* env :=
    if str_in runs ["sysv"] then
      let cmd := sysv_cmd conf "start" in
      let env := <["SYSTEMCTL_SKIP_REDIRECT" := "yes"]> env in
      let* _ := subprocess_wait cmd env false in
      ret env
    else if str_in runs ["simple"; "oneshot"; "notify"] then
      let* cmds :=
        iter (UnitConfigParser.getlist conf (Some "Service") "ExecStart" (Some []) false) in
      for_fold cmds env
        (fun cmd env =>
           let* pid_file := get_pid_file_from conf in
           let* pid := read_pid_file pid_file (PyStr "") in
           let env := <["MAINPID" := py_str pid]> env in
           let* run := subprocess_nowait (sudo +:+ cmd) env in
           let* _ := write_pid_file pid_file (Popen.pid run) in
           let* _ := if str_in runs ["oneshot"] then Popen_wait run
                     else ret run in
           ret env)
    else if str_in runs ["forking"] then
      let* cmds :=
        iter (UnitConfigParser.getlist conf (Some "Service") "ExecStart" (Some []) false) in
      let* _ :=
        for_each cmds
          (fun cmd =>
             let '(check, cmd) := checkstatus cmd in
             let* run := subprocess_wait (sudo +:+ cmd) env false in
             if check && failed run then raise (Exception "ExecStart")
             else
               let* pid_file := get_pid_file_from conf in
               let* _ := wait_pid_file pid_file in
               ret tt) in
      ret env
    else raise (Exception "unsupported run type") in
  let* _ := run_hooks conf "ExecStartPost" env in
  ret true.

(** [self.stop_unit_from(conf)], without the guard that never fires *)
Definition stop_unit_from (conf : UnitConfigParser.t) : M bool :=
  let* runs := run_type conf in
  let* sudo := sudo_from conf in
  let* env := get_env conf in
  let* _ := run_hooks conf "ExecStopPre" env in
  let* exec_stop :=
    iter (UnitConfigParser.getlist conf (Some "Service") "ExecStop" (Some []) false) in
  let* env :=
    if str_in runs ["sysv"] then
      let cmd := sysv_cmd conf "stop" in
      let env := <["SYSTEMCTL_SKIP_REDIRECT" := "yes"]> env in
      let* _ := subprocess_wait cmd env false in
      ret env
    else if bool_decide (exec_stop = []) then
      let* pid_file := get_pid_file_from conf in
      let* pid := read_pid_file pid_file PyNone in
      let* _ := kill_pid pid in
      match pid_file with
      | None => raise (TypeError "coercing to Unicode: need string or buffer")
      | Some pid_file =>
          let* fs := get_fs in
          let* _ := if Fs.isfile fs pid_file
                    then fs_update (fun fs => Fs.remove fs pid_file)
                    else ret tt in
          ret env
      end
    else if str_in runs ["simple"; "oneshot"; "notify"] then
      for_fold exec_stop env
        (fun cmd env =>
           let* pid_file := get_pid_file_from conf in
           let* pid := read_pid_file pid_file (PyStr "") in
           let env := <["MAINPID" := py_str pid]> env in
           let* run := subprocess_nowait (sudo +:+ cmd) env in
           let* _ := if str_in runs ["oneshot"] then Popen_wait run
                     else ret run in
           ret env)
    else if str_in runs ["forking"] then
      for_fold exec_stop env
        (fun cmd env =>
           let* active := is_active_from conf in
           let* pid_file := get_pid_file_from conf in
           let* pid := read_pid_file pid_file (PyStr "") in
           let env := <["MAINPID" := py_str pid]> env in
           let '(check, cmd) := checkstatus cmd in
           let* run := subprocess_wait (sudo +:+ cmd) env false in
           if active && (check && failed run) then raise (Exception "ExecStop")
           else
             let* pid_file := get_pid_file_from conf in
             let* _ := wait_pid_file pid_file in
             ret env)
    else raise (Exception "unsupported run type") in
  let* _ := run_hooks conf "ExecStopPost" env in
  ret true.

(** [self.restart_unit_from(conf)], without the guard that never fires.
    The test before the stop/start branch reads the option [ExceRestart],
    as the source spells it. *)
Definition restart_unit_from (conf : UnitConfigParser.t) : M bool :=
  let* runs := run_type conf in
  let* sudo := sudo_from conf in
  let* env := get_env conf in
  let* _ := run_hooks conf "ExecRestartPre" env in
  let* exce_restart :=
    iter (UnitConfigParser.getlist conf (Some "Service") "ExceRestart" (Some []) false) in
  let* env :=
    if str_in runs ["sysv"] then
      let cmd := sysv_cmd conf "restart" in
      let env := <["SYSTEMCTL_SKIP_REDIRECT" := "yes"]> env in
      let* _ := subprocess_wait cmd env false in
      ret env
    else if bool_decide (exce_restart = []) then
      let* _ := stop_unit_from conf in
      let* _ := start_unit_from conf in
      ret env
    else if str_in runs ["simple"; "oneshot"; "notify"] then
      let* cmds :=
        iter (UnitConfigParser.getlist conf (Some "Service") "ExecRestart" (Some [])
                false) in
      for_fold cmds env
        (fun cmd env =>
           let* pid_file := get_pid_file_from conf in
           let* pid := read_pid_file pid_file (PyStr "") in
           let env := <["MAINPID" := py_str pid]> env in
           let* run := subprocess_nowait (sudo +:+ cmd) env in
           let* _ := if str_in runs ["oneshot"] then Popen_wait run
                     else ret run in
           ret env)
    else if str_in runs ["forking"] then
      let* cmds :=
        iter (UnitConfigParser.getlist conf (Some "Service") "ExecRestart" (Some [])
                false) in
      let* _ :=
        for_each cmds
          (fun cmd =>
             let '(check, cmd) := checkstatus cmd in
             let* run := subprocess_wait (sudo +:+ cmd) env false in
             if check && failed run then raise (Exception "ExecRestart")
             else
               let* pid_file := get_pid_file_from conf in
               let* _ := wait_pid_file pid_file in
               ret tt) in
      ret env
    else raise (Exception "unsupported run type") in
  let* _ := run_hooks conf "ExecRestartPost" env in
  ret true.

(** *** The unit catalogue *)

(** [self._file_for_unit_sysd[name] = path] *)
Definition sysd_insert (name path : string) : M unit :=
  let* self := get_self in
  put_self (set_file_for_unit_sysd self
              (Some (<[name := path]> (catalogue (_file_for_unit_sysd self))))).

(** [self._file_for_unit_sysv[name] = path] *)
Definition sysv_insert (name path : string) : M unit :=
  let* self := get_self in
  put_self (set_file_for_unit_sysv self
              (Some (<[name := path]> (catalogue (_file_for_unit_sysv self))))).

(** [self.scan_unit_sysd_files()] *)
Definition scan_unit_sysd_files : M (list string) :=
  let* self := get_self in
  let* _ :=
    match _file_for_unit_sysd self with
    | Some _ => ret tt
    | None =>
        let* _ := put_self (set_file_for_unit_sysd self (Some ∅)) in
        for_each [_sysd_folder1 self; _sysd_folder2 self]
          (fun folder =>
             let* fs := get_fs in
             if negb (Fs.isdir fs folder) then ret tt
             else
               let* names := lift (Fs.listdir fs folder) in
               for_each names
                 (fun name => sysd_insert name (Path.join folder name)))
    end in
  let* self := get_self in
  ret (keys (catalogue (_file_for_unit_sysd self))).

(** [self.scan_unit_sysv_files()] *)
Definition scan_unit_sysv_files : M (list string) :=
  let* self := get_self in
  let* _ :=
    match _file_for_unit_sysv self with
    | Some _ => ret tt
    | None =>
        let* _ := put_self (set_file_for_unit_sysv self (Some ∅)) in
        for_each [_sysv_folder1 self; _sysv_folder2 self]
          (fun folder =>
             let* fs := get_fs in
             if negb (Fs.isdir fs folder) then ret tt
             else
               let* names := lift (Fs.listdir fs folder) in
               for_each names
                 (fun name =>
                    sysv_insert (name +:+ ".service") (Path.join folder name)))
    end in
  let* self := get_self in
  ret (keys (catalogue (_file_for_unit_sysv self))).

(** The two lookups of [unit_sysd_file] and [unit_sysv_file] in a
    catalogue. *)
Definition lookup_unit (m : gmap string string) (module : string)
  : option string :=
  if Str.truthy module && bool_decide (is_Some (m !! module)) then m !! module
  else if Str.truthy module
          && bool_decide (is_Some (m !! (module +:+ ".service")))
       then m !! (module +:+ ".service")
       else None.

(** [self.unit_sysd_file(module)] *)
Definition unit_sysd_file (module : string) : M (option string) :=
  let* _ := scan_unit_sysd_files in
  let* self := get_self in
  ret (lookup_unit (catalogue (_file_for_unit_sysd self)) module).

(** [self.unit_sysv_file(module)] *)
Definition unit_sysv_file (module : string) : M (option string) :=
  let* _ := scan_unit_sysv_files in
  let* self := get_self in
  ret (lookup_unit (catalogue (_file_for_unit_sysv self)) module).

(** [self.read_sysd_file(path)] *)
Definition read_sysd_file (path : string) : M UnitConfigParser.t :=
  let* self := get_self in
  match _loaded_file_sysd self !! path with
  | Some conf => ret conf
  | None =>
      let* fs := get_fs in
      let* conf := lift (UnitConfigParser.read_sysd fs UnitConfigParser.new path) in
      let override_d := path +:+ ".d" in
      let* conf :=
        if Fs.isdir fs override_d then
          let* names := lift (Fs.listdir fs override_d) in
          for_fold names conf
            (fun name conf =>
               if Str.endswith name ".conf"
               then lift (UnitConfigParser.read_sysd fs conf
                            (Path.join override_d name))
               else ret conf)
        else ret conf in
      let* self := get_self in
      let* _ := put_self (set_loaded_file_sysd self
                            (<[path := conf]> (_loaded_file_sysd self))) in
      ret conf
  end.

(** [self.read_sysv_file(path)] *)
Definition read_sysv_file (path : string) : M UnitConfigParser.t :=
  let* self := get_self in
  match _loaded_file_sysv self !! path with
  | Some conf => ret conf
  | None =>
      let* fs := get_fs in
      let* conf := lift (UnitConfigParser.read_sysv fs UnitConfigParser.new path) in
      let* self := get_self in
      let* _ := put_self (set_loaded_file_sysv self
                            (<[path := conf]> (_loaded_file_sysv self))) in
      ret conf
  end.

(** [self.read_sysd_unit(module)] *)
Definition read_sysd_unit (module : string) : M (option UnitConfigParser.t) :=
  let* path := unit_sysd_file module in
  match path with
  | None => ret None
  | Some path =>
      if negb (Str.truthy path) then ret None
      else let* conf := read_sysd_file path in ret (Some conf)
  end.

(** [self.read_sysv_unit(module)] *)
Definition read_sysv_unit (module : string) : M (option UnitConfigParser.t) :=
  let* path := unit_sysv_file module in
  match path with
  | None => ret None
  | Some path =>
      if negb (Str.truthy path) then ret None
      else let* conf := read_sysv_file path in ret (Some conf)
  end.

(** [self.read_unit(module)] *)
Definition read_unit (module : string) : M UnitConfigParser.t :=
  let* data := read_sysd_unit module in
  match data with
  | Some data => ret data
  | None =>
      let* data := read_sysv_unit module in
      match data with
      | Some data => ret data
      | None => raise (Exception "unit file not found")
      end
  end.

(** The test of the loops of [match_sysd_units] and [match_sysv_units]:
    whether [item] is yielded.  The first list comprehension calls the
    matcher for every pattern, in order. *)
Definition unit_matches (modules : list string) (suffix item : string)
  : result bool :=
  if bool_decide (modules = []) then Return true
  else
    match filter_result (fun module => fnmatch_fnmatchcase item module)
            modules
    with
    | Raise e => Raise e
    | Return globbed =>
        if negb (bool_decide (globbed = [])) then Return true
        else if negb (bool_decide
                        (List.filter
                           (fun module => String.eqb (module +:+ suffix) item)
                           modules
                         = []))
             then Return true
        else Return false
    end.

(** [self.match_sysd_units(modules, suffix)], for a list of patterns *)
Definition match_sysd_units (modules : list string) (suffix : string)
  : M (list string) :=
  let* _ := scan_unit_sysd_files in
  let* self := get_self in
  lift (filter_result (unit_matches modules suffix)
          (sorted (keys (catalogue (_file_for_unit_sysd self))))).

(** [self.match_sysv_units(modules, suffix)], for a list of patterns *)
Definition match_sysv_units (modules : list string) (suffix : string)
  : M (list string) :=
  let* _ := scan_unit_sysv_files in
  let* self := get_self in
  lift (filter_result (unit_matches modules suffix)
          (sorted (keys (catalogue (_file_for_unit_sysv self))))).

(** [for unit in units: if unit not in found: found.append(unit)] *)
Definition append_new (found units : list string) : list string :=
  foldl (fun found unit =>
           if str_in unit found then found else (found ++ [unit])%list)
        found units.

(** [self.match_units(modules, suffix)] *)
Definition match_units (modules : list string) (suffix : string)
  : M (list string) :=
  let found := [] in
  let* sysd := match_sysd_units modules suffix in
  let found := append_new found sysd in
  let* sysv := match_sysv_units modules suffix in
  let found := append_new found sysv in
  ret found.

(** [self.start_unit(unit)] *)
Definition start_unit (unit : string) : M bool :=
  let* conf := read_unit unit in
  start_unit_from conf.

(** [self.start_of_units] over the patterns [modules] *)
Definition start_of_units (modules : list string) : M bool :=
  let done := true in
  let* units := match_units modules ".service" in
  for_fold units done
    (fun unit done =>
       let* ok := start_unit unit in
       if negb ok then ret false else ret done).

(** [self.restart_unit(unit)] *)
Definition restart_unit (unit : string) : M bool :=
  let* conf := read_unit unit in
  restart_unit_from conf.

(** *** Init mode *)

(** [self.rc3_folder()] *)
Definition rc3_folder : M string :=
  let* fs := get_fs in
  if Fs.isdir fs "/etc/rc3.d" then ret "/etc/rc3.d"
  else ret "/etc/init.d/rc3.d".

(** The match of [unit] against [sysv], two digits and a group of any
    characters, for a prefix [sysv] of plain characters: the value of
    [m.group(1)]. *)
Definition match_rc (sysv unit : string) : option string :=
  match Fs.strip_prefix sysv unit with
  | Some (String d1 (String d2 rest)) =>
      if Str.isdigit d1 && Str.isdigit d2 then Some (Re.dot_star rest)
      else None
  | _ => None
  end.

(** The inner loop of [system_wants_services]:
    [for ignore in igno: if fnmatch.fnmatchcase(service, ignore): continue].
    Its [continue] goes on with the next pattern.  The patterns are those
    of the ignore lists, which have no bracket: all of them compile. *)
Definition ignore_loop (service : string) (igno : list string) : unit :=
  foldl (fun _ ignore => if fnmatchcase service ignore then tt else tt) tt igno.

(** [self.system_wants_services(sysv, default_target)] *)
Definition system_wants_services (sysv default_target : string)
  : M (list string) :=
  let igno := (igno_centos ++ igno_opensuse ++ igno_ubuntu ++ igno_always)%list in
  let wants2_folder :=
    Path.join Globals._sysd_folder2 (default_target +:+ ".wants") in
  let wants_services := [] in
  let* fs := get_fs in
  let* names := lift (Fs.listdir fs wants2_folder) in
  let wants_services :=
    foldl (fun wants_services unit =>
             if Str.endswith unit ".service"
             then (wants_services ++ [unit])%list
             else wants_services)
          wants_services (sorted names) in
  let* rc3 := rc3_folder in
  let* fs := get_fs in
  let* names := lift (Fs.listdir fs rc3) in
  ret (foldl (fun wants_services unit =>
                match match_rc sysv unit with
                | Some service =>
                    let _ := ignore_loop service igno in
                    (wants_services ++ [service])%list
                | None => wants_services
                end)
             wants_services (sorted names)).

End Engine.

(** ** Sample systems *)

(** Concrete systems on which the engine is run below. *)
Module Sample.

(** [os.kill] on a process table: a PID that is not in the table gives
    [ESRCH]; signal 0 changes nothing, any other signal ends the process. *)
Definition kill (pid sig : Z) (s : Sys) : option Z * Sys :=
  if bool_decide (pid ∈ sys_procs s) then
    (None,
     if sig =? 0 then s else mkSys (sys_fs s) (sys_procs s ∖ {[pid]}))
  else (Some ESRCH, s).

(** The child gets a PID above every PID of the table. *)
Definition popen (cmd : string) (env : gmap string string) (s : Sys)
  : Z * Sys :=
  let p := 1 + set_fold Z.max 1 (sys_procs s) in
  (p, mkSys (sys_fs s) (sys_procs s ∪ {[p]})).

(** A command that ends in [false] exits with 1, any other with 0. *)
Definition wait (run : Popen.t) (s : Sys) : Z * Sys :=
  (if Str.endswith (Popen.args run) "false" then 1 else 0,
   mkSys (sys_fs s) (sys_procs s ∖ {[Popen.pid run]})).

(** Nothing else runs on the system. *)
Definition os : OS :=
  mkOS {["PATH" := "/usr/bin:/bin"]} (fun p => p) kill popen wait (fun _ s => s).

(** Every signal is refused with [EPERM]. *)
Definition os_denied : OS :=
  mkOS ∅ (fun p => p) (fun _ _ s => (Some EPERM, s)) popen wait (fun _ s => s).

(** A daemon that, once five seconds have passed, runs as PID 42 and has
    written its PID file. *)
Definition daemon_elapse (clock : nat) (s : Sys) : Sys :=
  if (4 <=? clock)%nat then
    mkSys (mkFS (fs_dirs (sys_fs s))
                (<["/run/demo.pid" := "42" +:+ Str.NL]> (fs_files (sys_fs s))))
          (sys_procs s ∪ {[42]})
  else s.

Definition os_daemon : OS :=
  mkOS ∅ (fun p => p) kill popen wait daemon_elapse.

Definition world (fs : FS) : World :=
  mkWorld (mkSys fs {[1]}) 0 [] Systemctl_init.

(** The standard directories, without units. *)
Definition dirs : gset string :=
  list_to_set ["/"; "/etc"; "/etc/systemd"; "/etc/systemd/system";
               "/etc/systemd/system/multi-user.target.wants";
               "/etc/rc3.d"; "/run"; "/var"; "/var/run"].

Definition fs_empty : FS := mkFS dirs ∅.

(** The commands an event list starts, in order. *)
Definition commands (trace : list Event) : list string :=
  omap (fun e => match e with
                 | EvPopen cmd _ _ => Some cmd
                 | _ => None
                 end) trace.

End Sample.

(** ** Looking at units *)

(** The value [enabled_from] returns: a truth value for a legacy unit, a
    word for a modern one. *)
Inductive enabled_value : Type :=
| EnabledBool (b : bool)
| EnabledWord (s : string).

(** ["{}".format(v)] *)
Definition str_of_enabled (v : enabled_value) : string :=
  match v with
  | EnabledBool true => "True"
  | EnabledBool false => "False"
  | EnabledWord s => s
  end.

Section Queries.

Variable os : OS.

(** [self.unit_file(module)]; the call without a module passes [None],
    which the two lookups treat like the empty string. *)
Definition unit_file (module : option string) : M (option string) :=
  let module := match module with
                | Some m => m
                | None => ""
                end in
  let* path := unit_sysd_file module in
  match path with
  | Some path => ret (Some path)
  | None =>
      let* path := unit_sysv_file module in
      match path with
      | Some path => ret (Some path)
      | None => ret None
      end
  end.

(** [filename in m.values()] *)
Definition in_values (m : gmap string string) (filename : string) : bool :=
  str_in filename (map_to_list m).*2.

(** [self.is_sysv_file(filename)]: [None], [False] or [True] *)
Definition is_sysv_file (filename : option string) : M (option bool) :=
  let* _ := unit_file None in
  match filename with
  | None => ret None
  | Some filename =>
      if negb (Str.truthy filename) then ret None
      else
        let* self := get_self in
        if in_values (catalogue (_file_for_unit_sysd self)) filename
        then ret (Some false)
        else if in_values (catalogue (_file_for_unit_sysv self)) filename
        then ret (Some true)
        else ret None
  end.

(** [self.default_unit(module)] *)
Definition default_unit (module : string) : UnitConfigParser.t :=
  let conf := UnitConfigParser.new in
  let conf := UnitConfigParser.set conf (Some "Unit") "Id" module in
  let conf := UnitConfigParser.set conf (Some "Unit") "Names" module in
  UnitConfigParser.set conf (Some "Unit") "Description"
    ("NOT-FOUND " +:+ module).

(** [self.try_read_unit(module)] *)
Definition try_read_unit (module : string) : M UnitConfigParser.t :=
  try_except (read_unit module) (fun _ => ret (default_unit module)).

(** [self.get_description_from(conf)] *)
Definition get_description_from (conf : UnitConfigParser.t) : M string :=
  get_str conf (Some "Unit") "Description" "".

(** [self.is_active(unit)] *)
Definition is_active (unit : string) : M bool :=
  let* conf := try_read_unit unit in
  is_active_from os conf.

(** [self.active_from(conf)] *)
Definition active_from (conf : UnitConfigParser.t) : M string :=
  let* pid := active_pid_from os conf in
  match pid with
  | PyNone => ret "dead"
  | _ => ret ("PID " +:+ py_str pid)
  end.

(** [self.is_failed_from(conf)] *)
Definition is_failed_from (conf : UnitConfigParser.t) : M bool :=
  let* pid_file := get_pid_file_from conf in
  let* pid := read_pid_file pid_file PyNone in
  let* exists_ := pid_exists os pid in
  ret (negb exists_).

(** [self.is_failed(unit)] *)
Definition is_failed (unit : string) : M bool :=
  let* conf := try_read_unit unit in
  is_failed_from conf.

(** [self.kill_unit_from(conf)] *)
Definition kill_unit_from (conf : UnitConfigParser.t) : M unit :=
  let* pid_file := get_pid_file_from conf in
  let* pid := read_pid_file pid_file PyNone in
  kill_pid os pid.

(** [self.wanted_from(conf)] *)
Definition wanted_from (conf : UnitConfigParser.t) : M (option string) :=
  lift (UnitConfigParser.get conf (Some "Install") "WantedBy" None true).

(** [self.enablefolder(wanted)] *)
Definition enablefolder (wanted : option string) : option string :=
  match wanted with
  | None => None
  | Some wanted =>
      if negb (Str.truthy wanted) then None
      else
        let wanted := if negb (Str.endswith wanted ".wants")
                      then wanted +:+ ".wants" else wanted in
        Some ("/etc/systemd/system/" +:+ wanted)
  end.

(** The truth value of a wanted target. *)
Definition wanted_truthy (wanted : option string) : bool :=
  match wanted with
  | Some wanted => Str.truthy wanted
  | None => false
  end.

(** [os.path.exists(p)] *)
Definition path_exists (fs : FS) (p : string) : bool :=
  Fs.isfile fs p || Fs.isdir fs p.

(** [self.is_enabled_sysv(unit_file)] *)
Definition is_enabled_sysv (unit_file : string) : M bool :=
  let name := Path.basename unit_file in
  let* rc3 := rc3_folder in
  let target := Path.join rc3 ("S50" +:+ name) in
  let* fs := get_fs in
  if path_exists fs target then ret true else ret false.

(** [os.path.join(folder, os.path.basename(unit_file))] for values that
    may be [None] *)
Definition wants_target (folder unit_file : option string) : M string :=
  match unit_file with
  | None =>
      raise (AttributeError "'NoneType' object has no attribute 'rfind'")
  | Some unit_file =>
      match folder with
      | None =>
          raise (AttributeError "'NoneType' object has no attribute 'endswith'")
      | Some folder => ret (Path.join folder (Path.basename unit_file))
      end
  end.

(** [self.is_enabled(unit)] *)
Definition is_enabled (unit : string) : M bool :=
  let* unit_file := unit_file (Some unit) in
  let* sysv := is_sysv_file unit_file in
  match sysv, unit_file with
  | Some true, Some unit_file => is_enabled_sysv unit_file
  | _, _ =>
      let* conf := try_read_unit unit in
      let* wanted := wanted_from conf in
      let folder := enablefolder wanted in
      if negb (wanted_truthy wanted) then ret true
      else
        let* target := wants_target folder unit_file in
        let* fs := get_fs in
        if Fs.isfile fs target then ret true else ret false
  end.

(** [self.enabled_from(conf)] *)
Definition enabled_from (conf : UnitConfigParser.t) : M enabled_value :=
  let unit_file := UnitConfigParser.filename conf in
  let* sysv := is_sysv_file unit_file in
  match sysv, unit_file with
  | Some true, Some unit_file =>
      let* b := is_enabled_sysv unit_file in ret (EnabledBool b)
  | _, _ =>
      let* wanted := wanted_from conf in
      let folder := enablefolder wanted in
      if negb (wanted_truthy wanted) then ret (EnabledWord "static")
      else
        let* target := wants_target folder unit_file in
        let* fs := get_fs in
        if Fs.isfile fs target then ret (EnabledWord "enabled")
        else ret (EnabledWord "disabled")
  end.

(** [self.status_unit(unit)]: the exit code and the text *)
Definition status_unit (unit : string) : M (Z * string) :=
  let* conf := try_read_unit unit in
  let* description := get_description_from conf in
  let result := unit +:+ " - " +:+ description in
  if negb (UnitConfigParser.loaded conf =? 0)%nat then
    let* enabled := enabled_from conf in
    let result :=
      result +:+ Str.NL +:+ "    Loaded: loaded ("
      +:+ match UnitConfigParser.filename conf with
          | Some f => f
          | None => "None"
          end
      +:+ ", " +:+ str_of_enabled enabled +:+ ")" in
    let* active := is_active_from os conf in
    if active then
      let* state := active_from conf in
      ret (0, result +:+ Str.NL +:+ "    Active: active (" +:+ state +:+ ")")
    else
      let* state := active_from conf in
      ret (3, result +:+ Str.NL +:+ "    Active: inactive (" +:+ state +:+ ")")
  else
    ret (3, result +:+ Str.NL +:+ "    Loaded: failed").

(** [self.status_of_units] over the patterns [modules] *)
Definition status_of_units (fnmatchcase : string -> string -> bool)
    (modules : list string) : M (Z * string) :=
  let* units := match_units fnmatchcase modules ".service" in
  for_fold units (0, "")
    (fun unit acc =>
       let '(status, result) := acc in
       let* st := status_unit unit in
       let '(status1, result1) := st in
       let status := if negb (status1 =? 0) then status1 else status in
       let result := if Str.truthy result
                     then result +:+ Str.NL +:+ Str.NL else result in
       ret (status, result +:+ result1)).

(** [self.stop_unit(unit)] *)
Definition stop_unit (unit : string) : M bool :=
  let* conf := read_unit unit in
  stop_unit_from os conf.

(** [self.stop_of_units] over the patterns [modules] *)
Definition stop_of_units (fnmatchcase : string -> string -> bool)
    (modules : list string) : M bool :=
  let done := true in
  let* units := match_units fnmatchcase modules ".service" in
  for_fold units done
    (fun unit done =>
       let* ok := stop_unit unit in
       if negb ok then ret false else ret done).

(** [self.restart_of_units] over the patterns [modules] *)
Definition restart_of_units (fnmatchcase : string -> string -> bool)
    (modules : list string) : M bool :=
  let done := true in
  let* units := match_units fnmatchcase modules ".service" in
  for_fold units done
    (fun unit done =>
       let* ok := restart_unit os unit in
       if negb ok then ret false else ret done).

(** [self.try_restart(unit)]: the method is declared with the single
    parameter [unit], so the call on the object, which passes the object
    and the unit, is refused. *)
Definition try_restart (unit : string) : M bool :=
  raise (TypeError "try_restart() takes exactly 1 argument (2 given)").

(** [self.try_restart_of_units] over the patterns [modules] *)
Definition try_restart_of_units (fnmatchcase : string -> string -> bool)
    (modules : list string) : M bool :=
  let done := true in
  let* units := match_units fnmatchcase modules ".service" in
  for_fold units done
    (fun unit done =>
       let* ok := try_restart unit in
       if negb ok then ret false else ret done).

(** [self.reload_or_start(unit)]: the class has no attribute of that
    name. *)
Definition reload_or_start (unit : string) : M bool :=
  raise (AttributeError
           "Systemctl instance has no attribute 'reload_or_start'").

(** [self.reload_or_restart_of_units] over the patterns [modules] *)
Definition reload_or_restart_of_units (fnmatchcase : string -> string -> bool)
    (modules : list string) : M bool :=
  let done := true in
  let* units := match_units fnmatchcase modules ".service" in
  for_fold units done
    (fun unit done =>
       let* ok := reload_or_start unit in
       if negb ok then ret false else ret done).

(** [self.reload_or_try_restart(unit)]: declared with the single
    parameter [unit], like [try_restart]. *)
Definition reload_or_try_restart (unit : string) : M bool :=
  raise (TypeError "reload_or_try_restart() takes exactly 1 argument (2 given)").

(** [self.reload_or_try_restart_of_units] over the patterns [modules] *)
Definition reload_or_try_restart_of_units
    (fnmatchcase : string -> string -> bool) (modules : list string)
  : M bool :=
  let done := true in
  let* units := match_units fnmatchcase modules ".service" in
  for_fold units done
    (fun unit done =>
       let* ok := reload_or_try_restart unit in
       if negb ok then ret false else ret done).

(** [self.system_default_services(sysv, default_target)] *)
Definition system_default_services (fnmatchcase : string -> string -> bool)
    (sysv default_target : string) : M (list string) :=
  let igno := igno_always in
  let wants1_folder :=
    Path.join Globals._sysd_folder1 (default_target +:+ ".wants") in
  let wants2_folder :=
    Path.join Globals._sysd_folder2 (default_target +:+ ".wants") in
  let wants_services := [] in
  let* fs := get_fs in
  let* names := lift (Fs.listdir fs wants1_folder) in
  let wants_services :=
    foldl (fun wants_services unit =>
             if Str.endswith unit ".service" then wants_services
             else wants_services)
          wants_services (sorted names) in
  let* fs := get_fs in
  let* names := lift (Fs.listdir fs wants2_folder) in
  let wants_services :=
    foldl (fun wants_services unit =>
             if Str.endswith unit ".service"
             then (wants_services ++ [unit])%list
             else wants_services)
          wants_services (sorted names) in
  let* rc3 := rc3_folder in
  let* fs := get_fs in
  let* names := lift (Fs.listdir fs rc3) in
  ret (foldl (fun wants_services unit =>
                match match_rc sysv unit with
                | Some service =>
                    let _ := ignore_loop fnmatchcase service igno in
                    (wants_services ++ [service])%list
                | None => wants_services
                end)
             wants_services (sorted names)).

End Queries.


(** * The vocabulary of the properties *)

(** [opt] was never set in [section] of [conf]. *)
Definition never_set (conf : UnitConfigParser.t) (section : option string)
    (opt : string) : Prop :=
  forall sec, UnitConfigParser._dict conf !! section = Some sec ->
              sec !! opt = None.

(** The world after [os.kill(p, sig)] left the system as [s]. *)
Definition after_kill (w : World) (p sig : Z) (s : Sys) : World :=
  mkWorld s (w_clock w) (w_trace w ++ [EvKill p sig])%list (w_self w).

(** The file system after the parent directory of [pid_file] was made if
    missing, as [write_pid_file] does, unless that fails. *)
Definition with_parent (os : OS) (fs : FS) (pid_file : string) : result FS :=
  let dirpath := Path.dirname (os_abspath os pid_file) in
  if Fs.isdir fs dirpath then Return fs else Fs.makedirs fs dirpath.

(** The PID file [pid_file] can be written: its parent directory exists or
    can be made, and the path is not one of a directory. *)
Definition writable (os : OS) (fs : FS) (pid_file : string) : bool :=
  Str.truthy pid_file
  && match with_parent os fs pid_file with
     | Return fs' => negb (Fs.isdir fs' pid_file)
     | Raise _ => false
     end.

Fixpoint all_digits (s : string) : bool :=
  match s with
  | String c s' => Str.isdigit c && all_digits s'
  | EmptyString => true
  end.

(** The descriptor of scenario E: two assignments in one [Environment]
    value and an [EnvironmentFile] that may be missing. *)
Definition conf_environment : UnitConfigParser.t :=
  UnitConfigParser.set
    (UnitConfigParser.set UnitConfigParser.new
       (Some "Service") "Environment" ("A=1" +:+ Str.NL +:+ "B=2"))
    (Some "Service") "EnvironmentFile" "-/missing".

(** The library compiles every pattern of the list. *)
Definition accepted (modules : list string) : Prop :=
  Forall (fun module => Fnmatch.refused module = None) modules.

(** Whether a unit name is yielded, for patterns that compile. *)
Definition matched (fnmatchcase : string -> string -> bool)
    (modules : list string) (suffix item : string) : bool :=
  if bool_decide (modules = []) then true
  else if negb (bool_decide
                  (List.filter (fun module => fnmatchcase item module) modules
                   = []))
       then true
  else if negb (bool_decide
                  (List.filter
                     (fun module => String.eqb (module +:+ suffix) item)
                     modules
                   = []))
       then true
  else false.

(** The descriptor of scenario E with a file that is there. *)
Definition conf_environment_file : UnitConfigParser.t :=
  UnitConfigParser.set
    (UnitConfigParser.set UnitConfigParser.new
       (Some "Service") "Environment" ("A=1" +:+ Str.NL +:+ "B=2"))
    (Some "Service") "EnvironmentFile" "/etc/default/demo".

(** The text of that file: one plain and one quoted assignment. *)
Definition env_file_text : string :=
  "A=3" +:+ Str.NL +:+ "C='x y'" +:+ Str.NL.

(** The path [read_env_file] opens for an entry of [EnvironmentFile]. *)
Definition env_file_path (env_file : string) : string :=
  if Str.startswith env_file "-" then Str.tail env_file else env_file.


(** The world with another engine object. *)
Definition with_self (w : World) (self : Systemctl) : World :=
  mkWorld (w_sys w) (w_clock w) (w_trace w) self.


(** The catalogue after the entries of [folder] were added to [m]. *)
Definition scan_folder (fs : FS) (rename : string -> string)
    (m : gmap string string) (folder : string) : gmap string string :=
  if Fs.isdir fs folder then
    match Fs.listdir fs folder with
    | Return names =>
        foldl (fun m name => <[rename name := Path.join folder name]> m)
          m names
    | Raise _ => m
    end
  else m.

(** The catalogue a scan leaves: the one already there, or the entries of
    the two folders. *)
Definition scanned (field : option (gmap string string)) (fs : FS)
    (f1 f2 : string) (rename : string -> string) : gmap string string :=
  match field with
  | Some m => m
  | None => scan_folder fs rename (scan_folder fs rename ∅ f1) f2
  end.

Module Run.

(** A descriptor read from [path] with the given options of [Service]. *)
Definition service (path : string) (options : list (string * string))
  : UnitConfigParser.t :=
  let conf :=
    foldl (fun conf kv => UnitConfigParser.set conf (Some "Service") kv.1 kv.2)
          UnitConfigParser.new options in
  UnitConfigParser.mk (UnitConfigParser._allow_no_value conf)
    (UnitConfigParser._dict conf) [path].

(** A unit of the given type with a start command and a restart command. *)
Definition demo (type : string) : UnitConfigParser.t :=
  service "/etc/systemd/system/demo.service"
    [("Type", type); ("ExecStart", "/usr/bin/demo");
     ("ExecRestart", "/usr/bin/demo --restart")].

(** The forking unit of scenario C. *)
Definition forker : UnitConfigParser.t :=
  service "/etc/systemd/system/demo.service"
    [("Type", "forking"); ("PIDFile", "/run/demo.pid");
     ("ExecStart", "/usr/bin/my-forker")].

(** The unit is running as PID 7. *)
Definition running : World :=
  mkWorld
    (mkSys (mkFS Sample.dirs {["/var/run/demo.service.pid" := "7" +:+ Str.NL]})
           {[1; 7]})
    0 [] Systemctl_init.

(** [/etc/rc3.d] starts [network] and [demo]. *)
Definition rc3 : World :=
  Sample.world
    (mkFS Sample.dirs
          (list_to_map [("/etc/rc3.d/S01network", ""); ("/etc/rc3.d/S50demo", "")])).

(** Two units: the type of [a.service] is not one the engine knows,
    [b.service] is a simple service. *)
Definition unit_a : string :=
  "[Service]" +:+ Str.NL +:+ "Type=bogus" +:+ Str.NL
  +:+ "ExecStart=/usr/bin/a" +:+ Str.NL.
Definition unit_b : string :=
  "[Service]" +:+ Str.NL +:+ "Type=simple" +:+ Str.NL
  +:+ "ExecStart=/usr/bin/b" +:+ Str.NL.

Definition two_units : World :=
  Sample.world
    (mkFS Sample.dirs
          (list_to_map [("/etc/systemd/system/a.service", unit_a);
                        ("/etc/systemd/system/b.service", unit_b)])).

End Run.

(** ** Further vocabulary *)

(** The values stored for an option, none when it is not there. *)
Definition values_of (conf : UnitConfigParser.t) (section : option string)
    (opt : string) : list string :=
  match UnitConfigParser._dict conf !! section with
  | Some sec =>
      match sec !! opt with
      | Some l => l
      | None => []
      end
  | None => []
  end.

(** [for value in values: conf.set(section, option, value)] *)
Definition set_all (conf : UnitConfigParser.t) (section : option string)
    (opt : string) (values : list string) : UnitConfigParser.t :=
  foldl (fun conf value => UnitConfigParser.set conf section opt value)
        conf values.

(** The lines of a descriptor file that the parser of the modern dialect
    accepts outside a continuation. *)
Inductive item : Type :=
| Header (section : string)
| Setting (name value : string)
| Comment (words : string)
| Blank.

Definition render_item (i : item) : string :=
  match i with
  | Header section => "[" +:+ section +:+ "]"
  | Setting name value => name +:+ "=" +:+ value
  | Comment words => "#" +:+ words
  | Blank => ""
  end.

(** The text of a file with these lines. *)
Definition render (items : list item) : string :=
  foldr (fun i rest => render_item i +:+ Str.NL +:+ rest) "" items.

(** [s] does not hold the character [c]. *)
Fixpoint lacks (c : ascii) (s : string) : bool :=
  match s with
  | String d s' => negb (Ascii.eqb d c) && lacks c s'
  | EmptyString => true
  end.

Fixpoint all_word (s : string) : bool :=
  match s with
  | String c s' => Str.isword c && all_word s'
  | EmptyString => true
  end.

(** A line is on one line; a section name has no closing bracket; the
    name of a setting is made of word characters; its value has no blank
    at either end and does not end in a backslash. *)
Definition item_ok (i : item) : Prop :=
  match i with
  | Header section =>
      lacks Str.nl section = true /\ lacks "]"%char section = true
  | Setting name value =>
      Str.truthy name = true /\ all_word name = true
      /\ lacks Str.nl value = true
      /\ Str.lstrip value = value /\ Str.rstrip value = value
      /\ Str.endswith value Str.backslash = false
  | Comment words => lacks Str.nl words = true
  | Blank => True
  end.

(** What a line does to the descriptor and the current section. *)
Definition apply_item (st : UnitConfigParser.t * option string) (i : item)
  : UnitConfigParser.t * option string :=
  match i with
  | Header section =>
      (UnitConfigParser.add_section st.1 (Some section), Some section)
  | Setting name value => (UnitConfigParser.set st.1 st.2 name value, st.2)
  | _ => st
  end.

(** The descriptor with one more file read. *)
Definition with_file (conf : UnitConfigParser.t) (filename : string)
  : UnitConfigParser.t :=
  UnitConfigParser.mk (UnitConfigParser._allow_no_value conf)
    (UnitConfigParser._dict conf)
    (UnitConfigParser._files conf ++ [filename])%list.

(** The name and the value of a setting whose line ends in a backslash. *)
Definition continued (name value : string) : Prop :=
  Str.truthy name = true /\ all_word name = true
  /\ lacks Str.nl value = true
  /\ Str.lstrip value = value /\ Str.rstrip value = value
  /\ Str.endswith value Str.backslash = true.

(** The texts a continuation stores, from the text so far: each later
    line is added to the text, and the text is stored as one more value
    unless it ends in a backslash once more. *)
Fixpoint continuation_texts (text : string) (lines : list string)
  : list string :=
  match lines with
  | [] => []
  | line :: lines' =>
      let text := text +:+ line in
      if Str.endswith (Str.rstrip text) Str.backslash
      then continuation_texts (Str.rstrip text +:+ Str.NL) lines'
      else text :: continuation_texts text lines'
  end.

(** Between [conf] and [conf'] nothing changed but the values of [opt] in
    [section], and no other section was opened. *)
Definition only_option_changed (conf conf' : UnitConfigParser.t)
    (section : option string) (opt : string) : Prop :=
  (forall section' opt',
      section' <> section \/ opt' <> opt ->
      values_of conf' section' opt' = values_of conf section' opt')
  /\ (forall section',
         UnitConfigParser.has_section conf' section' = true ->
         UnitConfigParser.has_section conf section' = true
         \/ section' = section)
  /\ UnitConfigParser._files conf' = UnitConfigParser._files conf.

(** A script whose header names a type. *)
Definition init_script : string :=
  "#!/bin/sh" +:+ Str.NL +:+ "### BEGIN INIT INFO" +:+ Str.NL
  +:+ "# Provides: demo" +:+ Str.NL
  +:+ "# Type: forking" +:+ Str.NL
  +:+ "### END INIT INFO" +:+ Str.NL.

(** The world of an engine object in other surroundings. *)
Definition moved (self : Systemctl) (s : Sys) (clock : nat)
    (trace : list Event) : World :=
  mkWorld s clock trace self.

(** The world after both catalogues were made. *)
Definition catalogued (w : World) : World :=
  let sysd := scanned (_file_for_unit_sysd (w_self w)) (sys_fs (w_sys w))
                (_sysd_folder1 (w_self w)) (_sysd_folder2 (w_self w))
                (fun name => name) in
  let sysv := scanned (_file_for_unit_sysv (w_self w)) (sys_fs (w_sys w))
                (_sysv_folder1 (w_self w)) (_sysv_folder2 (w_self w))
                (fun name => name +:+ ".service") in
  with_self w
    (set_file_for_unit_sysv (set_file_for_unit_sysd (w_self w) (Some sysd))
       (Some sysv)).

(** From the world [w], the computation [m] leaves the engine object as it
    is, lets at most [n] seconds pass, and makes only calls that [ok]
    allows. *)
Definition within {A} (m : M A) (n : nat) (ok : Event -> Prop) (w : World)
  : Prop :=
  w_self (m w).2 = w_self w
  /\ (w_clock (m w).2 <= w_clock w + n)%nat
  /\ exists evs, w_trace (m w).2 = (w_trace w ++ evs)%list /\ Forall ok evs.

(** The calls of [wait_pid_file]: a sleep of one second, or the signal 0. *)
Definition probe (e : Event) : Prop :=
  e = EvSleep 1 \/ exists p, e = EvKill p 0.

(** The calls of [kill_pid]: a sleep of one second, or one of the signals
    0, [SIGTERM] and [SIGKILL] to [pid]. *)
Definition attack (pid : Z) (e : Event) : Prop :=
  e = EvSleep 1
  \/ e = EvKill pid 0 \/ e = EvKill pid SIGTERM \/ e = EvKill pid SIGKILL.


(** * Properties *)

(** ** The command prefix *)

Lemma startswith_dash (c : string) :
  Str.startswith c "-" = true <-> exists r, c = String "-" r.
Proof.
  destruct c as [|a c]; simpl.
  - split; [done | intros [r Hr]; discriminate].
  - destruct (Ascii.eqb_spec a "-") as [->|Hne]; simpl.
    + split; [eauto | done].
    + split; [done | intros [r Hr]; congruence].
Qed.

(** C5: for every command string [c], the check flag of [checkstatus c] is
    true exactly when [c] does not begin with a hyphen; the command
    returned is [c] without that one leading hyphen when there is one, and
    [c] itself otherwise. *)
Theorem checkstatus_prefix : forall c : string,
  ((checkstatus c).1 = true <-> forall r, c <> String "-" r)
  /\ (forall r, c = String "-" r -> checkstatus c = (false, r))
  /\ ((forall r, c <> String "-" r) -> checkstatus c = (true, c)).
Proof.
  intros c. unfold checkstatus.
  destruct (Str.startswith c "-") eqn:E.
  - apply startswith_dash in E as [r ->]. simpl. repeat split.
    + discriminate.
    + intros H. by destruct (H r).
    + intros r' Heq. injection Heq as ->. reflexivity.
    + intros H. by destruct (H r).
  - assert (forall r, c <> String "-" r) as Hno.
    { intros r ->.
      assert (Str.startswith (String "-" r) "-" = true) as Ht
        by (apply startswith_dash; eauto).
      congruence. }
    simpl. repeat split; auto.
    intros r ->. by destruct (Hno r).
Qed.

(** ** The single-valued getter *)

Lemma set_empty_lookup (conf : UnitConfigParser.t) (section : option string)
    (opt : string) :
  exists sec,
    UnitConfigParser._dict (UnitConfigParser.set conf section opt "") !! section
    = Some sec
    /\ sec !! opt = Some [].
Proof.
  unfold UnitConfigParser.set. simpl.
  eexists. rewrite lookup_insert_eq. split; [reflexivity |].
  by rewrite lookup_insert_eq.
Qed.

(** C10: when an option was last set with an empty value, [get] on it with
    no default and without [allow_no_value] raises the [IndexError] of
    indexing an empty list, not the [AttributeError] of a missing option;
    an option that was never set raises [AttributeError]. *)
Theorem get_after_reset_index_error :
  forall (conf : UnitConfigParser.t) (section : option string) (opt : string),
    UnitConfigParser._allow_no_value conf = false ->
    UnitConfigParser.get (UnitConfigParser.set conf section opt "")
      section opt None false
    = Raise (IndexError "list index out of range")
    /\ (never_set conf section opt ->
        exists msg,
          UnitConfigParser.get conf section opt None false
          = Raise (AttributeError msg)).
Proof.
  intros conf section opt Hallow. split.
  - destruct (set_empty_lookup conf section opt) as (sec & Hsec & Hopt).
    unfold UnitConfigParser.get. rewrite Hsec, Hopt. simpl.
    by rewrite Hallow.
  - intros Hnever. unfold UnitConfigParser.get. rewrite Hallow. simpl.
    destruct (UnitConfigParser._dict conf !! section) as [sec|] eqn:Hsec.
    + rewrite (Hnever sec Hsec). eauto.
    + eauto.
Qed.

Lemma get_after_reset_index_error_witness :
  UnitConfigParser.get
    (UnitConfigParser.set
       (UnitConfigParser.set UnitConfigParser.new (Some "Service") "ExecStart" "/bin/a")
       (Some "Service") "ExecStart" "")
    (Some "Service") "ExecStart" None false
  = Raise (IndexError "list index out of range")
  /\ (never_set
        (UnitConfigParser.set UnitConfigParser.new (Some "Service") "ExecStart" "/bin/a")
        (Some "Service") "ExecStart" ->
      exists msg,
        UnitConfigParser.get
          (UnitConfigParser.set UnitConfigParser.new (Some "Service") "ExecStart"
             "/bin/a")
          (Some "Service") "ExecStart" None false
        = Raise (AttributeError msg)).
Proof.
  apply (get_after_reset_index_error
           (UnitConfigParser.set UnitConfigParser.new (Some "Service") "ExecStart"
              "/bin/a")
           (Some "Service") "ExecStart").
  reflexivity.
Defined.

(** ** Liveness of a PID *)

(** C6: for a positive PID, [pid_exists] sends signal 0 to it, once; it
    returns true when the signal succeeds or is refused with [EPERM],
    false when it fails with [ESRCH], and raises the [OSError] of any
    other failure. *)
Theorem pid_exists_signal_zero :
  forall (os : OS) (p : Z) (w : World) (r : option Z) (s : Sys),
    0 < p ->
    os_kill os p 0 (w_sys w) = (r, s) ->
    (r = None ->
     pid_exists os (PyInt p) w = (Return true, after_kill w p 0 s))
    /\ (r = Some EPERM ->
        pid_exists os (PyInt p) w = (Return true, after_kill w p 0 s))
    /\ (r = Some ESRCH ->
        pid_exists os (PyInt p) w = (Return false, after_kill w p 0 s))
    /\ (forall e, r = Some e -> e <> EPERM -> e <> ESRCH ->
        pid_exists os (PyInt p) w = (Raise (OSError e), after_kill w p 0 s)).
Proof.
  intros os p w r s Hpos Hkill.
  assert (pid_exists os (PyInt p) w
          = match r with
            | None => (Return true, after_kill w p 0 s)
            | Some e =>
                if e =? ESRCH then (Return false, after_kill w p 0 s)
                else if e =? EPERM then (Return true, after_kill w p 0 s)
                else (Raise (OSError e), after_kill w p 0 s)
            end) as Hrun.
  { unfold pid_exists.
    destruct (p <? 0) eqn:Hneg; [lia |].
    destruct (p =? 0) eqn:Hzero; [lia |].
    unfold try_except, bind, kill. rewrite Hkill.
    destruct r as [e|]; [| reflexivity].
    fold (after_kill w p 0 s).
    destruct (e =? ESRCH); [reflexivity |].
    destruct (e =? EPERM); reflexivity. }
  rewrite Hrun. repeat split.
  - by intros ->.
  - by intros ->.
  - by intros ->.
  - intros e -> Hperm Hsrch.
    destruct (Z.eqb_spec e ESRCH); [done |].
    destruct (Z.eqb_spec e EPERM); done.
Qed.

Lemma pid_exists_signal_zero_witness :
  pid_exists Sample.os_denied (PyInt 1) (Sample.world Sample.fs_empty)
  = (Return true,
     after_kill (Sample.world Sample.fs_empty) 1 0
       (w_sys (Sample.world Sample.fs_empty))).
Proof.
  apply (pid_exists_signal_zero Sample.os_denied 1
           (Sample.world Sample.fs_empty) (Some EPERM)
           (w_sys (Sample.world Sample.fs_empty))).
  - lia.
  - reflexivity.
  - reflexivity.
Defined.

(** ** PID files *)

Lemma string_of_uint_digits (d : uint) :
  all_digits (NilEmpty.string_of_uint d) = true.
Proof. induction d; simpl; auto. Qed.

Lemma isdigit_not_space (c : ascii) :
  Str.isdigit c = true -> Str.isspace c = false.
Proof.
  unfold Str.isdigit, Str.isspace. intros H.
  apply andb_true_iff in H as [H1 H2].
  apply N.leb_le in H1. apply N.leb_le in H2.
  apply orb_false_iff. split.
  - apply andb_false_iff. right. apply N.leb_gt. lia.
  - apply N.eqb_neq. lia.
Qed.

Lemma isdigit_not_nl (c : ascii) :
  Str.isdigit c = true -> Ascii.eqb c Str.nl = false.
Proof.
  intros H. apply Ascii.eqb_neq. intros ->. discriminate.
Qed.

Lemma lstrip_digits (s t : string) :
  all_digits s = true -> s <> EmptyString ->
  Str.lstrip (s +:+ t) = s +:+ t.
Proof.
  destruct s as [|c s]; [done |]. simpl. intros H _.
  apply andb_true_iff in H as [Hc _].
  by rewrite (isdigit_not_space c Hc).
Qed.

Lemma rstrip_digits_nl (s : string) :
  all_digits s = true -> Str.rstrip (s +:+ Str.NL) = s.
Proof.
  induction s as [|c s IH]; simpl; [done |].
  intros H. apply andb_true_iff in H as [Hc Hs].
  rewrite (IH Hs). destruct s as [|c' s'].
  - by rewrite (isdigit_not_space c Hc).
  - reflexivity.
Qed.

Lemma rstrip_digits (s : string) :
  all_digits s = true -> Str.rstrip s = s.
Proof.
  induction s as [|c s IH]; simpl; [done |].
  intros H. apply andb_true_iff in H as [Hc Hs].
  rewrite (IH Hs). destruct s as [|c' s'].
  - by rewrite (isdigit_not_space c Hc).
  - reflexivity.
Qed.

Lemma strip_digits_nl (s : string) :
  all_digits s = true -> s <> EmptyString -> Str.strip (s +:+ Str.NL) = s.
Proof.
  intros H Hne. unfold Str.strip.
  rewrite (lstrip_digits s Str.NL H Hne). by apply rstrip_digits_nl.
Qed.

Lemma strip_digits (s : string) :
  all_digits s = true -> Str.strip s = s.
Proof.
  intros H. unfold Str.strip. destruct s as [|c s]; [done |].
  assert (Str.lstrip (String c s) = String c s) as ->.
  { simpl in *. apply andb_true_iff in H as [Hc _].
    by rewrite (isdigit_not_space c Hc). }
  by apply rstrip_digits.
Qed.

Lemma readlines_digits_nl (s : string) :
  all_digits s = true -> s <> EmptyString ->
  Str.readlines (s +:+ Str.NL) = [s +:+ Str.NL].
Proof.
  induction s as [|c s IH]; [done |]. simpl. intros H _.
  apply andb_true_iff in H as [Hc Hs].
  rewrite (isdigit_not_nl c Hc).
  destruct s as [|c' s'].
  - reflexivity.
  - by rewrite (IH Hs).
Qed.

(** The decimal digits of a positive integer, and reading them back. *)
Lemma str_of_int_pos (n : Z) :
  0 < n ->
  all_digits (str_of_int n) = true
  /\ str_of_int n <> EmptyString
  /\ py_int (str_of_int n) = Return n.
Proof.
  intros Hn. destruct n as [|p|p]; try lia.
  unfold str_of_int. simpl.
  assert (Pos.to_uint p <> Nil) as Hnil
    by apply DecimalPos.Unsigned.to_uint_nonnil.
  assert (NilZero.string_of_uint (Pos.to_uint p)
          = NilEmpty.string_of_uint (Pos.to_uint p)) as Hs.
  { unfold NilZero.string_of_uint. by destruct (Pos.to_uint p). }
  rewrite Hs.
  pose proof (string_of_uint_digits (Pos.to_uint p)) as Hd.
  assert (NilEmpty.string_of_uint (Pos.to_uint p) <> EmptyString) as Hne.
  { destruct (Pos.to_uint p); simpl; congruence. }
  split; [done |]. split; [done |].
  unfold py_int. rewrite (strip_digits _ Hd).
  pose proof (NilZero.usu (Pos.to_uint p) Hnil) as Husu. rewrite Hs in Husu.
  destruct (NilEmpty.string_of_uint (Pos.to_uint p)) as [|c s] eqn:E; [done |].
  assert (Str.isdigit c = true) as Hc
    by (simpl in Hd; apply andb_true_iff in Hd; tauto).
  assert (c <> "-"%char /\ c <> "+"%char) as [Hm Hp]
    by (split; intros ->; discriminate).
  assert (forall A (x y z : A),
             match String c s with
             | String "-" _ => x
             | String "+" _ => y
             | _ => z
             end = z) as Hmatch.
  { intros A x y z.
    destruct c as [[] [] [] [] [] [] [] []]; try reflexivity; congruence. }
  rewrite (Hmatch _ _ _ (false, String c s)).
  rewrite Husu. f_equal.
  unfold Z.of_uint. rewrite DecimalPos.Unsigned.of_to. reflexivity.
Qed.

Lemma makedirs_spec (fs fs' : FS) (d : string) :
  Fs.makedirs fs d = Return fs' ->
  Fs.isdir fs' d = true /\ fs_files fs' = fs_files fs.
Proof.
  unfold Fs.makedirs.
  destruct (Fs.isdir fs d || Fs.isfile fs d); [done |].
  destruct (existsb _ _); [done |].
  intros [= <-]. split; [| done].
  unfold Fs.isdir. simpl. apply bool_decide_eq_true. set_solver.
Qed.

Lemma first_pid_digits (n : Z) (default : pyval) :
  0 < n ->
  first_pid (Str.readlines (str_of_int n +:+ Str.NL)) default
  = Return (PyInt n).
Proof.
  intros Hn. destruct (str_of_int_pos n Hn) as (Hd & Hne & Hint).
  rewrite (readlines_digits_nl _ Hd Hne). simpl.
  rewrite (strip_digits_nl _ Hd Hne).
  destruct (str_of_int n) eqn:E; [done |]. simpl. by rewrite Hint.
Qed.

(** C7: writing the PID [n > 0] to a writable PID file makes the parent
    directory if it is missing and stores the decimal digits of [n] and a
    newline; reading the file back gives [n]. *)
Theorem write_then_read_pid_file :
  forall (os : OS) (pid_file : string) (n : Z) (w : World),
    0 < n ->
    writable os (sys_fs (w_sys w)) pid_file = true ->
    exists w' : World,
      write_pid_file os (Some pid_file) n w = (Return true, w')
      /\ Fs.isdir (sys_fs (w_sys w'))
           (Path.dirname (os_abspath os pid_file)) = true
      /\ fs_files (sys_fs (w_sys w')) !! pid_file
         = Some (str_of_int n +:+ Str.NL)
      /\ forall default : pyval,
           read_pid_file (Some pid_file) default w' = (Return (PyInt n), w').
Proof.
  intros os pid_file n w Hn Hw.
  unfold writable in Hw. apply andb_true_iff in Hw as [Hp Hw].
  destruct (with_parent os (sys_fs (w_sys w)) pid_file) as [fs1|] eqn:Hpar;
    [| done].
  apply negb_true_iff in Hw.
  set (fs2 := mkFS (fs_dirs fs1)
                   (<[pid_file := str_of_int n +:+ Str.NL]> (fs_files fs1))).
  exists (mkWorld (mkSys fs2 (sys_procs (w_sys w))) (w_clock w) (w_trace w)
                  (w_self w)).
  assert (Fs.isdir fs1 (Path.dirname (os_abspath os pid_file)) = true) as Hdir.
  { unfold with_parent in Hpar.
    destruct (Fs.isdir (sys_fs (w_sys w)) _) eqn:E.
    - by injection Hpar as <-.
    - by apply makedirs_spec in Hpar as [? _]. }
  split; [| split; [| split]].
  - unfold write_pid_file. rewrite Hp. simpl.
    unfold with_parent in Hpar.
    unfold bind, get_fs, fs_update, bind, get_fs, lift, put_fs, ret. simpl.
    destruct (Fs.isdir (sys_fs (w_sys w)) _) eqn:E; simpl.
    + injection Hpar as <-. unfold Fs.write. rewrite Hw. reflexivity.
    + rewrite Hpar. simpl. unfold Fs.write. rewrite Hw. reflexivity.
  - exact Hdir.
  - simpl. apply lookup_insert_eq.
  - intros default. unfold read_pid_file. rewrite Hp. simpl.
    unfold bind, get_fs, try_except, lift, ret. simpl.
    assert (Fs.isfile fs2 pid_file = true) as ->.
    { unfold Fs.isfile. apply bool_decide_eq_true. simpl.
      rewrite lookup_insert_eq. eauto. }
    simpl. unfold Fs.read. simpl. rewrite lookup_insert_eq.
    by rewrite (first_pid_digits n default Hn).
Qed.

Lemma write_then_read_pid_file_witness :
  exists w' : World,
    write_pid_file Sample.os (Some "/var/run/demo/demo.pid") 4711
      (Sample.world Sample.fs_empty) = (Return true, w')
    /\ Fs.isdir (sys_fs (w_sys w'))
         (Path.dirname (os_abspath Sample.os "/var/run/demo/demo.pid")) = true
    /\ fs_files (sys_fs (w_sys w')) !! "/var/run/demo/demo.pid"
       = Some (str_of_int 4711 +:+ Str.NL)
    /\ forall default : pyval,
         read_pid_file (Some "/var/run/demo/demo.pid") default w'
         = (Return (PyInt 4711), w').
Proof.
  apply (write_then_read_pid_file Sample.os "/var/run/demo/demo.pid" 4711
           (Sample.world Sample.fs_empty)).
  - lia.
  - vm_compute. reflexivity.
Defined.

(** ** The environment of a command *)

Lemma overlay_app (env : gmap string string) (ps qs : list (string * string)) :
  overlay env (ps ++ qs) = overlay (overlay env ps) qs.
Proof. unfold overlay. apply foldl_app. Qed.

Lemma read_env_file_total (env_file : string) (w : World) :
  exists ps, read_env_file env_file w = (Return ps, w).
Proof.
  unfold read_env_file, bind, get_fs. simpl.
  destruct (_ && _); [by eexists |].
  unfold try_except, bind, lift, ret.
  destruct (Fs.read _ _); by eexists.
Qed.

Lemma read_env_file_missing (path : string) (w : World) :
  Fs.isfile (sys_fs (w_sys w)) path = false ->
  read_env_file (String "-" path) w = (Return [], w).
Proof.
  intros H. unfold read_env_file, bind, get_fs. simpl. by rewrite H.
Qed.

Lemma read_env_file_text (env_file text : string) (w : World) :
  Fs.read (sys_fs (w_sys w)) (env_file_path env_file) = Return text ->
  read_env_file env_file w
  = (Return (omap EnvLine.parse (Str.readlines text)), w).
Proof.
  intros Hread. unfold read_env_file, bind, get_fs. cbn [fst snd].
  fold (env_file_path env_file).
  assert (Fs.isfile (sys_fs (w_sys w)) (env_file_path env_file) = true) as ->.
  { unfold Fs.read in Hread. unfold Fs.isfile.
    destruct (fs_files _ !! _) eqn:E; [| done].
    apply bool_decide_eq_true_2. eauto. }
  rewrite andb_false_r.
  unfold try_except, bind, lift. by rewrite Hread.
Qed.

Lemma read_env_file_unreadable (env_file : string) (e : exn) (w : World) :
  Fs.read (sys_fs (w_sys w)) (env_file_path env_file) = Raise e ->
  read_env_file env_file w = (Return [], w).
Proof.
  intros Hread. unfold read_env_file, bind, get_fs. cbn [fst snd].
  fold (env_file_path env_file).
  destruct (_ && _); [done |].
  unfold try_except, bind, lift. by rewrite Hread.
Qed.

Lemma fold_env_parts (parts : list string) (env : gmap string string)
    (w : World) :
  for_fold parts env
    (fun env_part env => ret (overlay env (read_env_part env_part))) w
  = (Return (overlay env (concat (map read_env_part parts))), w).
Proof.
  revert env. induction parts as [|p parts IH]; intros env; simpl.
  - reflexivity.
  - unfold bind, ret at 1. rewrite IH. by rewrite overlay_app.
Qed.

Lemma fold_env_files (files : list string) (env : gmap string string)
    (w : World) :
  exists pairs,
    Forall2 (fun f ps => read_env_file f w = (Return ps, w)) files pairs
    /\ for_fold files env
         (fun env_file env =>
            let* pairs := read_env_file env_file in
            ret (overlay env pairs)) w
       = (Return (overlay env (concat pairs)), w).
Proof.
  revert env. induction files as [|f files IH]; intros env; simpl.
  - exists []. split; [constructor | reflexivity].
  - destruct (read_env_file_total f w) as [ps Hps].
    destruct (IH (overlay env ps)) as (pairs & Hall & Hrun).
    exists (ps :: pairs). split; [by constructor |].
    unfold bind at 1. unfold bind at 1. rewrite Hps. unfold ret at 1.
    rewrite Hrun. simpl. by rewrite overlay_app.
Qed.

Lemma get_env_run (os : OS) (w : World) (conf : UnitConfigParser.t)
    (parts files : list string) :
  UnitConfigParser.getlist conf (Some "Service") "Environment" (Some []) false
  = Return (Some parts) ->
  UnitConfigParser.getlist conf (Some "Service") "EnvironmentFile" (Some []) false
  = Return (Some files) ->
  exists pairs : list (list (string * string)),
    Forall2 (fun f ps => read_env_file f w = (Return ps, w)) files pairs
    /\ get_env os conf w
       = (Return (overlay
                    (overlay (os_environ os) (concat (map read_env_part parts)))
                    (concat pairs)), w).
Proof.
  intros Hparts Hfiles.
  destruct (fold_env_files files
              (overlay (os_environ os) (concat (map read_env_part parts))) w)
    as (pairs & Hall & Hrun).
  exists pairs. split; [done |].
  unfold get_env, iter. rewrite Hparts, Hfiles.
  unfold bind at 1. unfold bind at 1. unfold lift at 1. unfold ret at 1.
  unfold bind at 1. rewrite fold_env_parts.
  unfold bind at 1. unfold bind at 1. unfold lift at 1. unfold ret at 1.
  exact Hrun.
Qed.

(** C8: the environment of a command is [os.environ] overlaid with the
    assignments of every [Environment] value and then with those of every
    [EnvironmentFile]; reading an [EnvironmentFile] never fails, and an
    entry with a leading hyphen whose file is missing gives no assignment.
    For [Environment] holding [A=1] and [B=2] on two lines and
    [EnvironmentFile=-/missing] the result holds [A=1] and [B=2] and
    otherwise [os.environ].  The assignments of an [EnvironmentFile] are
    those of the lines of the file, read by the rules of an [Environment]
    value, with or without the hyphen; a file that cannot be read gives
    none, with or without the hyphen.  With a file that holds [A=3] and
    [C='x y'] the result holds [A=3], [B=2] and [C=x y]: the file
    overwrites. *)
Theorem get_env_overlay :
  forall (os : OS) (w : World),
    (forall (conf : UnitConfigParser.t) (parts files : list string),
        UnitConfigParser.getlist conf (Some "Service") "Environment" (Some []) false
        = Return (Some parts) ->
        UnitConfigParser.getlist conf (Some "Service") "EnvironmentFile" (Some [])
          false = Return (Some files) ->
        exists pairs : list (list (string * string)),
          Forall2 (fun f ps => read_env_file f w = (Return ps, w)) files pairs
          /\ get_env os conf w
             = (Return (overlay
                          (overlay (os_environ os)
                             (concat (map read_env_part parts)))
                          (concat pairs)), w))
    /\ (forall path : string,
           Fs.isfile (sys_fs (w_sys w)) path = false ->
           read_env_file (String "-" path) w = (Return [], w))
    /\ (Fs.isfile (sys_fs (w_sys w)) "/missing" = false ->
        exists env : gmap string string,
          get_env os conf_environment w = (Return env, w)
          /\ env !! "A" = Some "1"
          /\ env !! "B" = Some "2"
          /\ forall k, k <> "A" -> k <> "B" -> env !! k = os_environ os !! k)
    /\ (forall env_file text : string,
           Fs.read (sys_fs (w_sys w)) (env_file_path env_file) = Return text ->
           read_env_file env_file w
           = (Return (omap EnvLine.parse (Str.readlines text)), w))
    /\ (forall (env_file : string) (e : exn),
           Fs.read (sys_fs (w_sys w)) (env_file_path env_file) = Raise e ->
           read_env_file env_file w = (Return [], w))
    /\ (forall part : string,
           read_env_part part = omap EnvLine.parse (Str.split_nl part))
    /\ (Fs.read (sys_fs (w_sys w)) "/etc/default/demo" = Return env_file_text ->
        exists env : gmap string string,
          get_env os conf_environment_file w = (Return env, w)
          /\ env !! "A" = Some "3"
          /\ env !! "B" = Some "2"
          /\ env !! "C" = Some "x y"
          /\ forall k, k <> "A" -> k <> "B" -> k <> "C" ->
                       env !! k = os_environ os !! k).
Proof.
  intros os w. split; [| split; [| split; [| split; [| split; [| split]]]]].
  - intros conf parts files. apply get_env_run.
  - intros path. apply read_env_file_missing.
  - intros Hmissing.
    destruct (get_env_run os w conf_environment
                ["A=1" +:+ Str.NL +:+ "B=2"] ["-/missing"])
      as (pairs & Hall & Hrun); [reflexivity | reflexivity |].
    inversion Hall as [|f ps fs pss Hps Hrest]; subst.
    inversion Hrest; subst.
    rewrite (read_env_file_missing "/missing" w Hmissing) in Hps.
    injection Hps as <-.
    exists (<["B" := "2"]> (<["A" := "1"]> (os_environ os))).
    split; [| split; [| split]].
    + exact Hrun.
    + rewrite lookup_insert_ne by done. apply lookup_insert_eq.
    + apply lookup_insert_eq.
    + intros k HA HB. by rewrite !lookup_insert_ne.
  - intros env_file text. apply read_env_file_text.
  - intros env_file e. apply read_env_file_unreadable.
  - reflexivity.
  - intros Hfile.
    destruct (get_env_run os w conf_environment_file
                ["A=1" +:+ Str.NL +:+ "B=2"] ["/etc/default/demo"])
      as (pairs & Hall & Hrun); [reflexivity | reflexivity |].
    inversion Hall as [|f ps fs pss Hps Hrest]; subst.
    inversion Hrest; subst.
    rewrite (read_env_file_text "/etc/default/demo" env_file_text w Hfile)
      in Hps.
    injection Hps as <-.
    exists (<["C" := "x y"]>
              (<["A" := "3"]>
                 (<["B" := "2"]> (<["A" := "1"]> (os_environ os))))).
    split; [| split; [| split; [| split]]].
    + exact Hrun.
    + rewrite lookup_insert_ne by done. apply lookup_insert_eq.
    + rewrite !lookup_insert_ne by done. apply lookup_insert_eq.
    + apply lookup_insert_eq.
    + intros k HA HB HC. by rewrite !lookup_insert_ne.
Qed.

(** ** Matching units *)

Lemma bind_run {A B} (m : M A) (f : A -> M B) (w w' : World) (a : A) :
  m w = (Return a, w') -> bind m f w = f a w'.
Proof. intros H. unfold bind. by rewrite H. Qed.

Lemma ascii_compare_trans (a b c : ascii) (o : comparison) :
  Ascii.compare a b = o -> Ascii.compare b c = o -> Ascii.compare a c = o.
Proof.
  unfold Ascii.compare. intros H1 H2. destruct o.
  - apply N.compare_eq_iff in H1. apply N.compare_eq_iff in H2.
    apply N.compare_eq_iff. congruence.
  - apply N.compare_lt_iff in H1. apply N.compare_lt_iff in H2.
    apply N.compare_lt_iff. by apply (N.lt_trans _ (N_of_ascii b)).
  - apply N.compare_gt_iff in H1. apply N.compare_gt_iff in H2.
    apply N.compare_gt_iff. by apply (N.lt_trans _ (N_of_ascii b)).
Qed.

Lemma string_compare_not_gt_trans (a b c : string) :
  String.compare a b <> Gt -> String.compare b c <> Gt ->
  String.compare a c <> Gt.
Proof.
  revert b c. induction a as [|x a IH]; intros [|y b] [|z c]; simpl; try done.
  destruct (Ascii.compare x y) eqn:Hxy; [| | done].
  - apply Ascii.compare_eq_iff in Hxy as ->.
    destruct (Ascii.compare y z) eqn:Hyz; [| done | done].
    apply IH.
  - intros _.
    destruct (Ascii.compare y z) eqn:Hyz; [| | done].
    + apply Ascii.compare_eq_iff in Hyz as <-. by rewrite Hxy.
    + by rewrite (ascii_compare_trans x y z Lt Hxy Hyz).
Qed.

Lemma str_le_not_gt (a b : string) : str_le a b <-> String.compare a b <> Gt.
Proof. unfold str_le, String.leb. by destruct (String.compare a b). Qed.

#[global] Instance str_le_trans : Transitive str_le.
Proof.
  intros a b c. rewrite !str_le_not_gt. apply string_compare_not_gt_trans.
Qed.

#[global] Instance str_le_total : Total str_le.
Proof. intros a b. apply String.leb_total. Qed.









Lemma filter_result_return {A} (test : A -> result bool) (f : A -> bool)
    (l : list A) :
  (forall x, x ∈ l -> test x = Return (f x)) ->
  filter_result test l = Return (List.filter f l).
Proof.
  induction l as [|x l IH]; intros H; simpl; [done |].
  rewrite (H x) by left. rewrite IH by (intros y Hy; apply H; by right).
  by destruct (f x).
Qed.

(** The matcher raises for the first pattern that is refused. *)
Lemma filter_result_refused (fnmatchcase : string -> string -> bool)
    (item : string) (good : list string) (bad : string) (rest : list string)
    (e : exn) :
  accepted good -> Fnmatch.refused bad = Some e ->
  filter_result (fun module => fnmatch_fnmatchcase fnmatchcase item module)
    (good ++ bad :: rest)
  = Raise e.
Proof.
  intros Hgood Hbad. induction Hgood as [|g good Hg Hgood IH]; simpl.
  - unfold fnmatch_fnmatchcase at 1. by rewrite Hbad.
  - unfold fnmatch_fnmatchcase at 1. rewrite Hg. by rewrite IH.
Qed.

(** For patterns that compile, the test of the loops returns. *)
Lemma unit_matches_accepted (fnmatchcase : string -> string -> bool)
    (modules : list string) (suffix item : string) :
  accepted modules ->
  unit_matches fnmatchcase modules suffix item
  = Return (matched fnmatchcase modules suffix item).
Proof.
  intros Hacc. unfold unit_matches, matched.
  case_bool_decide as Hnil; [done |].
  rewrite (filter_result_return _ (fun module => fnmatchcase item module)).
  - by repeat case_bool_decide.
  - intros module Hin. unfold fnmatch_fnmatchcase.
    unfold accepted in Hacc. rewrite Forall_forall in Hacc.
    by rewrite (Hacc module Hin).
Qed.

(** The patterns of the ignore lists compile. *)
Lemma ignore_lists_accepted :
  accepted (igno_centos ++ igno_opensuse ++ igno_ubuntu ++ igno_always)%list.
Proof. repeat constructor. Qed.

(** *** Scanning the unit folders *)




Lemma with_self_id (w : World) : with_self w (w_self w) = w.
Proof. by destruct w. Qed.

Lemma set_sysd_id (self : Systemctl) (m : gmap string string) :
  _file_for_unit_sysd self = Some m ->
  set_file_for_unit_sysd self (Some m) = self.
Proof. destruct self. simpl. by intros ->. Qed.

Lemma set_sysv_id (self : Systemctl) (m : gmap string string) :
  _file_for_unit_sysv self = Some m ->
  set_file_for_unit_sysv self (Some m) = self.
Proof. destruct self. simpl. by intros ->. Qed.

Lemma sysd_insert_loop (rename : string -> string) (folder : string)
    (names : list string) (w : World) (m : gmap string string) :
  _file_for_unit_sysd (w_self w) = Some m ->
  for_each names
    (fun name => sysd_insert (rename name) (Path.join folder name)) w
  = (Return tt,
     with_self w
       (set_file_for_unit_sysd (w_self w)
          (Some (foldl (fun m name => <[rename name := Path.join folder name]> m)
                   m names)))).
Proof.
  unfold for_each. revert w m.
  induction names as [|n names IH]; intros w m Hm; simpl.
  - unfold ret. by rewrite (set_sysd_id _ _ Hm), with_self_id.
  - unfold bind at 1, sysd_insert at 1. unfold bind, get_self, put_self.
    rewrite (IH _ (<[rename n := Path.join folder n]> m)).
    + rewrite Hm. reflexivity.
    + simpl. by rewrite Hm.
Qed.

Lemma sysv_insert_loop (rename : string -> string) (folder : string)
    (names : list string) (w : World) (m : gmap string string) :
  _file_for_unit_sysv (w_self w) = Some m ->
  for_each names
    (fun name => sysv_insert (rename name) (Path.join folder name)) w
  = (Return tt,
     with_self w
       (set_file_for_unit_sysv (w_self w)
          (Some (foldl (fun m name => <[rename name := Path.join folder name]> m)
                   m names)))).
Proof.
  unfold for_each. revert w m.
  induction names as [|n names IH]; intros w m Hm; simpl.
  - unfold ret. by rewrite (set_sysv_id _ _ Hm), with_self_id.
  - unfold bind at 1, sysv_insert at 1. unfold bind, get_self, put_self.
    rewrite (IH _ (<[rename n := Path.join folder n]> m)).
    + rewrite Hm. reflexivity.
    + simpl. by rewrite Hm.
Qed.

Lemma scan_sysd_folder (folder : string) (w : World) (m : gmap string string) :
  _file_for_unit_sysd (w_self w) = Some m ->
  (let* fs := get_fs in
   if negb (Fs.isdir fs folder) then ret tt
   else
     let* names := lift (Fs.listdir fs folder) in
     for_each names (fun name => sysd_insert name (Path.join folder name))) w
  = (Return tt,
     with_self w
       (set_file_for_unit_sysd (w_self w)
          (Some (scan_folder (sys_fs (w_sys w)) (fun name => name) m folder)))).
Proof.
  intros Hm. unfold bind at 1, get_fs at 1. unfold scan_folder, Fs.listdir.
  destruct (Fs.isdir (sys_fs (w_sys w)) folder); simpl.
  - unfold bind at 1, lift at 1.
    exact (sysd_insert_loop (fun name => name) folder _ w m Hm).
  - unfold ret. by rewrite (set_sysd_id _ _ Hm), with_self_id.
Qed.

Lemma scan_sysv_folder (folder : string) (w : World) (m : gmap string string) :
  _file_for_unit_sysv (w_self w) = Some m ->
  (let* fs := get_fs in
   if negb (Fs.isdir fs folder) then ret tt
   else
     let* names := lift (Fs.listdir fs folder) in
     for_each names
       (fun name => sysv_insert (name +:+ ".service") (Path.join folder name)))
    w
  = (Return tt,
     with_self w
       (set_file_for_unit_sysv (w_self w)
          (Some (scan_folder (sys_fs (w_sys w))
                   (fun name => name +:+ ".service") m folder)))).
Proof.
  intros Hm. unfold bind at 1, get_fs at 1. unfold scan_folder, Fs.listdir.
  destruct (Fs.isdir (sys_fs (w_sys w)) folder); simpl.
  - unfold bind at 1, lift at 1.
    exact (sysv_insert_loop (fun name => name +:+ ".service") folder _ w m Hm).
  - unfold ret. by rewrite (set_sysv_id _ _ Hm), with_self_id.
Qed.

Lemma for_each_cons {A} (x : A) (xs : list A) (body : A -> M unit)
    (w : World) :
  for_each (x :: xs) body w = bind (body x) (fun _ => for_each xs body) w.
Proof.
  unfold for_each. simpl. unfold bind.
  by destruct (body x w) as [[[]|e] w'].
Qed.

Lemma scan_unit_sysd_files_run (w : World) :
  let m := scanned (_file_for_unit_sysd (w_self w)) (sys_fs (w_sys w))
             (_sysd_folder1 (w_self w)) (_sysd_folder2 (w_self w))
             (fun name => name) in
  scan_unit_sysd_files w
  = (Return (keys m),
     with_self w (set_file_for_unit_sysd (w_self w) (Some m))).
Proof.
  simpl. unfold scan_unit_sysd_files.
  unfold bind at 1, get_self at 1.
  destruct (_file_for_unit_sysd (w_self w)) as [m0|] eqn:Hm; simpl.
  - unfold bind, ret, get_self. rewrite Hm. simpl.
    by rewrite (set_sysd_id _ _ Hm), with_self_id.
  - unfold bind at 1. unfold bind at 1, put_self at 1.
    rewrite for_each_cons. cbv beta.
    unfold bind at 1.
    rewrite (scan_sysd_folder _ _ ∅) by reflexivity.
    rewrite for_each_cons. cbv beta. unfold bind at 1.
    rewrite (scan_sysd_folder _ _
               (scan_folder (sys_fs (w_sys w)) (fun name => name) ∅
                  (_sysd_folder1 (w_self w)))) by reflexivity.
    reflexivity.
Qed.

Lemma scan_unit_sysv_files_run (w : World) :
  let m := scanned (_file_for_unit_sysv (w_self w)) (sys_fs (w_sys w))
             (_sysv_folder1 (w_self w)) (_sysv_folder2 (w_self w))
             (fun name => name +:+ ".service") in
  scan_unit_sysv_files w
  = (Return (keys m),
     with_self w (set_file_for_unit_sysv (w_self w) (Some m))).
Proof.
  simpl. unfold scan_unit_sysv_files.
  unfold bind at 1, get_self at 1.
  destruct (_file_for_unit_sysv (w_self w)) as [m0|] eqn:Hm; simpl.
  - unfold bind, ret, get_self. rewrite Hm. simpl.
    by rewrite (set_sysv_id _ _ Hm), with_self_id.
  - unfold bind at 1. unfold bind at 1, put_self at 1.
    rewrite for_each_cons. cbv beta.
    unfold bind at 1.
    rewrite (scan_sysv_folder _ _ ∅) by reflexivity.
    rewrite for_each_cons. cbv beta. unfold bind at 1.
    rewrite (scan_sysv_folder _ _
               (scan_folder (sys_fs (w_sys w))
                  (fun name => name +:+ ".service") ∅
                  (_sysv_folder1 (w_self w)))) by reflexivity.
    reflexivity.
Qed.

Lemma match_sysd_units_run (fnmatchcase : string -> string -> bool)
    (modules : list string) (suffix : string) (w : World) :
  accepted modules ->
  let m := scanned (_file_for_unit_sysd (w_self w)) (sys_fs (w_sys w))
             (_sysd_folder1 (w_self w)) (_sysd_folder2 (w_self w))
             (fun name => name) in
  match_sysd_units fnmatchcase modules suffix w
  = (Return (List.filter (matched fnmatchcase modules suffix)
               (sorted (keys m))),
     with_self w (set_file_for_unit_sysd (w_self w) (Some m))).
Proof.
  intros Hacc. simpl. unfold match_sysd_units. unfold bind at 1.
  rewrite scan_unit_sysd_files_run. unfold bind, get_self, lift. cbn.
  rewrite (filter_result_return _ (matched fnmatchcase modules suffix));
    [done |].
  intros item _. by apply unit_matches_accepted.
Qed.

Lemma match_sysv_units_run (fnmatchcase : string -> string -> bool)
    (modules : list string) (suffix : string) (w : World) :
  accepted modules ->
  let m := scanned (_file_for_unit_sysv (w_self w)) (sys_fs (w_sys w))
             (_sysv_folder1 (w_self w)) (_sysv_folder2 (w_self w))
             (fun name => name +:+ ".service") in
  match_sysv_units fnmatchcase modules suffix w
  = (Return (List.filter (matched fnmatchcase modules suffix)
               (sorted (keys m))),
     with_self w (set_file_for_unit_sysv (w_self w) (Some m))).
Proof.
  intros Hacc. simpl. unfold match_sysv_units. unfold bind at 1.
  rewrite scan_unit_sysv_files_run. unfold bind, get_self, lift. cbn.
  rewrite (filter_result_return _ (matched fnmatchcase modules suffix));
    [done |].
  intros item _. by apply unit_matches_accepted.
Qed.

(** A pattern that is refused makes the match raise as soon as the modern
    catalogue has a name to test: the error is the one of the first
    refused pattern, and the legacy folders are not looked at. *)
Lemma match_units_refused (fnmatchcase : string -> string -> bool)
    (good : list string) (bad : string) (rest : list string)
    (suffix : string) (e : exn) (w : World) :
  accepted good -> Fnmatch.refused bad = Some e ->
  let m := scanned (_file_for_unit_sysd (w_self w)) (sys_fs (w_sys w))
             (_sysd_folder1 (w_self w)) (_sysd_folder2 (w_self w))
             (fun name => name) in
  sorted (keys m) <> [] ->
  match_units fnmatchcase (good ++ bad :: rest) suffix w
  = (Raise e, with_self w (set_file_for_unit_sysd (w_self w) (Some m))).
Proof.
  intros Hgood Hbad m Hne. unfold match_units, match_sysd_units.
  unfold bind at 1. unfold bind at 1.
  rewrite scan_unit_sysd_files_run. unfold bind, get_self, lift. cbn.
  fold m. destruct (sorted (keys m)) as [|item items]; [done |].
  cbn [filter_result]. unfold unit_matches at 1.
  rewrite bool_decide_eq_false_2 by (by destruct good).
  by rewrite (filter_result_refused fnmatchcase item good bad rest e).
Qed.




(** Closed goals about sample runs are settled by evaluation. *)
Ltac evaluate :=
  repeat match goal with
         | |- _ /\ _ => split
         | |- Forall _ (_ :: _) => apply Forall_cons
         | |- Forall _ [] => apply Forall_nil
         end;
  vm_compute; reflexivity.

(** ** Restart *)

(** C1 on the code: for each of the four types, a unit with an
    [ExecRestart] command that is running as PID 7 is restarted by
    stopping and starting it, as if the descriptor had no such command:
    the engine signals PID 7 and starts [ExecStart], and [ExecRestart] is
    never run.  The test of [restart_unit_from] reads the option
    [ExceRestart]. *)
Theorem restart_runs_stop_then_start :
  Forall
    (fun type =>
       UnitConfigParser.getlist (Run.demo type) (Some "Service") "ExecRestart"
         (Some []) false
       = Return (Some ["/usr/bin/demo --restart"])
       /\ restart_unit_from Sample.os (Run.demo type) Run.running
          = (let* _ := stop_unit_from Sample.os (Run.demo type) in
             start_unit_from Sample.os (Run.demo type)) Run.running
       /\ Sample.commands
            (w_trace (restart_unit_from Sample.os (Run.demo type) Run.running).2)
          = ["/usr/bin/demo"]
       /\ firstn 3
            (w_trace (restart_unit_from Sample.os (Run.demo type) Run.running).2)
          = [EvKill 7 SIGTERM; EvKill 7 0; EvKill 7 0])
    ["simple"; "notify"; "oneshot"; "forking"].
Proof. evaluate. Qed.

(** ** Batch start *)

Lemma bind_inv {A B} (m : M A) (f : A -> M B) (w w' : World) (b : B) :
  bind m f w = (Return b, w') ->
  exists a w1, m w = (Return a, w1) /\ f a w1 = (Return b, w').
Proof.
  unfold bind. destruct (m w) as [[a|e] w1]; [eauto | discriminate].
Qed.

(** A start that returns, returns true: a failure is an exception. *)
Lemma start_unit_from_true (os : OS) (conf : UnitConfigParser.t)
    (w w' : World) (b : bool) :
  start_unit_from os conf w = (Return b, w') -> b = true.
Proof.
  unfold start_unit_from. intros H.
  repeat (apply bind_inv in H as (? & ? & _ & H)).
  unfold ret in H. congruence.
Qed.

Lemma start_unit_true (os : OS) (unit : string) (w w' : World) (b : bool) :
  start_unit os unit w = (Return b, w') -> b = true.
Proof.
  unfold start_unit. intros H.
  apply bind_inv in H as (conf & w1 & _ & H).
  by apply start_unit_from_true in H.
Qed.

(** A batch start never returns false. *)
Lemma start_of_units_true (os : OS) (fnmatchcase : string -> string -> bool)
    (modules : list string) (w w' : World) (b : bool) :
  start_of_units os fnmatchcase modules w = (Return b, w') -> b = true.
Proof.
  unfold start_of_units. intros H.
  apply bind_inv in H as (units & w1 & _ & H).
  assert (forall done, for_fold units done
            (fun unit done =>
               let* ok := start_unit os unit in
               if negb ok then ret false else ret done) w1 = (Return b, w')
          -> b = done) as Hloop; [| by apply Hloop].
  clear H. revert w1. induction units as [|u units IH]; intros w1 done H.
  - simpl in H. unfold ret in H. congruence.
  - simpl in H. apply bind_inv in H as (d & w2 & H1 & H2).
    apply bind_inv in H1 as (ok & w3 & Hok & H1).
    apply start_unit_true in Hok as ->. simpl in H1. unfold ret in H1.
    injection H1 as <- <-. by apply IH in H2.
Qed.

(** C2 on the code: of the two matched units [a.service] and [b.service],
    the start of the first raises (its type is not supported) and the
    start of the second would succeed; the batch start raises the
    exception of the first and starts no command: the second unit is not
    invoked and no false is returned. *)
Theorem start_of_units_stops_at_failure :
  (match_units Fnmatch.fnmatchcase ["a.service"; "b.service"] ".service"
     Run.two_units).1
  = Return ["a.service"; "b.service"]
  /\ (start_unit Sample.os "a.service" Run.two_units).1
     = Raise (Exception "unsupported run type")
  /\ (start_unit Sample.os "b.service" Run.two_units).1
     = Return true
  /\ (start_of_units Sample.os Fnmatch.fnmatchcase ["a.service"; "b.service"]
        Run.two_units).1
     = Raise (Exception "unsupported run type")
  /\ Sample.commands
       (w_trace
          (start_of_units Sample.os Fnmatch.fnmatchcase
             ["a.service"; "b.service"] Run.two_units).2)
     = [].
Proof. evaluate. Qed.

(** ** The wants of init mode *)

(** The patterns of the ignore list are never applied. *)
Lemma system_wants_services_any_matcher
    (fnmatchcase fnmatchcase' : string -> string -> bool)
    (sysv default_target : string) :
  system_wants_services fnmatchcase sysv default_target
  = system_wants_services fnmatchcase' sysv default_target.
Proof. reflexivity. Qed.

(** C3 on the code: with [S01network] and [S50demo] in [/etc/rc3.d], the
    wants hold [network], a name of the ignore list of centos that also
    matches the pattern [network*] of the always-on list. *)
Theorem system_wants_services_keeps_ignored :
  "network" ∈ igno_centos
  /\ Fnmatch.fnmatchcase "network" "network" = true
  /\ Fnmatch.fnmatchcase "network" "network*" = true
  /\ system_wants_services Fnmatch.fnmatchcase "S" "multi-user.target" Run.rc3
     = (Return ["network"; "demo"], Run.rc3).
Proof.
  split; [unfold igno_centos; set_solver |]. evaluate.
Qed.

(** ** Waiting for a PID file *)

Lemma wait_pid_loop_no_sleep (os : OS) (n : nat) (dirpath pid_file : string)
    (w : World) :
  Fs.isdir (sys_fs (w_sys w)) dirpath = true ->
  Fs.isfile (sys_fs (w_sys w)) pid_file = false ->
  wait_pid_loop os n dirpath pid_file w = (Return PyNone, w).
Proof.
  intros Hdir Hfile. induction n as [|n IH]; simpl; [done |].
  unfold bind at 1, get_fs at 1. rewrite Hdir. simpl.
  assert (read_pid_file (Some pid_file) PyNone w = (Return PyNone, w)) as Hr.
  { unfold read_pid_file. destruct (Str.truthy pid_file); [| done]. simpl.
    unfold bind, get_fs. by rewrite Hfile. }
  rewrite (bind_run _ _ _ _ _ Hr). simpl. exact IH.
Qed.

(** When the directory of the PID file exists and the file does not,
    [wait_pid_file] returns at once: no round sleeps. *)
Lemma wait_pid_file_no_sleep (os : OS) (pid_file : string) (w : World) :
  Fs.isdir (sys_fs (w_sys w)) (Path.dirname (os_abspath os pid_file)) = true ->
  Fs.isfile (sys_fs (w_sys w)) pid_file = false ->
  wait_pid_file os (Some pid_file) w = (Return PyNone, w).
Proof.
  intros Hdir Hfile. unfold wait_pid_file, bind, get_self.
  by apply wait_pid_loop_no_sleep.
Qed.

(** C4 on the code: [/run] exists and a daemon writes [/run/demo.pid]
    with its live PID 42 within five seconds; [wait_pid_file] returns
    [None] without having slept a second, the world as it was, and the
    start of the forking unit with that PID file returns with the clock
    where it was. *)
Theorem wait_pid_file_returns_at_once :
  wait_pid_file Sample.os_daemon (Some "/run/demo.pid")
    (Sample.world Sample.fs_empty)
  = (Return PyNone, Sample.world Sample.fs_empty)
  /\ w_clock (Sample.world Sample.fs_empty) = 0%nat
  /\ (read_pid_file (Some "/run/demo.pid") PyNone
        (elapse Sample.os_daemon 5 (Sample.world Sample.fs_empty))).1
     = Return (PyInt 42)
  /\ (pid_exists Sample.os_daemon (PyInt 42)
        (elapse Sample.os_daemon 5 (Sample.world Sample.fs_empty))).1
     = Return true
  /\ (start_unit_from Sample.os_daemon Run.forker
        (Sample.world Sample.fs_empty)).1
     = Return true
  /\ w_clock (start_unit_from Sample.os_daemon Run.forker
                (Sample.world Sample.fs_empty)).2
     = 0%nat.
Proof. evaluate. Qed.

(** ** Strings *)

Lemma append_assoc (a b c : string) : (a +:+ b) +:+ c = a +:+ (b +:+ c).
Proof.
  induction a as [|x a IH]; [done |].
  change (String x ((a +:+ b) +:+ c) = String x (a +:+ (b +:+ c))).
  by rewrite IH.
Qed.

(** ** Setting and reading options *)

Lemma getlist_values_of (conf : UnitConfigParser.t) (section : option string)
    (opt : string) (allow : bool) :
  UnitConfigParser.getlist conf section opt (Some []) allow
  = Return (Some (values_of conf section opt)).
Proof.
  unfold UnitConfigParser.getlist, values_of.
  destruct (UnitConfigParser._dict conf !! section) as [sec|]; [| done].
  by destruct (sec !! opt).
Qed.

Lemma values_of_set (conf : UnitConfigParser.t) (section : option string)
    (opt value : string) :
  values_of (UnitConfigParser.set conf section opt value) section opt
  = if Str.truthy value then (values_of conf section opt ++ [value])%list
    else [].
Proof.
  unfold values_of, UnitConfigParser.set. simpl.
  rewrite lookup_insert_eq.
  destruct (UnitConfigParser._dict conf !! section) as [sec|].
  - destruct (sec !! opt); destruct (Str.truthy value); simpl;
      by rewrite lookup_insert_eq.
  - rewrite lookup_empty.
    destruct (Str.truthy value); simpl; by rewrite lookup_insert_eq.
Qed.

Lemma values_of_set_all (conf : UnitConfigParser.t) (section : option string)
    (opt : string) (values : list string) :
  Forall (fun v => Str.truthy v = true) values ->
  values_of (set_all conf section opt values) section opt
  = (values_of conf section opt ++ values)%list.
Proof.
  unfold set_all. intros Hall. revert conf.
  induction Hall as [|v values Hv Hall IH]; intros conf; simpl.
  - by rewrite app_nil_r.
  - rewrite IH, values_of_set, Hv. by rewrite <- app_assoc.
Qed.

(** X1: values set for an option accumulate in the order they are set,
    and an empty value starts the list again: after non-empty [values]
    were set, [getlist] returns the values held before followed by
    [values]; when an empty value was set first, it returns [values]
    alone; and [get] returns the first of them. *)
Theorem set_accumulates_in_order :
  forall (conf : UnitConfigParser.t) (section : option string) (opt : string)
         (old values : list string),
    Forall (fun v => Str.truthy v = true) values ->
    UnitConfigParser.getlist conf section opt (Some []) false
    = Return (Some old) ->
    UnitConfigParser.getlist (set_all conf section opt values) section opt
      (Some []) false
    = Return (Some (old ++ values)%list)
    /\ UnitConfigParser.getlist
         (set_all (UnitConfigParser.set conf section opt "") section opt values)
         section opt (Some []) false
       = Return (Some values)
    /\ forall v rest, values = v :: rest ->
         UnitConfigParser.get
           (set_all (UnitConfigParser.set conf section opt "") section opt
              values)
           section opt None false
         = Return (Some v).
Proof.
  intros conf section opt old values Hall Hold.
  rewrite getlist_values_of in Hold. injection Hold as <-.
  rewrite !getlist_values_of, !values_of_set_all by done.
  rewrite values_of_set. simpl. repeat split.
  intros v rest ->.
  pose proof (values_of_set_all (UnitConfigParser.set conf section opt "")
                section opt (v :: rest) Hall) as Hv.
  rewrite values_of_set in Hv. simpl in Hv.
  unfold values_of in Hv. unfold UnitConfigParser.get.
  destruct (UnitConfigParser._dict _ !! section) as [sec|]; [| done].
  destruct (sec !! opt) as [l|]; [| done]. by subst l.
Qed.

Lemma set_accumulates_in_order_witness :
  UnitConfigParser.getlist
    (set_all
       (UnitConfigParser.set UnitConfigParser.new (Some "Service") "ExecStartPre"
          "/bin/a")
       (Some "Service") "ExecStartPre" ["/bin/b"; "/bin/c"])
    (Some "Service") "ExecStartPre" (Some []) false
  = Return (Some (["/bin/a"] ++ ["/bin/b"; "/bin/c"])%list).
Proof.
  apply (set_accumulates_in_order
           (UnitConfigParser.set UnitConfigParser.new (Some "Service")
              "ExecStartPre" "/bin/a")
           (Some "Service") "ExecStartPre" ["/bin/a"] ["/bin/b"; "/bin/c"]).
  - repeat constructor.
  - reflexivity.
Defined.

(** X2: setting an option leaves every other option as it was for a
    reader that gives a default, and every other section as it was for
    any reader.  (Without a default, an option missing from a section
    that the setting created is reported as a missing option, no longer
    as a missing section.) *)
Theorem set_leaves_other_options :
  forall (conf : UnitConfigParser.t) (section section' : option string)
         (opt opt' value : string),
    section' <> section \/ opt' <> opt ->
    (forall (d : list string) (allow : bool),
        UnitConfigParser.getlist
          (UnitConfigParser.set conf section opt value) section' opt'
          (Some d) allow
        = UnitConfigParser.getlist conf section' opt' (Some d) allow)
    /\ (forall (d : string) (allow : bool),
           UnitConfigParser.get
             (UnitConfigParser.set conf section opt value) section' opt'
             (Some d) allow
           = UnitConfigParser.get conf section' opt' (Some d) allow)
    /\ (section' <> section ->
        forall (d : option string) (allow : bool),
          UnitConfigParser.get
            (UnitConfigParser.set conf section opt value) section' opt' d allow
          = UnitConfigParser.get conf section' opt' d allow).
Proof.
  intros conf section section' opt opt' value Hne.
  assert (forall sec0 : gmap string (list string),
            (if negb (Str.truthy value)
             then <[opt := []]>
                    (match sec0 !! opt with
                     | Some l => <[opt := (l ++ [value])%list]> sec0
                     | None => <[opt := [value]]> sec0
                     end)
             else match sec0 !! opt with
                  | Some l => <[opt := (l ++ [value])%list]> sec0
                  | None => <[opt := [value]]> sec0
                  end) !! opt' = if decide (opt = opt') then
                                   (if negb (Str.truthy value)
                                    then Some []
                                    else match sec0 !! opt with
                                         | Some l => Some (l ++ [value])%list
                                         | None => Some [value]
                                         end)
                                 else sec0 !! opt') as Hsec.
  { intros sec0. destruct (decide (opt = opt')) as [<-|Ho].
    - destruct (negb (Str.truthy value)), (sec0 !! opt);
        by rewrite ?lookup_insert_eq.
    - destruct (negb (Str.truthy value)), (sec0 !! opt);
        by rewrite ?lookup_insert_ne by done. }
  destruct (decide (section' = section)) as [->|Hs].
  - destruct Hne as [? | Ho]; [done |].
    split; [| split]; [| | done].
    + intros d allow. unfold UnitConfigParser.getlist, UnitConfigParser.set.
      simpl. rewrite lookup_insert_eq, Hsec.
      destruct (decide (opt = opt')); [congruence |].
      destruct (UnitConfigParser._dict conf !! section) as [sec|]; [done |].
      by rewrite lookup_empty.
    + intros d allow. unfold UnitConfigParser.get, UnitConfigParser.set.
      simpl. rewrite lookup_insert_eq, Hsec.
      destruct (decide (opt = opt')); [congruence |].
      destruct (UnitConfigParser._dict conf !! section) as [sec|]; [done |].
      by rewrite lookup_empty.
  - split; [| split].
    + intros d allow. unfold UnitConfigParser.getlist, UnitConfigParser.set.
      simpl. by rewrite lookup_insert_ne.
    + intros d allow. unfold UnitConfigParser.get, UnitConfigParser.set.
      simpl. by rewrite lookup_insert_ne.
    + intros _ d allow. unfold UnitConfigParser.get, UnitConfigParser.set.
      simpl. by rewrite lookup_insert_ne.
Qed.

Lemma set_leaves_other_options_witness :
  UnitConfigParser.getlist
    (UnitConfigParser.set UnitConfigParser.new (Some "Service") "ExecStart"
       "/bin/a")
    (Some "Service") "ExecStop" (Some []) false
  = UnitConfigParser.getlist UnitConfigParser.new (Some "Service") "ExecStop"
      (Some []) false.
Proof.
  apply (set_leaves_other_options UnitConfigParser.new (Some "Service")
           (Some "Service") "ExecStart" "ExecStop" "/bin/a").
  right. discriminate.
Defined.

(** ** Reading a descriptor *)

Lemma lacks_app (c : ascii) (s t : string) :
  lacks c (s +:+ t) = lacks c s && lacks c t.
Proof. induction s as [|d s IH]; simpl; [done |]. by rewrite IH, andb_assoc. Qed.

Lemma readlines_line (l rest : string) :
  lacks Str.nl l = true ->
  Str.readlines (l +:+ Str.NL +:+ rest) = (l +:+ Str.NL) :: Str.readlines rest.
Proof.
  induction l as [|c l IH]; simpl; [done |].
  intros H. apply andb_true_iff in H as [Hc Hl].
  apply negb_true_iff in Hc. rewrite Hc, (IH Hl). reflexivity.
Qed.

Lemma rstrip_app_nl (s : string) :
  Str.rstrip s = s -> Str.rstrip (s +:+ Str.NL) = s.
Proof.
  induction s as [|c s IH]; [done |]. simpl.
  destruct (Str.rstrip s) as [|d r] eqn:E.
  - destruct (Str.isspace c) eqn:Hc; [done |]. intros [= <-].
    reflexivity.
  - intros [= Hs]. rewrite IH by done. by rewrite <- Hs.
Qed.

Lemma rstrip_app (a b : string) :
  Str.rstrip b = b -> b <> EmptyString -> Str.rstrip (a +:+ b) = a +:+ b.
Proof.
  intros Hb Hne. induction a as [|c a IH]; [done |].
  change (String c a +:+ b) with (String c (a +:+ b)).
  assert (a +:+ b <> EmptyString) as Hab
    by (intros E; destruct a; simpl in E; [by apply Hne | discriminate]).
  change (Str.rstrip (String c (a +:+ b)))
    with (match Str.rstrip (a +:+ b) with
          | EmptyString =>
              if Str.isspace c then EmptyString else String c EmptyString
          | r => String c r
          end).
  rewrite IH. by destruct (a +:+ b).
Qed.

Lemma strip_line (s : string) :
  Str.lstrip s = s -> Str.rstrip s = s -> Str.strip (s +:+ Str.NL) = s.
Proof.
  intros Hl Hr. unfold Str.strip.
  destruct s as [|c s]; [done |].
  assert (Str.isspace c = false) as Hc.
  { simpl in Hl. destruct (Str.isspace c) eqn:Hc; [| done].
    exfalso. clear -Hl.
    assert (forall t, String.length (Str.lstrip t) <= String.length t)%nat as Hlen.
    { induction t as [|d t IH]; simpl; [lia |].
      destruct (Str.isspace d); simpl; lia. }
    specialize (Hlen s). rewrite Hl in Hlen. simpl in Hlen. lia. }
  assert (Str.lstrip (String c s +:+ Str.NL) = String c s +:+ Str.NL) as ->.
  { simpl. by rewrite Hc. }
  by apply rstrip_app_nl.
Qed.

Lemma isword_not_space (c : ascii) :
  Str.isword c = true -> Str.isspace c = false.
Proof.
  destruct c as [[] [] [] [] [] [] [] []]; vm_compute; congruence.
Qed.

Lemma lstrip_word (c : ascii) (s : string) :
  Str.isword c = true -> Str.lstrip (String c s) = String c s.
Proof. intros Hc. simpl. by rewrite (isword_not_space c Hc). Qed.

Lemma isword_not (c d : ascii) :
  Str.isword d = false -> Str.isword c = true -> Ascii.eqb c d = false.
Proof.
  intros Hd Hc. apply Ascii.eqb_neq. intros ->. congruence.
Qed.

Lemma span_word_app (name rest : string) (c : ascii) :
  all_word name = true -> Str.isword c = false ->
  Re.span_word (name +:+ String c rest) = (name, String c rest).
Proof.
  unfold Re.span_word. intros Hn Hc.
  induction name as [|d name IH]; simpl.
  - by rewrite Hc.
  - simpl in Hn. apply andb_true_iff in Hn as [Hd Hn].
    by rewrite Hd, (IH Hn).
Qed.

Lemma dot_star_id (s : string) : lacks Str.nl s = true -> Re.dot_star s = s.
Proof.
  induction s as [|c s IH]; simpl; [done |].
  intros H. apply andb_true_iff in H as [Hc Hs].
  apply negb_true_iff in Hc. by rewrite Hc, (IH Hs).
Qed.

Lemma until_char_app (q : ascii) (s rest : string) :
  lacks q s = true -> Re.until_char q (s +:+ String q rest) = Some (s, rest).
Proof.
  induction s as [|c s IH]; simpl.
  - by rewrite Ascii.eqb_refl.
  - intros H. apply andb_true_iff in H as [Hc Hs].
    apply negb_true_iff in Hc. by rewrite Hc, (IH Hs).
Qed.

Lemma all_word_lacks_nl (s : string) :
  all_word s = true -> lacks Str.nl s = true.
Proof.
  induction s as [|c s IH]; simpl; [done |].
  intros H. apply andb_true_iff in H as [Hc Hs].
  rewrite (IH Hs), (isword_not c Str.nl); done.
Qed.

Lemma render_item_one_line (i : item) :
  item_ok i -> lacks Str.nl (render_item i) = true.
Proof.
  destruct i as [section|name value|words|]; unfold render_item, item_ok.
  - intros [H _]. rewrite !lacks_app, H. reflexivity.
  - intros (_ & Hn & Hv & _).
    rewrite !lacks_app, (all_word_lacks_nl _ Hn), Hv. reflexivity.
  - intros H. rewrite lacks_app, H. reflexivity.
  - done.
Qed.

Lemma readlines_render (items : list item) :
  Forall item_ok items ->
  Str.readlines (render items)
  = (fun i => render_item i +:+ Str.NL) <$> items.
Proof.
  induction 1 as [|i items Hi Hitems IH]; simpl; [done |].
  rewrite (readlines_line _ _ (render_item_one_line i Hi)). by rewrite IH.
Qed.

Lemma rstrip_cons (c : ascii) (x : string) :
  Str.rstrip x = x -> x <> EmptyString -> Str.rstrip (String c x) = String c x.
Proof. intros Hx Hne. exact (rstrip_app (String c EmptyString) x Hx Hne). Qed.

Lemma strip_starts (c : ascii) (x : string) :
  Str.isspace c = false ->
  exists y, Str.strip (String c x) = String c y.
Proof.
  intros Hc. unfold Str.strip. simpl. rewrite Hc. simpl.
  destruct (Str.rstrip x); [rewrite Hc |]; eauto.
Qed.

Lemma read_sysd_line_item (st : UnitConfigParser.sysd_state) (i : item) :
  item_ok i ->
  UnitConfigParser.nextline st = false ->
  exists st',
    UnitConfigParser.read_sysd_line st (render_item i +:+ Str.NL) = Return st'
    /\ UnitConfigParser.nextline st' = false
    /\ (UnitConfigParser.sysd_conf st', UnitConfigParser.section st')
       = apply_item
           (UnitConfigParser.sysd_conf st, UnitConfigParser.section st) i.
Proof.
  intros Hok Hnext. unfold UnitConfigParser.read_sysd_line. rewrite Hnext.
  destruct i as [section|name value|words|]; unfold render_item, item_ok in *.
  - destruct Hok as [_ Hb].
    assert (Str.strip (("[" +:+ section +:+ "]") +:+ Str.NL)
            = "[" +:+ section +:+ "]") as ->.
    { apply strip_line; [reflexivity |].
      apply rstrip_cons.
      - apply rstrip_app; [reflexivity | discriminate].
      - destruct section; discriminate. }
    change ("[" +:+ section +:+ "]") with (String "[" (section +:+ "]")).
    set (x := section +:+ "]").
    rewrite (eq_refl : Str.truthy (String "[" x) = true).
    rewrite (eq_refl : Str.startswith (String "[" x) "#" = false).
    rewrite (eq_refl : Str.startswith (String "[" x) "[" = true).
    cbn [negb]. unfold UnitConfigParser.section_name.
    change (Str.tail (String "[" x)) with x. subst x.
    rewrite (until_char_app "]" section "" Hb). eauto.
  - destruct Hok as (Hne & Hw & Hnl & Hl & Hr & Hbs).
    destruct name as [|c name]; [discriminate |].
    simpl in Hw. apply andb_true_iff in Hw as [Hc Hw].
    assert (Str.rstrip ("=" +:+ value) = "=" +:+ value) as Hrv.
    { destruct value as [|d value]; [reflexivity |].
      by apply (rstrip_cons "=" (String d value)). }
    assert (Str.strip ((String c name +:+ "=" +:+ value) +:+ Str.NL)
            = String c name +:+ "=" +:+ value) as ->.
    { apply strip_line.
      - simpl. by rewrite (isword_not_space c Hc).
      - apply rstrip_app; [exact Hrv | discriminate]. }
    change (String c name +:+ "=" +:+ value)
      with (String c (name +:+ "=" +:+ value)).
    cbn [Str.truthy negb Str.startswith].
    rewrite (isword_not c "#" eq_refl Hc), (isword_not c "[" eq_refl Hc).
    cbn [andb].
    unfold UnitConfigParser.match_setting.
    change (String c (name +:+ "=" +:+ value))
      with (String c name +:+ String "=" value).
    rewrite (span_word_app (String c name) value "=");
      [| by simpl; rewrite Hc, Hw | reflexivity].
    rewrite (dot_star_id _ Hnl).
    unfold Str.strip. rewrite Hl, Hr, Hbs. eauto.
  - destruct (strip_starts "#" (words +:+ Str.NL) eq_refl) as [y Hy].
    change (("#" +:+ words) +:+ Str.NL) with (String "#" (words +:+ Str.NL)).
    rewrite Hy. simpl. eauto.
  - simpl. eauto.
Qed.

Lemma fold_read_sysd_line_item_state (items : list item)
    (st : UnitConfigParser.sysd_state) :
  Forall item_ok items ->
  UnitConfigParser.nextline st = false ->
  exists st',
    fold_result UnitConfigParser.read_sysd_line st
      ((fun i => render_item i +:+ Str.NL) <$> items) = Return st'
    /\ UnitConfigParser.nextline st' = false
    /\ (UnitConfigParser.sysd_conf st', UnitConfigParser.section st')
       = foldl apply_item
           (UnitConfigParser.sysd_conf st, UnitConfigParser.section st) items.
Proof.
  intros Hall. revert st.
  induction Hall as [|i items Hi Hall IH]; intros st Hnext; simpl.
  - eauto.
  - destruct (read_sysd_line_item st i Hi Hnext) as (st1 & -> & Hn1 & H1).
    destruct (IH st1 Hn1) as (st' & Hrun & Hn' & H'). exists st'.
    split; [done |]. split; [done |]. by rewrite H', H1.
Qed.

(** X3: reading a file made of section headers, settings, comment lines
    and empty lines records the file and then does what the lines say, in
    order: a header opens its section, a setting is set in the section
    that is open (in none before the first header), comments and empty
    lines do nothing. *)
Theorem read_sysd_rendered :
  forall (fs : FS) (conf : UnitConfigParser.t) (filename : string)
         (items : list item),
    Forall item_ok items ->
    Fs.read fs filename = Return (render items) ->
    UnitConfigParser.read_sysd fs conf filename
    = Return (foldl apply_item (with_file conf filename, None) items).1.
Proof.
  intros fs conf filename items Hall Hread.
  unfold UnitConfigParser.read_sysd. rewrite Hread.
  assert (UnitConfigParser.note_file fs conf filename = with_file conf filename)
    as ->.
  { unfold UnitConfigParser.note_file, Fs.isfile, Fs.read in *.
    destruct (fs_files fs !! filename) eqn:E; [| done].
    rewrite bool_decide_eq_true_2; [done | eauto]. }
  rewrite (readlines_render items Hall).
  destruct (fold_read_sysd_line_item_state items
              (UnitConfigParser.mk_sysd (with_file conf filename) None false
                 "" "") Hall eq_refl) as (st' & -> & _ & H').
  simpl in H'. by rewrite <- H'.
Qed.

Lemma read_sysd_rendered_witness :
  UnitConfigParser.read_sysd
    (mkFS ∅ {["/etc/systemd/system/demo.service" :=
              render [Comment " a unit"; Header "Unit";
                      Setting "Description" "demo"; Blank; Header "Service";
                      Setting "ExecStart" "/bin/sleep 3600"]]})
    UnitConfigParser.new "/etc/systemd/system/demo.service"
  = Return
      (foldl apply_item
         (with_file UnitConfigParser.new "/etc/systemd/system/demo.service",
          None)
         [Comment " a unit"; Header "Unit"; Setting "Description" "demo";
          Blank; Header "Service"; Setting "ExecStart" "/bin/sleep 3600"]).1.
Proof.
  apply read_sysd_rendered.
  - repeat constructor.
  - reflexivity.
Defined.

(** ** A setting continued over the line end *)

Lemma values_of_set_other (conf : UnitConfigParser.t)
    (section section' : option string) (opt opt' value : string) :
  section' <> section \/ opt' <> opt ->
  values_of (UnitConfigParser.set conf section opt value) section' opt'
  = values_of conf section' opt'.
Proof.
  intros Hne. unfold values_of, UnitConfigParser.set. simpl.
  destruct (decide (section' = section)) as [->|Hs].
  - destruct Hne as [? | Ho]; [done |]. rewrite lookup_insert_eq.
    destruct (UnitConfigParser._dict conf !! section) as [sec|].
    + destruct (negb (Str.truthy value)), (sec !! opt);
        by rewrite ?lookup_insert_ne by done.
    + destruct (negb (Str.truthy value)); rewrite lookup_empty;
        by rewrite ?lookup_insert_ne, ?lookup_empty by done.
  - by rewrite lookup_insert_ne.
Qed.

Lemma has_section_set (conf : UnitConfigParser.t)
    (section section' : option string) (opt value : string) :
  UnitConfigParser.has_section (UnitConfigParser.set conf section opt value)
    section' = true ->
  UnitConfigParser.has_section conf section' = true \/ section' = section.
Proof.
  unfold UnitConfigParser.has_section, UnitConfigParser.set. simpl.
  destruct (decide (section' = section)) as [->|Hs]; [by right |].
  rewrite lookup_insert_ne by done. by left.
Qed.

Lemma only_option_changed_refl (conf : UnitConfigParser.t)
    (section : option string) (opt : string) :
  only_option_changed conf conf section opt.
Proof. split; [done |]. split; [by left | done]. Qed.

Lemma only_option_changed_set (conf conf' : UnitConfigParser.t)
    (section : option string) (opt value : string) :
  only_option_changed conf conf' section opt ->
  only_option_changed conf (UnitConfigParser.set conf' section opt value)
    section opt.
Proof.
  intros (Hv & Hs & Hf). split; [| split].
  - intros section' opt' Hne. rewrite values_of_set_other by done. by apply Hv.
  - intros section' H. apply has_section_set in H as [H | ->]; [| by right].
    by apply Hs.
  - exact Hf.
Qed.

(** Once a line ended in a backslash every later line is taken as text of
    the setting. *)
Lemma read_sysd_line_continued (st : UnitConfigParser.sysd_state)
    (line : string) :
  UnitConfigParser.nextline st = true ->
  exists st',
    UnitConfigParser.read_sysd_line st line = Return st'
    /\ UnitConfigParser.nextline st' = true
    /\ UnitConfigParser.section st' = UnitConfigParser.section st
    /\ UnitConfigParser.name st' = UnitConfigParser.name st
    /\ (UnitConfigParser.sysd_conf st' = UnitConfigParser.sysd_conf st
        \/ exists text,
             UnitConfigParser.sysd_conf st'
             = UnitConfigParser.set (UnitConfigParser.sysd_conf st)
                 (UnitConfigParser.section st) (UnitConfigParser.name st) text).
Proof.
  intros Hnext. unfold UnitConfigParser.read_sysd_line. rewrite Hnext.
  destruct (Str.endswith _ _); eexists; (split; [reflexivity |]); simpl;
    eauto 10.
Qed.

Lemma fold_read_sysd_line_continued (lines : list string)
    (st : UnitConfigParser.sysd_state) :
  UnitConfigParser.nextline st = true ->
  exists st',
    fold_result UnitConfigParser.read_sysd_line st lines = Return st'
    /\ only_option_changed (UnitConfigParser.sysd_conf st)
         (UnitConfigParser.sysd_conf st') (UnitConfigParser.section st)
         (UnitConfigParser.name st).
Proof.
  revert st. induction lines as [|line lines IH]; intros st Hnext; simpl.
  - eexists. split; [reflexivity | apply only_option_changed_refl].
  - destruct (read_sysd_line_continued st line Hnext)
      as (st1 & -> & Hn1 & Hs1 & Hname1 & Hconf1).
    destruct (IH st1 Hn1) as (st' & -> & Hrest).
    exists st'. split; [done |]. rewrite Hs1, Hname1 in Hrest.
    destruct Hconf1 as [E | [text E]]; rewrite E in Hrest; [done |].
    destruct Hrest as (Hv & Hs & Hf). split; [| split].
    + intros section' opt' Hne. rewrite (Hv _ _ Hne).
      by apply values_of_set_other.
    + intros section' H. apply Hs in H as [H | ->]; [| by right].
      by apply has_section_set in H.
    + exact Hf.
Qed.

Lemma truthy_app (a b : string) :
  Str.truthy a = true -> Str.truthy (a +:+ b) = true.
Proof. by destruct a. Qed.

Lemma truthy_app_nl (a : string) : Str.truthy (a +:+ Str.NL) = true.
Proof. by destruct a. Qed.

(** What the setting holds after the lines of a continuation. *)
Lemma fold_read_sysd_line_texts (lines : list string)
    (st : UnitConfigParser.sysd_state) :
  UnitConfigParser.nextline st = true ->
  Str.truthy (UnitConfigParser.text st) = true ->
  exists st',
    fold_result UnitConfigParser.read_sysd_line st lines = Return st'
    /\ values_of (UnitConfigParser.sysd_conf st') (UnitConfigParser.section st)
         (UnitConfigParser.name st)
       = (values_of (UnitConfigParser.sysd_conf st)
            (UnitConfigParser.section st) (UnitConfigParser.name st)
          ++ continuation_texts (UnitConfigParser.text st) lines)%list.
Proof.
  revert st. induction lines as [|line lines IH]; intros st Hnext Htext.
  - exists st. split; [done |]. by rewrite app_nil_r.
  - cbn [fold_result continuation_texts].
    unfold UnitConfigParser.read_sysd_line at 1. rewrite Hnext.
    destruct (Str.endswith _ Str.backslash).
    + destruct (IH (UnitConfigParser.mk_sysd (UnitConfigParser.sysd_conf st)
                      (UnitConfigParser.section st) true
                      (UnitConfigParser.name st)
                      (Str.rstrip (UnitConfigParser.text st +:+ line)
                       +:+ Str.NL)) eq_refl (truthy_app_nl _))
        as (st' & Hrun & Hvalues).
      exists st'. split; [exact Hrun | exact Hvalues].
    + destruct (IH (UnitConfigParser.mk_sysd
                      (UnitConfigParser.set (UnitConfigParser.sysd_conf st)
                         (UnitConfigParser.section st)
                         (UnitConfigParser.name st)
                         (UnitConfigParser.text st +:+ line))
                      (UnitConfigParser.section st) true
                      (UnitConfigParser.name st)
                      (UnitConfigParser.text st +:+ line)) eq_refl
                  (truthy_app _ line Htext))
        as (st' & Hrun & Hvalues).
      exists st'. split; [exact Hrun |].
      cbn [UnitConfigParser.sysd_conf UnitConfigParser.section
             UnitConfigParser.name UnitConfigParser.text] in Hvalues.
      rewrite Hvalues, values_of_set, (truthy_app _ line Htext).
      by rewrite <- app_assoc.
Qed.

Lemma fold_result_app {A S} (f : S -> A -> result S) (s : S) (xs ys : list A) :
  fold_result f s (xs ++ ys)
  = match fold_result f s xs with
    | Return s' => fold_result f s' ys
    | Raise e => Raise e
    end.
Proof.
  revert s. induction xs as [|x xs IH]; intros s; simpl; [done |].
  by destruct (f s x).
Qed.

Lemma readlines_render_app (items : list item) (rest : string) :
  Forall item_ok items ->
  Str.readlines (render items +:+ rest)
  = (((fun i => render_item i +:+ Str.NL) <$> items) ++ Str.readlines rest)%list.
Proof.
  induction 1 as [|i items Hi Hitems IH]; simpl; [done |].
  rewrite !append_assoc.
  rewrite (readlines_line _ _ (render_item_one_line i Hi)). by rewrite IH.
Qed.

Lemma read_sysd_line_opens (st : UnitConfigParser.sysd_state)
    (name value : string) :
  continued name value ->
  UnitConfigParser.nextline st = false ->
  UnitConfigParser.read_sysd_line st ((name +:+ "=" +:+ value) +:+ Str.NL)
  = Return (UnitConfigParser.mk_sysd (UnitConfigParser.sysd_conf st)
              (UnitConfigParser.section st) true name (value +:+ Str.NL)).
Proof.
  intros (Hne & Hw & Hnl & Hl & Hr & Hbs) Hnext.
  unfold UnitConfigParser.read_sysd_line. rewrite Hnext.
  destruct name as [|c name]; [discriminate |].
  simpl in Hw. apply andb_true_iff in Hw as [Hc Hw].
  assert (Str.rstrip ("=" +:+ value) = "=" +:+ value) as Hrv.
  { destruct value as [|d value]; [reflexivity |].
    by apply (rstrip_cons "=" (String d value)). }
  assert (Str.strip ((String c name +:+ "=" +:+ value) +:+ Str.NL)
          = String c name +:+ "=" +:+ value) as ->.
  { apply strip_line.
    - simpl. by rewrite (isword_not_space c Hc).
    - apply rstrip_app; [exact Hrv | discriminate]. }
  change (String c name +:+ "=" +:+ value)
    with (String c (name +:+ "=" +:+ value)).
  cbn [Str.truthy negb Str.startswith].
  rewrite (isword_not c "#" eq_refl Hc), (isword_not c "[" eq_refl Hc).
  cbn [andb].
  unfold UnitConfigParser.match_setting.
  change (String c (name +:+ "=" +:+ value))
    with (String c name +:+ String "=" value).
  rewrite (span_word_app (String c name) value "=");
    [| by simpl; rewrite Hc, Hw | reflexivity].
  rewrite (dot_star_id _ Hnl).
  unfold Str.strip. by rewrite Hl, Hr, Hbs.
Qed.

(** X4: a continuation never ends.  When a setting line ends in a
    backslash, every line after it, section headers and comments
    included, is taken as text of that setting: the rest of the file is
    read without an error, sets no other option and opens no section,
    and the setting gets one more value for each later line after which
    the text does not end in a backslash, the text gathered up to that
    line. *)
Theorem read_sysd_continuation_never_ends :
  forall (fs : FS) (conf : UnitConfigParser.t) (filename : string)
         (items : list item) (name value rest : string),
    Forall item_ok items ->
    continued name value ->
    Fs.read fs filename
    = Return (render items +:+ (name +:+ "=" +:+ value) +:+ Str.NL +:+ rest) ->
    exists conf',
      UnitConfigParser.read_sysd fs conf filename = Return conf'
      /\ only_option_changed
           (foldl apply_item (with_file conf filename, None) items).1 conf'
           (foldl apply_item (with_file conf filename, None) items).2 name
      /\ values_of conf'
           (foldl apply_item (with_file conf filename, None) items).2 name
         = (values_of
              (foldl apply_item (with_file conf filename, None) items).1
              (foldl apply_item (with_file conf filename, None) items).2 name
            ++ continuation_texts (value +:+ Str.NL) (Str.readlines rest))%list.
Proof.
  intros fs conf filename items name value rest Hall Hcont Hread.
  unfold UnitConfigParser.read_sysd. rewrite Hread.
  assert (UnitConfigParser.note_file fs conf filename = with_file conf filename)
    as ->.
  { unfold UnitConfigParser.note_file, Fs.isfile, Fs.read in *.
    destruct (fs_files fs !! filename) eqn:E; [| done].
    rewrite bool_decide_eq_true_2; [done | eauto]. }
  rewrite (readlines_render_app items _ Hall), fold_result_app.
  destruct (fold_read_sysd_line_item_state items
              (UnitConfigParser.mk_sysd (with_file conf filename) None false
                 "" "") Hall eq_refl) as (st1 & -> & Hn1 & H1).
  simpl in H1.
  assert (lacks Str.nl (name +:+ "=" +:+ value) = true) as Hline.
  { destruct Hcont as (_ & Hw & Hnl & _).
    rewrite !lacks_app, (all_word_lacks_nl _ Hw), Hnl. reflexivity. }
  rewrite (readlines_line _ rest Hline). cbn [fold_result].
  rewrite (read_sysd_line_opens st1 name value Hcont Hn1).
  destruct (fold_read_sysd_line_continued (Str.readlines rest)
              (UnitConfigParser.mk_sysd (UnitConfigParser.sysd_conf st1)
                 (UnitConfigParser.section st1) true name (value +:+ Str.NL))
              eq_refl) as (st' & Hrun & Hrest).
  destruct (fold_read_sysd_line_texts (Str.readlines rest)
              (UnitConfigParser.mk_sysd (UnitConfigParser.sysd_conf st1)
                 (UnitConfigParser.section st1) true name (value +:+ Str.NL))
              eq_refl (truthy_app_nl value)) as (st'' & Hrun' & Hvalues).
  rewrite Hrun in Hrun'. injection Hrun' as <-. rewrite Hrun.
  exists (UnitConfigParser.sysd_conf st'). split; [done |].
  simpl in Hrest, Hvalues. rewrite <- H1. by split.
Qed.

Lemma read_sysd_continuation_never_ends_witness :
  exists conf',
    UnitConfigParser.read_sysd
      (mkFS ∅ {["/etc/systemd/system/demo.service" :=
                render [Header "Service"]
                +:+ ("ExecStart" +:+ "=" +:+ ("/bin/demo " +:+ Str.backslash))
                +:+ Str.NL
                +:+ ("  --flag" +:+ Str.NL +:+ "[Install]" +:+ Str.NL
                     +:+ "WantedBy=multi-user.target" +:+ Str.NL)]})
      UnitConfigParser.new "/etc/systemd/system/demo.service"
    = Return conf'
    /\ UnitConfigParser.has_section conf' (Some "Install") = false
    /\ values_of conf' (Some "Service") "ExecStart"
       = ["/bin/demo " +:+ Str.backslash +:+ Str.NL +:+ "  --flag" +:+ Str.NL;
          "/bin/demo " +:+ Str.backslash +:+ Str.NL +:+ "  --flag" +:+ Str.NL
          +:+ "[Install]" +:+ Str.NL;
          "/bin/demo " +:+ Str.backslash +:+ Str.NL +:+ "  --flag" +:+ Str.NL
          +:+ "[Install]" +:+ Str.NL
          +:+ "WantedBy=multi-user.target" +:+ Str.NL].
Proof.
  destruct (read_sysd_continuation_never_ends
              (mkFS ∅ {["/etc/systemd/system/demo.service" :=
                        render [Header "Service"]
                        +:+ ("ExecStart" +:+ "="
                             +:+ ("/bin/demo " +:+ Str.backslash))
                        +:+ Str.NL
                        +:+ ("  --flag" +:+ Str.NL +:+ "[Install]" +:+ Str.NL
                             +:+ "WantedBy=multi-user.target" +:+ Str.NL)]})
              UnitConfigParser.new "/etc/systemd/system/demo.service"
              [Header "Service"]
              "ExecStart" ("/bin/demo " +:+ Str.backslash)
              ("  --flag" +:+ Str.NL +:+ "[Install]" +:+ Str.NL
               +:+ "WantedBy=multi-user.target" +:+ Str.NL))
    as (conf' & Hread & (_ & Hsections & _) & Hvalues).
  - repeat constructor.
  - repeat split.
  - reflexivity.
  - exists conf'. split; [exact Hread |]. split.
    + destruct (UnitConfigParser.has_section conf' (Some "Install")) eqn:E;
        [| done].
      by destruct (Hsections _ E).
    + etransitivity; [exact Hvalues |]. vm_compute. reflexivity.
Defined.

(** ** A line that is no setting *)

(** X5: a line made of word characters, without an equals sign, is an
    error: the file is given up at that line, whatever follows. *)
Theorem read_sysd_bad_line :
  forall (fs : FS) (conf : UnitConfigParser.t) (filename : string)
         (items : list item) (line rest : string),
    Forall item_ok items ->
    Str.truthy line = true ->
    all_word line = true ->
    Fs.read fs filename
    = Return (render items +:+ line +:+ Str.NL +:+ rest) ->
    UnitConfigParser.read_sysd fs conf filename
    = Raise (Exception "bad ini line").
Proof.
  intros fs conf filename items line rest Hall Hne Hw Hread.
  unfold UnitConfigParser.read_sysd. rewrite Hread.
  rewrite (readlines_render_app items _ Hall), fold_result_app.
  destruct (fold_read_sysd_line_item_state items
              (UnitConfigParser.mk_sysd
                 (UnitConfigParser.note_file fs conf filename) None false
                 "" "") Hall eq_refl) as (st1 & -> & Hn1 & _).
  rewrite (readlines_line _ rest (all_word_lacks_nl _ Hw)).
  cbn [fold_result]. unfold UnitConfigParser.read_sysd_line at 1.
  rewrite Hn1.
  destruct line as [|c line]; [discriminate |].
  pose proof Hw as Hw'. simpl in Hw'.
  apply andb_true_iff in Hw' as [Hc Hw'].
  assert (Str.rstrip (String c line) = String c line) as Hr.
  { clear -Hw. induction line as [|d line IH] in c, Hw |- *.
    - simpl in *. apply andb_true_iff in Hw as [Hc _].
      by rewrite (isword_not_space c Hc).
    - apply rstrip_cons; [| discriminate]. apply IH.
      simpl in Hw. by apply andb_true_iff in Hw as [_ Hw]. }
  rewrite (strip_line (String c line) (lstrip_word c line Hc) Hr).
  cbn [Str.truthy negb Str.startswith].
  rewrite (isword_not c "#" eq_refl Hc), (isword_not c "[" eq_refl Hc).
  cbn [andb]. unfold UnitConfigParser.match_setting.
  assert (Re.span_word (String c line) = (String c line, "")) as ->;
    [| done].
  clear -Hw. unfold Re.span_word.
  induction (String c line) as [|d s IH]; [done |].
  simpl in *. apply andb_true_iff in Hw as [Hd Hs].
  by rewrite Hd, (IH Hs).
Qed.

Lemma read_sysd_bad_line_witness :
  UnitConfigParser.read_sysd
    (mkFS ∅ {["/etc/systemd/system/demo.service" :=
              render [Header "Service"] +:+ "ExecStart" +:+ Str.NL
              +:+ "Type=simple"]})
    UnitConfigParser.new "/etc/systemd/system/demo.service"
  = Raise (Exception "bad ini line").
Proof.
  apply (read_sysd_bad_line _ _ _ [Header "Service"] "ExecStart" "Type=simple").
  - repeat constructor.
  - reflexivity.
  - reflexivity.
  - reflexivity.
Defined.

(** ** Reading a legacy script *)

Lemma dict_set_other (conf : UnitConfigParser.t)
    (section section' : option string) (opt value : string) :
  section' <> section ->
  UnitConfigParser._dict (UnitConfigParser.set conf section opt value)
    !! section'
  = UnitConfigParser._dict conf !! section'.
Proof.
  intros Hs. unfold UnitConfigParser.set. simpl. by rewrite lookup_insert_ne.
Qed.

Lemma files_set (conf : UnitConfigParser.t) (section : option string)
    (opt value : string) :
  UnitConfigParser._files (UnitConfigParser.set conf section opt value)
  = UnitConfigParser._files conf.
Proof. reflexivity. Qed.

(** The header lines of a script set options of [init.d] only. *)
Lemma read_sysv_lines_service (lines : list string)
    (st : UnitConfigParser.sysv_state) :
  UnitConfigParser.sysv_section st <> Some "Service" ->
  UnitConfigParser.sysv_section
    (foldl UnitConfigParser.read_sysv_line st lines) <> Some "Service"
  /\ UnitConfigParser._dict
       (UnitConfigParser.sysv_conf
          (foldl UnitConfigParser.read_sysv_line st lines)) !! Some "Service"
     = UnitConfigParser._dict (UnitConfigParser.sysv_conf st) !! Some "Service"
  /\ UnitConfigParser._files
       (UnitConfigParser.sysv_conf
          (foldl UnitConfigParser.read_sysv_line st lines))
     = UnitConfigParser._files (UnitConfigParser.sysv_conf st).
Proof.
  revert st. induction lines as [|line lines IH]; intros st Hs; [done |].
  cbn [foldl].
  assert (UnitConfigParser.sysv_section
            (UnitConfigParser.read_sysv_line st line) <> Some "Service"
          /\ UnitConfigParser._dict
               (UnitConfigParser.sysv_conf
                  (UnitConfigParser.read_sysv_line st line)) !! Some "Service"
             = UnitConfigParser._dict (UnitConfigParser.sysv_conf st)
                 !! Some "Service"
          /\ UnitConfigParser._files
               (UnitConfigParser.sysv_conf
                  (UnitConfigParser.read_sysv_line st line))
             = UnitConfigParser._files (UnitConfigParser.sysv_conf st))
    as (Hs1 & Hd1 & Hf1).
  { unfold UnitConfigParser.read_sysv_line.
    destruct (Str.startswith _ "#"); [| done].
    destruct (Str.contains _ " BEGIN INIT INFO"),
             (Str.contains _ " END INIT INFO"); cbn;
      try destruct (UnitConfigParser.initinfo st); try done;
      destruct (UnitConfigParser.match_header _) as [[key value]|]; cbn;
      try done; (split; [done |]); (split; [| done]);
      by apply dict_set_other. }
  destruct (IH _ Hs1) as (Hs' & Hd' & Hf').
  split; [done |]. split; congruence.
Qed.

Lemma required_start_service (items : list string)
    (conf : UnitConfigParser.t) :
  UnitConfigParser._dict (foldl UnitConfigParser.required_start conf items)
    !! Some "Service"
  = UnitConfigParser._dict conf !! Some "Service"
  /\ UnitConfigParser._files
       (foldl UnitConfigParser.required_start conf items)
     = UnitConfigParser._files conf.
Proof.
  revert conf. induction items as [|item items IH]; intros conf; [done |].
  cbn [foldl]. destruct (IH (UnitConfigParser.required_start conf item))
    as [-> ->].
  unfold UnitConfigParser.required_start.
  repeat match goal with
         | |- context [if ?b then _ else _] => destruct b
         end;
    rewrite ?dict_set_other by discriminate; done.
Qed.

(** X6: a script that can be opened is always read, whatever its text,
    and a fresh descriptor that read it has the type [sysv] and nothing
    else as its type: the header of the script cannot set it.  The file
    it names is the script. *)
Theorem read_sysv_type_is_sysv :
  forall (fs : FS) (filename content : string),
    Fs.read fs filename = Return content ->
    exists conf,
      UnitConfigParser.read_sysv fs UnitConfigParser.new filename = Return conf
      /\ UnitConfigParser.getlist conf (Some "Service") "Type" None false
         = Return (Some ["sysv"])
      /\ UnitConfigParser.get conf (Some "Service") "Type" (Some "simple") false
         = Return (Some "sysv")
      /\ UnitConfigParser.filename conf = Some filename.
Proof.
  intros fs filename content Hread.
  unfold UnitConfigParser.read_sysv. rewrite Hread.
  assert (UnitConfigParser.note_file fs UnitConfigParser.new filename
          = UnitConfigParser.mk false ∅ [filename]) as ->.
  { unfold UnitConfigParser.note_file, Fs.isfile, Fs.read in *.
    destruct (fs_files fs !! filename) eqn:E; [| done].
    rewrite bool_decide_eq_true_2; [done | eauto]. }
  eexists. split; [reflexivity |].
  set (st0 := UnitConfigParser.mk_sysv (UnitConfigParser.mk false ∅ [filename])
                false None).
  destruct (read_sysv_lines_service (Str.readlines content) st0)
    as (_ & Hd & Hf); [done |].
  set (conf1 := UnitConfigParser.sysv_conf
                  (foldl UnitConfigParser.read_sysv_line st0
                     (Str.readlines content))) in *.
  change (UnitConfigParser._dict conf1 !! Some "Service" = None) in Hd.
  change (UnitConfigParser._files conf1 = [filename]) in Hf.
  match goal with
  | |- context [UnitConfigParser.set ?c (Some "Service") "Type" "sysv"] =>
      set (cfin := c)
  end.
  assert (UnitConfigParser._dict cfin !! Some "Service" = None
          /\ UnitConfigParser._files cfin = [filename]) as [Hd' Hf'].
  { subst cfin.
    repeat match goal with
           | |- context [if ?b then _ else _] => destruct b
           end;
      rewrite ?dict_set_other, ?files_set by discriminate;
      match goal with
      | |- context [foldl UnitConfigParser.required_start ?c0 ?l] =>
          destruct (required_start_service l c0) as [-> ->]
      end;
      rewrite ?dict_set_other, ?files_set by discriminate; done. }
  clearbody cfin.
  unfold UnitConfigParser.getlist, UnitConfigParser.get,
    UnitConfigParser.filename, UnitConfigParser.set.
  cbn. rewrite !lookup_insert_eq, Hd'. cbn.
  rewrite lookup_empty, !lookup_insert_eq. cbn. by rewrite Hf'.
Qed.

Lemma read_sysv_type_is_sysv_witness :
  exists conf,
    UnitConfigParser.read_sysv
      (mkFS ∅ {["/etc/init.d/demo" := init_script]})
      UnitConfigParser.new "/etc/init.d/demo"
    = Return conf
    /\ UnitConfigParser.getlist conf (Some "Service") "Type" None false
       = Return (Some ["sysv"])
    /\ UnitConfigParser.get conf (Some "Service") "Type" (Some "simple") false
       = Return (Some "sysv")
    /\ UnitConfigParser.filename conf = Some "/etc/init.d/demo".
Proof.
  apply (read_sysv_type_is_sysv
           (mkFS ∅ {["/etc/init.d/demo" := init_script]})
           "/etc/init.d/demo" init_script).
  reflexivity.
Defined.

(** ** The catalogue is scanned once *)

Lemma unit_sysd_file_run (module : string) (w : World) :
  let m := scanned (_file_for_unit_sysd (w_self w)) (sys_fs (w_sys w))
             (_sysd_folder1 (w_self w)) (_sysd_folder2 (w_self w))
             (fun name => name) in
  unit_sysd_file module w
  = (Return (lookup_unit m module),
     with_self w (set_file_for_unit_sysd (w_self w) (Some m))).
Proof.
  simpl. unfold unit_sysd_file. unfold bind at 1.
  by rewrite scan_unit_sysd_files_run.
Qed.

Lemma unit_sysv_file_run (module : string) (w : World) :
  let m := scanned (_file_for_unit_sysv (w_self w)) (sys_fs (w_sys w))
             (_sysv_folder1 (w_self w)) (_sysv_folder2 (w_self w))
             (fun name => name +:+ ".service") in
  unit_sysv_file module w
  = (Return (lookup_unit m module),
     with_self w (set_file_for_unit_sysv (w_self w) (Some m))).
Proof.
  simpl. unfold unit_sysv_file. unfold bind at 1.
  by rewrite scan_unit_sysv_files_run.
Qed.

Lemma unit_file_run (module : option string) (w : World) :
  let name := match module with
              | Some m => m
              | None => ""
              end in
  let sysd := scanned (_file_for_unit_sysd (w_self w)) (sys_fs (w_sys w))
                (_sysd_folder1 (w_self w)) (_sysd_folder2 (w_self w))
                (fun name => name) in
  let sysv := scanned (_file_for_unit_sysv (w_self w)) (sys_fs (w_sys w))
                (_sysv_folder1 (w_self w)) (_sysv_folder2 (w_self w))
                (fun name => name +:+ ".service") in
  unit_file module w
  = match lookup_unit sysd name with
    | Some path =>
        (Return (Some path),
         with_self w (set_file_for_unit_sysd (w_self w) (Some sysd)))
    | None => (Return (lookup_unit sysv name), catalogued w)
    end.
Proof.
  cbv zeta. unfold unit_file. unfold bind at 1.
  rewrite unit_sysd_file_run.
  destruct (lookup_unit _ _) as [path|]; [done |].
  unfold bind at 1. rewrite unit_sysv_file_run. cbn.
  by destruct (lookup_unit _ _).
Qed.

(** X7: the unit folders are scanned once in the life of an engine
    object.  After a first lookup, the same object answers every lookup
    from the catalogue it made then, whatever the folders hold by now,
    and leaves the world as it finds it: a unit file added later is not
    found, one removed later still is. *)
Theorem catalogue_is_scanned_once :
  forall (w : World) (first module : string) (s : Sys) (clock : nat)
         (trace : list Event),
    (let self := w_self (unit_sysd_file first w).2 in
     unit_sysd_file module (moved self s clock trace)
     = ((unit_sysd_file module w).1, moved self s clock trace))
    /\ (let self := w_self (unit_sysv_file first w).2 in
        unit_sysv_file module (moved self s clock trace)
        = ((unit_sysv_file module w).1, moved self s clock trace)).
Proof.
  intros w first module s clock trace. split; cbv zeta.
  - rewrite (unit_sysd_file_run first w), (unit_sysd_file_run module w).
    rewrite unit_sysd_file_run. reflexivity.
  - rewrite (unit_sysv_file_run first w), (unit_sysv_file_run module w).
    rewrite unit_sysv_file_run. reflexivity.
Qed.

(** ** The order of the folders *)

Lemma lookup_foldl_insert (path : string -> string) (names : list string)
    (m : gmap string string) (name : string) :
  name ∈ names ->
  foldl (fun m name => <[name := path name]> m) m names !! name
  = Some (path name).
Proof.
  revert m. induction names as [|n names IH]; intros m Hin; simpl.
  - by apply elem_of_nil in Hin.
  - destruct (decide (name ∈ names)) as [Hin' | Hout]; [by apply IH |].
    apply elem_of_cons in Hin as [-> | ?]; [| done].
    assert (forall m0 : gmap string string,
               foldl (fun m name => <[name := path name]> m) m0 names !! n
               = m0 !! n) as ->.
    { clear -Hout. induction names as [|k names IH]; intros m0; simpl; [done |].
      rewrite IH by (intros ?; apply Hout; by right).
      apply lookup_insert_ne. intros ->. apply Hout. by left. }
    apply lookup_insert_eq.
Qed.

Lemma listdir_truthy (fs : FS) (d name : string) (names : list string) :
  Fs.listdir fs d = Return names -> name ∈ names -> Str.truthy name = true.
Proof.
  unfold Fs.listdir. destruct (Fs.isdir fs d); [| done].
  intros [= <-] Hin. apply list_elem_of_omap in Hin as (q & _ & Hq).
  unfold Fs.child_of in Hq.
  destruct (Fs.strip_prefix _ q) as [n|]; [| done].
  destruct (Str.truthy n) eqn:Ht; [| done].
  destruct (negb (Path.has_slash n)); [| done]. by injection Hq as <-.
Qed.

(** X8: of two unit files of one name, the one of the second folder is
    the file of the unit: an engine object that has not looked yet finds
    every entry of [/etc/systemd/system] under its own name, at its path
    in that folder, whatever [/usr/lib/systemd/system] holds. *)
Theorem second_folder_wins :
  forall (w : World) (name : string) (names : list string),
    _file_for_unit_sysd (w_self w) = None ->
    Fs.listdir (sys_fs (w_sys w)) (_sysd_folder2 (w_self w)) = Return names ->
    name ∈ names ->
    (unit_sysd_file name w).1
    = Return (Some (Path.join (_sysd_folder2 (w_self w)) name))
    /\ (unit_file (Some name) w).1
       = Return (Some (Path.join (_sysd_folder2 (w_self w)) name)).
Proof.
  intros w name names Hnone Hlist Hin.
  assert (lookup_unit
            (scanned (_file_for_unit_sysd (w_self w)) (sys_fs (w_sys w))
               (_sysd_folder1 (w_self w)) (_sysd_folder2 (w_self w))
               (fun name => name)) name
          = Some (Path.join (_sysd_folder2 (w_self w)) name)) as Hlook.
  { rewrite Hnone. unfold scanned.
    unfold scan_folder at 1. rewrite Hlist.
    assert (Fs.isdir (sys_fs (w_sys w)) (_sysd_folder2 (w_self w)) = true)
      as ->.
    { unfold Fs.listdir in Hlist. by destruct (Fs.isdir _ _). }
    unfold lookup_unit.
    rewrite (listdir_truthy _ _ _ _ Hlist Hin).
    rewrite (lookup_foldl_insert (Path.join (_sysd_folder2 (w_self w)))
               names _ name Hin).
    rewrite bool_decide_eq_true_2 by eauto. reflexivity. }
  split.
  - by rewrite unit_sysd_file_run, Hlook.
  - by rewrite unit_file_run, Hlook.
Qed.

Lemma second_folder_wins_witness :
  (unit_sysd_file "a.service" Run.two_units).1
  = Return (Some (Path.join (_sysd_folder2 (w_self Run.two_units))
                    "a.service"))
  /\ (unit_file (Some "a.service") Run.two_units).1
     = Return (Some (Path.join (_sysd_folder2 (w_self Run.two_units))
                       "a.service")).
Proof.
  apply (second_folder_wins Run.two_units "a.service"
           ["multi-user.target.wants"; "a.service"; "b.service"]).
  - reflexivity.
  - vm_compute. reflexivity.
  - set_solver.
Defined.

(** ** A unit without a file *)

Lemma unit_file_none (unit : string) (w : World) :
  (unit_file (Some unit) w).1 = Return None ->
  lookup_unit
    (scanned (_file_for_unit_sysd (w_self w)) (sys_fs (w_sys w))
       (_sysd_folder1 (w_self w)) (_sysd_folder2 (w_self w))
       (fun name => name)) unit = None
  /\ lookup_unit
       (scanned (_file_for_unit_sysv (w_self w)) (sys_fs (w_sys w))
          (_sysv_folder1 (w_self w)) (_sysv_folder2 (w_self w))
          (fun name => name +:+ ".service")) unit = None
  /\ unit_file (Some unit) w = (Return None, catalogued w).
Proof.
  rewrite unit_file_run. cbv zeta.
  destruct (lookup_unit _ unit) as [path|]; [discriminate |]. cbn.
  intros [= Hv]. by rewrite Hv.
Qed.

Lemma lookup_unit_empty (m : gmap string string) : lookup_unit m "" = None.
Proof. reflexivity. Qed.

Lemma unit_file_catalogued (w : World) :
  unit_file None (catalogued w) = (Return None, catalogued w).
Proof.
  rewrite unit_file_run. cbv zeta. by rewrite !lookup_unit_empty.
Qed.

Lemma read_unit_missing (unit : string) (w : World) :
  (unit_file (Some unit) w).1 = Return None ->
  read_unit unit w = (Raise (Exception "unit file not found"), catalogued w).
Proof.
  intros H. apply unit_file_none in H as (Hd & Hv & _).
  unfold read_unit, read_sysd_unit. unfold bind at 1 2.
  rewrite unit_sysd_file_run, Hd. cbn.
  unfold read_sysv_unit. unfold bind at 1 2.
  rewrite unit_sysv_file_run. cbn. by rewrite Hv.
Qed.

Lemma try_read_unit_missing (unit : string) (w : World) :
  (unit_file (Some unit) w).1 = Return None ->
  try_read_unit unit w = (Return (default_unit unit), catalogued w).
Proof.
  intros H. unfold try_read_unit, try_except.
  by rewrite (read_unit_missing unit w H).
Qed.

Lemma default_unit_description (unit : string) :
  UnitConfigParser.get (default_unit unit) (Some "Unit") "Description"
    (Some "") false
  = Return (Some ("NOT-FOUND " +:+ unit)).
Proof. destruct unit; vm_compute; reflexivity. Qed.

Lemma default_unit_wanted (unit : string) :
  UnitConfigParser.get (default_unit unit) (Some "Install") "WantedBy" None true
  = Return None.
Proof. destruct unit; vm_compute; reflexivity. Qed.

(** X9: a unit for which no file is found is a unit all the same: its
    status is 3 with a description that says so and the line that loading
    failed, it is not active, it is failed, and it is enabled.  None of
    the four raises, and nothing changes but the catalogues of the engine
    object. *)
Theorem unit_without_file :
  forall (os : OS) (unit : string) (w : World),
    (unit_file (Some unit) w).1 = Return None ->
    status_unit os unit w
    = (Return (3, unit +:+ " - NOT-FOUND " +:+ unit +:+ Str.NL
                  +:+ "    Loaded: failed"), catalogued w)
    /\ is_active os unit w = (Return false, catalogued w)
    /\ is_failed os unit w = (Return true, catalogued w)
    /\ is_enabled unit w = (Return true, catalogued w).
Proof.
  intros os unit w H.
  pose proof (try_read_unit_missing unit w H) as Htry.
  split; [| split; [| split]].
  - unfold status_unit. rewrite (bind_run _ _ _ _ _ Htry).
    unfold get_description_from, get_str. unfold bind at 1 2, lift at 1.
    rewrite default_unit_description.
    rewrite <- (append_assoc unit " - NOT-FOUND "
                  (unit +:+ Str.NL +:+ "    Loaded: failed")).
    rewrite <- (append_assoc (unit +:+ " - NOT-FOUND ") unit
                  (Str.NL +:+ "    Loaded: failed")).
    rewrite (append_assoc unit " - NOT-FOUND " unit).
    reflexivity.
  - unfold is_active. rewrite (bind_run _ _ _ _ _ Htry). reflexivity.
  - unfold is_failed. rewrite (bind_run _ _ _ _ _ Htry). reflexivity.
  - unfold is_enabled. unfold bind at 1.
    destruct (unit_file_none unit w H) as (_ & _ & ->).
    unfold is_sysv_file. unfold bind at 1 2.
    rewrite unit_file_catalogued. cbn [ret].
    assert (try_read_unit unit (catalogued w)
            = (Return (default_unit unit), catalogued w)) as Htry2.
    { apply (try_read_unit_missing unit (catalogued w)).
      destruct (unit_file_none unit w H) as (Hd & Hv & _).
      rewrite unit_file_run. cbv zeta.
      change (lookup_unit
                (scanned (_file_for_unit_sysd (w_self (catalogued w)))
                   (sys_fs (w_sys (catalogued w)))
                   (_sysd_folder1 (w_self (catalogued w)))
                   (_sysd_folder2 (w_self (catalogued w)))
                   (fun name => name)) unit)
        with (lookup_unit
                (scanned (_file_for_unit_sysd (w_self w)) (sys_fs (w_sys w))
                   (_sysd_folder1 (w_self w)) (_sysd_folder2 (w_self w))
                   (fun name => name)) unit).
      rewrite Hd. exact (f_equal Return Hv). }
    rewrite (bind_run _ _ _ _ _ Htry2).
    unfold wanted_from. unfold bind at 1, lift at 1.
    rewrite default_unit_wanted. reflexivity.
Qed.

Lemma unit_without_file_witness :
  status_unit Sample.os "demo" (Sample.world Sample.fs_empty)
  = (Return (3, "demo" +:+ " - NOT-FOUND " +:+ "demo" +:+ Str.NL
                +:+ "    Loaded: failed"),
     catalogued (Sample.world Sample.fs_empty))
  /\ is_active Sample.os "demo" (Sample.world Sample.fs_empty)
     = (Return false, catalogued (Sample.world Sample.fs_empty))
  /\ is_failed Sample.os "demo" (Sample.world Sample.fs_empty)
     = (Return true, catalogued (Sample.world Sample.fs_empty))
  /\ is_enabled "demo" (Sample.world Sample.fs_empty)
     = (Return true, catalogued (Sample.world Sample.fs_empty)).
Proof.
  apply (unit_without_file Sample.os "demo" (Sample.world Sample.fs_empty)).
  vm_compute. reflexivity.
Defined.

(** ** Active and failed *)

(** X10: a unit is failed exactly when it is not active.  The two tests
    read the same PID file and send the same signal, so they leave the
    same world, and either both raise, the same exception, or neither
    does. *)
Theorem is_failed_from_not_active :
  forall (os : OS) (conf : UnitConfigParser.t) (w : World),
    is_failed_from os conf w
    = (let* active := is_active_from os conf in ret (negb active)) w.
Proof.
  intros os conf w.
  unfold is_failed_from, is_active_from, active_pid_from, bind.
  destruct (get_pid_file_from conf w) as [[pid_file|e] w1]; [| done].
  destruct (read_pid_file pid_file PyNone w1) as [[pid|e] w2]; [| done].
  destruct (pid_exists os pid w2) as [[[]|e] w3] eqn:E; cbn; try done.
  by destruct pid.
Qed.

(** ** Reading a PID file *)

(** Reading a PID file changes nothing and never raises: what is read is
    the default or an integer. *)
Lemma read_pid_file_spec (pid_file : option string) (default : pyval)
    (w : World) :
  exists v, read_pid_file pid_file default w = (Return v, w)
            /\ (v = default \/ exists n, v = PyInt n).
Proof.
  unfold read_pid_file. destruct pid_file as [pid_file|]; [| by eauto].
  destruct (negb (Str.truthy pid_file)); [by eauto |].
  unfold bind, get_fs.
  destruct (negb (Fs.isfile _ pid_file)); [by eauto |].
  unfold try_except, bind, lift.
  destruct (Fs.read _ pid_file) as [text|e]; [| by eauto].
  assert (forall lines,
             (exists n, first_pid lines default = Return (PyInt n))
             \/ first_pid lines default = Return default
             \/ exists e, first_pid lines default = Raise e) as Hfirst.
  { induction lines as [|line lines IH]; simpl; [by eauto |].
    destruct (Str.truthy (Str.strip line)); [| done].
    destruct (py_int (Str.strip line)); eauto. }
  destruct (Hfirst (Str.readlines text)) as [[n ->] | [-> | [e ->]]];
    unfold ret; eauto.
Qed.

(** X11: [read_pid_file] never raises and changes nothing.  It returns
    the default or an integer: the default when there is no file of that
    name, and also when the file cannot be read as a number. *)
Theorem read_pid_file_never_raises :
  forall (pid_file : option string) (default : pyval) (w : World),
  exists v,
    read_pid_file pid_file default w = (Return v, w)
    /\ (v = default \/ exists n, v = PyInt n)
    /\ (forall p, pid_file = Some p ->
                  Fs.isfile (sys_fs (w_sys w)) p = false -> v = default)
    /\ (forall p text e,
           pid_file = Some p ->
           Fs.read (sys_fs (w_sys w)) p = Return text ->
           first_pid (Str.readlines text) default = Raise e -> v = default).
Proof.
  intros pid_file default w.
  destruct (read_pid_file_spec pid_file default w) as (v & Hv & Hor).
  exists v. split; [done |]. split; [done |]. split.
  - intros p -> Hfile. unfold read_pid_file in Hv.
    destruct (negb (Str.truthy p)); [unfold ret in Hv; congruence |].
    unfold bind, get_fs in Hv. rewrite Hfile in Hv.
    unfold ret in Hv. cbn in Hv. congruence.
  - intros p text e -> Hread Hfirst. unfold read_pid_file in Hv.
    destruct (negb (Str.truthy p)); [unfold ret in Hv; congruence |].
    unfold bind, get_fs in Hv.
    destruct (negb (Fs.isfile _ p)); [unfold ret in Hv; congruence |].
    unfold try_except, bind, lift in Hv. rewrite Hread, Hfirst in Hv.
    unfold ret in Hv. congruence.
Qed.

(** ** Time and signals *)

Lemma within_same {A} (m : M A) (ok : Event -> Prop) (w : World) :
  (m w).2 = w -> within m 0 ok w.
Proof.
  intros H. unfold within. rewrite H. split; [done |]. split; [lia |].
  exists []. by rewrite app_nil_r.
Qed.

Lemma within_weaken {A} (m : M A) (n n' : nat) (ok : Event -> Prop)
    (w : World) :
  (n <= n')%nat -> within m n ok w -> within m n' ok w.
Proof. intros Hn (Hs & Hc & Ht). split; [done |]. split; [lia | done]. Qed.

Lemma within_bind {A B} (m : M A) (f : A -> M B) (n k : nat)
    (ok : Event -> Prop) (w : World) :
  within m n ok w ->
  (forall a w1, m w = (Return a, w1) -> within (f a) k ok w1) ->
  within (bind m f) (n + k) ok w.
Proof.
  unfold within, bind. intros (Hs & Hc & evs & Ht & Hok) Hf.
  destruct (m w) as [[a|e] w1] eqn:E; simpl in *.
  - destruct (Hf a w1 eq_refl) as (Hs' & Hc' & evs' & Ht' & Hok').
    split; [congruence |]. split; [lia |].
    exists (evs ++ evs')%list. rewrite Ht', Ht, app_assoc.
    split; [done | by apply Forall_app].
  - split; [done |]. split; [lia |]. eauto.
Qed.

Lemma within_try_except {A} (m : M A) (h : exn -> M A) (n k : nat)
    (ok : Event -> Prop) (w : World) :
  within m n ok w ->
  (forall e w1, m w = (Raise e, w1) -> within (h e) k ok w1) ->
  within (try_except m h) (n + k) ok w.
Proof.
  unfold within, try_except. intros (Hs & Hc & evs & Ht & Hok) Hh.
  destruct (m w) as [[a|e] w1] eqn:E; simpl in *.
  - split; [done |]. split; [lia |]. eauto.
  - destruct (Hh e w1 eq_refl) as (Hs' & Hc' & evs' & Ht' & Hok').
    split; [congruence |]. split; [lia |].
    exists (evs ++ evs')%list. rewrite Ht', Ht, app_assoc.
    split; [done | by apply Forall_app].
Qed.

Lemma within_kill (os : OS) (pid sig : Z) (ok : Event -> Prop) (w : World) :
  ok (EvKill pid sig) -> within (kill os pid sig) 0 ok w.
Proof.
  intros Hok. unfold within, kill.
  destruct (os_kill os pid sig (w_sys w)) as [[e|] s]; simpl;
    (split; [done |]); (split; [lia |]); exists [EvKill pid sig];
    (split; [done |]); by constructor.
Qed.

Lemma elapse_spec (os : OS) (n : nat) (w : World) :
  w_self (elapse os n w) = w_self w
  /\ w_clock (elapse os n w) = (w_clock w + n)%nat
  /\ w_trace (elapse os n w) = w_trace w.
Proof.
  revert w. induction n as [|n IH]; intros w; simpl.
  - split; [done |]. split; [lia | done].
  - destruct (IH (mkWorld (os_elapse os (w_clock w) (w_sys w)) (S (w_clock w))
                    (w_trace w) (w_self w))) as (-> & -> & ->).
    simpl. split; [done |]. split; [lia | done].
Qed.

Lemma within_sleep (os : OS) (ok : Event -> Prop) (w : World) :
  ok (EvSleep 1) -> within (sleep os (Some 1%nat)) 1 ok w.
Proof.
  intros Hok. unfold within, sleep, time_sleep. cbn [snd].
  destruct (elapse_spec os 1
              (mkWorld (w_sys w) (w_clock w) (w_trace w ++ [EvSleep 1])%list
                 (w_self w))) as (-> & -> & ->).
  simpl. split; [done |]. split; [lia |].
  exists [EvSleep 1%nat]. split; [done | by constructor].
Qed.

Lemma within_pid_exists (os : OS) (pid : pyval) (ok : Event -> Prop)
    (w : World) :
  (forall p, pid = PyInt p -> ok (EvKill p 0)) ->
  within (pid_exists os pid) 0 ok w.
Proof.
  intros Hok. destruct pid as [|s|p]; try by apply within_same.
  unfold pid_exists.
  destruct (p <? 0); [by apply within_same |].
  destruct (p =? 0); [by apply within_same |].
  apply (within_try_except _ _ 0 0).
  - apply (within_bind _ _ 0 0); [apply within_kill; by apply Hok |].
    intros. by apply within_same.
  - intros e w1 _. destruct e; try by apply within_same.
    destruct (errno =? ESRCH); [by apply within_same |].
    destruct (errno =? EPERM); by apply within_same.
Qed.

Lemma within_read_pid_file (pid_file : option string) (default : pyval)
    (ok : Event -> Prop) (w : World) :
  within (read_pid_file pid_file default) 0 ok w.
Proof.
  apply within_same.
  by destruct (read_pid_file_spec pid_file default w) as (v & -> & _).
Qed.

Lemma within_wait_pid_loop (os : OS) (n : nat) (dirpath pid_file : string)
    (w : World) :
  within (wait_pid_loop os n dirpath pid_file) n probe w.
Proof.
  revert w. induction n as [|n IH]; intros w; [by apply within_same |].
  cbn [wait_pid_loop].
  apply (within_bind _ _ 0 (S n)); [by apply within_same |].
  intros fs w1 [= _ <-].
  destruct (negb (Fs.isdir fs dirpath)).
  - apply (within_bind _ _ 1 n); [apply within_sleep; by left |].
    intros _ w2 _. apply IH.
  - apply (within_weaken _ (0 + (0 + n))); [lia |].
    apply within_bind; [apply within_read_pid_file |].
    intros pid w2 _.
    destruct (negb (py_truthy pid)); [apply (within_weaken _ n); [lia | apply IH] |].
    apply within_bind.
    + apply within_pid_exists. intros p _. right. eauto.
    + intros alive w3 _. destruct (negb alive); [apply IH |].
      apply (within_weaken _ 0); [lia | by apply within_same].
Qed.

Lemma wait_pid_loop_result (os : OS) (n : nat) (dirpath pid_file : string)
    (w w' : World) (v : pyval) :
  wait_pid_loop os n dirpath pid_file w = (Return v, w') ->
  v = PyNone \/ exists p, v = PyInt p /\ 0 < p.
Proof.
  revert w. induction n as [|n IH]; intros w; cbn [wait_pid_loop].
  - intros [= <- _]. by left.
  - intros H. apply bind_inv in H as (fs & w1 & _ & H).
    destruct (negb (Fs.isdir fs dirpath)).
    + apply bind_inv in H as (? & w2 & _ & H). by apply IH in H.
    + apply bind_inv in H as (pid & w2 & Hpid & H).
      destruct (negb (py_truthy pid)) eqn:Ht; [by apply IH in H |].
      apply bind_inv in H as (alive & w3 & Halive & H).
      destruct alive; cbn [negb] in H; [| by apply IH in H].
      injection H as <- _.
      destruct (read_pid_file_spec (Some pid_file) PyNone w1)
        as (v & Hv & Hor). rewrite Hv in Hpid. injection Hpid as -> _.
      destruct Hor as [-> | [p ->]]; [by left |]. right. exists p.
      split; [done |]. unfold pid_exists in Halive.
      destruct (p <? 0) eqn:Hneg; [discriminate |].
      destruct (p =? 0) eqn:Hzero; [discriminate |]. lia.
Qed.

(** X12: [wait_pid_file] gives up.  It lets at most [_waitprocfile]
    seconds pass, sends nothing but the signal 0, leaves the engine
    object alone, and when it returns, it returns [None] or a PID above
    0. *)
Theorem wait_pid_file_gives_up :
  forall (os : OS) (pid_file : option string) (w : World),
    within (wait_pid_file os pid_file) (_waitprocfile (w_self w)) probe w
    /\ forall v w', wait_pid_file os pid_file w = (Return v, w') ->
                    v = PyNone \/ exists p, v = PyInt p /\ 0 < p.
Proof.
  intros os pid_file w. destruct pid_file as [pid_file|].
  - split.
    + unfold wait_pid_file.
      apply (within_bind _ _ 0 (_waitprocfile (w_self w)));
        [by apply within_same |].
      intros self w1 [= <- <-]. apply within_wait_pid_loop.
    + intros v w'. unfold wait_pid_file, bind, get_self.
      apply wait_pid_loop_result.
  - split; [| done].
    apply (within_weaken _ 0); [lia | by apply within_same].
Qed.

Lemma within_kill_pid_term (os : OS) (n : nat) (pid : Z) (w : World) :
  within (kill_pid_term os n pid) n (attack pid) w.
Proof.
  unfold attack.
  revert w. induction n as [|n IH]; intros w; [by apply within_same |].
  cbn [kill_pid_term].
  apply (within_bind _ _ 0 (S n)); [apply within_kill; tauto |].
  intros _ w1 _.
  apply (within_bind _ _ 0 (S n));
    [apply within_pid_exists; intros p [= <-]; tauto |].
  intros alive w2 _.
  destruct (negb alive);
    [apply (within_weaken _ 0); [lia | by apply within_same] |].
  apply (within_bind _ _ 1 n); [apply within_sleep; tauto |].
  intros _ w3 _.
  apply (within_bind _ _ 0 n);
    [apply within_pid_exists; intros p [= <-]; tauto |].
  intros alive' w4 _.
  destruct (negb alive');
    [apply (within_weaken _ 0); [lia | by apply within_same] |].
  apply IH.
Qed.

Lemma within_kill_pid_kill (os : OS) (n : nat) (pid : Z) (w : World) :
  within (kill_pid_kill os n pid) n (attack pid) w.
Proof.
  unfold attack.
  revert w. induction n as [|n IH]; intros w; [by apply within_same |].
  cbn [kill_pid_kill].
  apply (within_bind _ _ 0 (S n));
    [apply within_pid_exists; intros p [= <-]; tauto |].
  intros alive w1 _.
  destruct (negb alive);
    [apply (within_weaken _ 0); [lia | by apply within_same] |].
  apply (within_bind _ _ 0 (S n)); [apply within_kill; tauto |].
  intros _ w2 _.
  apply (within_bind _ _ 1 n); [apply within_sleep; tauto |].
  intros _ w3 _. apply IH.
Qed.

(** X13: [kill_pid] is bounded and aimed.  For a PID that is an integer
    it lets at most twice [_waitkillproc] seconds pass and signals no
    process but that one, with no signal but 0, [SIGTERM] and [SIGKILL];
    for [None] and for 0 it does nothing at all. *)
Theorem kill_pid_bounded_and_aimed :
  forall (os : OS) (w : World),
    (forall pid : Z,
        within (kill_pid os (PyInt pid)) (2 * _waitkillproc (w_self w))
          (attack pid) w)
    /\ kill_pid os PyNone w = (Return tt, w)
    /\ kill_pid os (PyInt 0) w = (Return tt, w).
Proof.
  intros os w. split; [| done].
  intros pid. unfold kill_pid.
  destruct (negb (py_truthy (PyInt pid)));
    [apply (within_weaken _ 0); [lia | by apply within_same] |].
  apply (within_bind _ _ 0 (2 * _waitkillproc (w_self w)));
    [by apply within_same |].
  intros self w1 [= <- <-].
  apply (within_weaken _ (_waitkillproc (w_self w) + _waitkillproc (w_self w)));
    [lia |].
  apply within_bind; [apply within_kill_pid_term |].
  intros [] w2 _.
  apply within_kill_pid_kill.
Qed.

(** X14: a stale PID is an error.  When the first [SIGTERM] fails, for
    one because the process is gone, [kill_pid] raises the error of the
    signal at once: nothing else is tried. *)
Theorem kill_pid_stale :
  forall (os : OS) (pid errno : Z) (s : Sys) (w : World),
    pid <> 0 ->
    _waitkillproc (w_self w) <> 0%nat ->
    os_kill os pid SIGTERM (w_sys w) = (Some errno, s) ->
    kill_pid os (PyInt pid) w
    = (Raise (OSError errno), after_kill w pid SIGTERM s).
Proof.
  intros os pid errno s w Hpid Hn Hkill. unfold kill_pid.
  assert (py_truthy (PyInt pid) = true) as ->.
  { unfold py_truthy. by apply negb_true_iff, Z.eqb_neq. }
  cbn [negb]. unfold bind at 1, get_self at 1.
  destruct (_waitkillproc (w_self w)) as [|n]; [done |].
  cbn [kill_pid_term]. unfold bind at 1. unfold bind at 1, kill at 1.
  by rewrite Hkill.
Qed.

Lemma kill_pid_stale_witness :
  kill_pid Sample.os (PyInt 7) (Sample.world Sample.fs_empty)
  = (Raise (OSError ESRCH),
     after_kill (Sample.world Sample.fs_empty) 7 SIGTERM
       (w_sys (Sample.world Sample.fs_empty))).
Proof.
  apply (kill_pid_stale Sample.os 7 ESRCH
           (w_sys (Sample.world Sample.fs_empty))
           (Sample.world Sample.fs_empty)).
  - discriminate.
  - discriminate.
  - reflexivity.
Defined.

(** ** Assignments of the environment *)

Lemma split_nl_line (s : string) :
  lacks Str.nl s = true -> Str.split_nl s = [s].
Proof.
  unfold Str.split_nl. induction s as [|c s IH]; simpl; [done |].
  intros H. apply andb_true_iff in H as [Hc Hs].
  apply negb_true_iff in Hc. by rewrite Hc, (IH Hs).
Qed.

Lemma strip_id (s : string) :
  Str.lstrip s = s -> Str.rstrip s = s -> Str.strip s = s.
Proof. unfold Str.strip. by intros -> ->. Qed.

Lemma match_name_app (name rest : string) :
  Str.truthy name = true -> all_word name = true ->
  EnvLine.match_name (name +:+ String "=" rest) = Some (name, rest).
Proof.
  intros Hne Hw. unfold EnvLine.match_name.
  rewrite (span_word_app name rest "=" Hw eq_refl).
  by destruct name.
Qed.

(** The line of an assignment is parsed as it stands. *)
Lemma parse_assignment (name rest : string) :
  Str.truthy name = true -> all_word name = true ->
  Str.rstrip (String "=" rest) = String "=" rest ->
  EnvLine.parse (name +:+ String "=" rest)
  = match EnvLine.match_quoted EnvLine.squote (name +:+ String "=" rest) with
    | Some nv => Some nv
    | None =>
        match EnvLine.match_quoted EnvLine.dquote (name +:+ String "=" rest)
        with
        | Some nv => Some nv
        | None => EnvLine.match_plain (name +:+ String "=" rest)
        end
    end.
Proof.
  intros Hne Hw Hr. unfold EnvLine.parse.
  assert (Str.strip (name +:+ String "=" rest) = name +:+ String "=" rest)
    as ->.
  { destruct name as [|c name]; [discriminate |].
    simpl in Hw. apply andb_true_iff in Hw as [Hc Hw].
    apply strip_id; [by apply lstrip_word |].
    apply rstrip_app; [exact Hr | discriminate]. }
  destruct name as [|c name]; [discriminate |].
  simpl in Hw. apply andb_true_iff in Hw as [Hc Hw].
  change (String c name +:+ String "=" rest)
    with (String c (name +:+ String "=" rest)).
  cbn [Str.truthy negb orb Str.startswith].
  by rewrite (isword_not c "#" eq_refl Hc).
Qed.

Lemma rstrip_quoted (q : ascii) (value tail : string) :
  Str.isspace q = false -> Str.rstrip tail = tail ->
  Str.rstrip (String "=" (String q (value +:+ String q tail)))
  = String "=" (String q (value +:+ String q tail)).
Proof.
  intros Hq Ht.
  assert (Str.rstrip (String q tail) = String q tail) as Hqt.
  { destruct tail as [|d tail]; [simpl; by rewrite Hq |].
    by apply rstrip_cons. }
  apply rstrip_cons; [| discriminate].
  apply rstrip_cons; [| by destruct value].
  apply rstrip_app; [exact Hqt | discriminate].
Qed.

(** X15: how an assignment of [Environment] is read.  A value between
    two quotes of the same kind is taken as it stands between them, blanks
    and quotes of the other kind included, and what follows the closing
    quote is dropped.  A value without quotes runs to the end of the
    line: blanks before it are part of it. *)
Theorem read_env_part_assignment :
  forall (name value : string),
    Str.truthy name = true ->
    all_word name = true ->
    lacks Str.nl value = true ->
    (forall (q : ascii) (tail : string),
        q = EnvLine.squote \/ q = EnvLine.dquote ->
        lacks q value = true ->
        lacks Str.nl tail = true ->
        Str.rstrip tail = tail ->
        read_env_part (name +:+ "=" +:+ String q (value +:+ String q tail))
        = [(name, value)])
    /\ (Str.rstrip value = value ->
        Str.startswith value (String EnvLine.squote "") = false ->
        Str.startswith value (String EnvLine.dquote "") = false ->
        read_env_part (name +:+ "=" +:+ value) = [(name, value)]).
Proof.
  intros name value Hne Hw Hnl. split.
  - intros q tail Hq Hlq Hnlt Hrt. unfold read_env_part.
    rewrite split_nl_line.
    2:{ rewrite lacks_app, (all_word_lacks_nl _ Hw). cbn [andb].
        change ("=" +:+ String q (value +:+ String q tail))
          with (String "=" (String q (value +:+ String q tail))).
        cbn [lacks]. rewrite lacks_app. cbn [lacks].
        rewrite Hnl, Hnlt.
        destruct Hq as [-> | ->]; reflexivity. }
    cbn [omap list_omap].
    change ("=" +:+ String q (value +:+ String q tail))
      with (String "=" (String q (value +:+ String q tail))).
    rewrite parse_assignment; [| done | done |].
    2:{ apply rstrip_quoted; [| done]. by destruct Hq as [-> | ->]. }
    unfold EnvLine.match_quoted. rewrite (match_name_app _ _ Hne Hw).
    destruct Hq as [-> | ->].
    + rewrite Ascii.eqb_refl, (until_char_app _ _ _ Hlq). reflexivity.
    + rewrite Ascii.eqb_refl, (until_char_app _ _ _ Hlq). reflexivity.
  - intros Hr Hs Hd. unfold read_env_part.
    rewrite split_nl_line.
    2:{ rewrite !lacks_app, (all_word_lacks_nl _ Hw), Hnl. reflexivity. }
    cbn [omap list_omap].
    change ("=" +:+ value) with (String "=" value).
    rewrite parse_assignment; [| done | done |].
    2:{ destruct value as [|d value]; [reflexivity |].
        by apply (rstrip_cons "=" (String d value)). }
    unfold EnvLine.match_quoted, EnvLine.match_plain.
    rewrite (match_name_app _ _ Hne Hw).
    destruct value as [|d value]; [reflexivity |].
    cbn [Str.startswith] in Hs, Hd.
    rewrite andb_true_r in Hs, Hd. rewrite Hs, Hd.
    by rewrite (dot_star_id _ Hnl).
Qed.

Lemma read_env_part_assignment_witness :
  read_env_part ("OPTS" +:+ "=" +:+ " -v -x") = [("OPTS", " -v -x")].
Proof.
  apply (read_env_part_assignment "OPTS" " -v -x"); reflexivity.
Defined.

(** ** The default services *)

Lemma foldl_keeps {A B} (test : B -> bool) (acc : A) (l : list B) :
  foldl (fun acc x => if test x then acc else acc) acc l = acc.
Proof.
  revert acc. induction l as [|x l IH]; intros acc; simpl; [done |].
  rewrite IH. by destruct (test x).
Qed.

(** X16: the default services are the wanted services, with one more
    condition: the folder of the wanted units below [/usr/lib] is listed
    first, and its entries are dropped.  When it cannot be listed the
    call raises the error of the listing; otherwise it returns what
    [system_wants_services] returns, ignored names included. *)
Theorem system_default_services_are_wanted :
  forall (fnmatchcase fnmatchcase' : string -> string -> bool)
         (sysv default_target : string) (w : World),
    system_default_services fnmatchcase sysv default_target w
    = match Fs.listdir (sys_fs (w_sys w))
              (Path.join Globals._sysd_folder1 (default_target +:+ ".wants"))
      with
      | Return _ => system_wants_services fnmatchcase' sysv default_target w
      | Raise e => (Raise e, w)
      end.
Proof.
  intros fnmatchcase fnmatchcase' sysv default_target w.
  unfold system_default_services, system_wants_services.
  unfold bind at 1, get_fs at 1. unfold bind at 1, lift at 1.
  destruct (Fs.listdir _ (Path.join Globals._sysd_folder1 _)) as [names|e];
    [| done].
  by rewrite foldl_keeps.
Qed.

(** ** Batches *)

(** A stop that returns, returns true: a failure is an exception. *)
Lemma stop_unit_from_true (os : OS) (conf : UnitConfigParser.t)
    (w w' : World) (b : bool) :
  stop_unit_from os conf w = (Return b, w') -> b = true.
Proof.
  unfold stop_unit_from. intros H.
  repeat (apply bind_inv in H as (? & ? & _ & H)).
  unfold ret in H. congruence.
Qed.

Lemma restart_unit_from_true (os : OS) (conf : UnitConfigParser.t)
    (w w' : World) (b : bool) :
  restart_unit_from os conf w = (Return b, w') -> b = true.
Proof.
  unfold restart_unit_from. intros H.
  repeat (apply bind_inv in H as (? & ? & _ & H)).
  unfold ret in H. congruence.
Qed.

Lemma batch_true (verb : string -> M bool) (units : list string)
    (w w' : World) (b : bool) :
  (forall unit w w' b, verb unit w = (Return b, w') -> b = true) ->
  for_fold units true
    (fun unit done =>
       let* ok := verb unit in
       if negb ok then ret false else ret done) w = (Return b, w') ->
  b = true.
Proof.
  intros Hverb.
  assert (forall done w,
             for_fold units done
               (fun unit done =>
                  let* ok := verb unit in
                  if negb ok then ret false else ret done) w = (Return b, w')
             -> b = done) as Hloop; [| by apply Hloop].
  induction units as [|u units IH]; intros done w1 H.
  - simpl in H. unfold ret in H. congruence.
  - simpl in H. apply bind_inv in H as (d & w2 & H1 & H2).
    apply bind_inv in H1 as (ok & w3 & Hok & H1).
    apply Hverb in Hok as ->. simpl in H1. unfold ret in H1.
    injection H1 as <- <-. by apply IH in H2.
Qed.

(** X17: a batch stop and a batch restart never return false.  A unit
    that cannot be stopped or restarted raises, which ends the batch; so
    a batch that returns, returns true. *)
Theorem batch_never_false :
  forall (os : OS) (fnmatchcase : string -> string -> bool)
         (modules : list string) (w w' : World) (b : bool),
    stop_of_units os fnmatchcase modules w = (Return b, w')
    \/ restart_of_units os fnmatchcase modules w = (Return b, w') ->
    b = true.
Proof.
  intros os fnmatchcase modules w w' b [H | H].
  - unfold stop_of_units in H.
    apply bind_inv in H as (units & w1 & _ & H).
    apply (batch_true (stop_unit os)) in H; [done |].
    intros unit w2 w3 b' Hs. unfold stop_unit in Hs.
    apply bind_inv in Hs as (conf & w4 & _ & Hs).
    by apply stop_unit_from_true in Hs.
  - unfold restart_of_units in H.
    apply bind_inv in H as (units & w1 & _ & H).
    apply (batch_true (restart_unit os)) in H; [done |].
    intros unit w2 w3 b' Hs. unfold restart_unit in Hs.
    apply bind_inv in Hs as (conf & w4 & _ & Hs).
    by apply restart_unit_from_true in Hs.
Qed.

Lemma batch_never_false_witness :
  stop_of_units Sample.os Fnmatch.fnmatchcase ["b.service"] Run.two_units
  = (Return true,
     (stop_of_units Sample.os Fnmatch.fnmatchcase ["b.service"]
        Run.two_units).2)
  /\ true = true.
Proof.
  split; [vm_compute; reflexivity |].
  apply (batch_never_false Sample.os Fnmatch.fnmatchcase ["b.service"]
           Run.two_units
           (stop_of_units Sample.os Fnmatch.fnmatchcase ["b.service"]
              Run.two_units).2 true).
  left. vm_compute. reflexivity.
Defined.

(** ** Stopping by signal *)

Lemma get_pid_file_from_pure (conf : UnitConfigParser.t) (w w0 : World) :
  get_pid_file_from conf w = ((get_pid_file_from conf w0).1, w).
Proof.
  unfold get_pid_file_from.
  destruct (UnitConfigParser.filename conf) as [f|]; [| done].
  by destruct (negb (Str.truthy f)).
Qed.

Lemma run_hooks_none (os : OS) (conf : UnitConfigParser.t) (hook : string)
    (env : gmap string string) (w : World) :
  UnitConfigParser.getlist conf (Some "Service") hook (Some []) false
  = Return (Some []) ->
  run_hooks os conf hook env w = (Return tt, w).
Proof. intros H. unfold run_hooks, iter, bind, lift. by rewrite H. Qed.

(** X18: a stop by signal leaves no PID file.  When the unit is not a
    legacy script and has no [ExecStop] and no [ExecStopPost] commands, a
    stop that returns has taken the PID from the PID file of the unit,
    and there is no file of that name afterwards. *)
Theorem stop_by_signal_removes_pid_file :
  forall (os : OS) (conf : UnitConfigParser.t) (type : string)
         (w w' : World) (b : bool),
    UnitConfigParser.get conf (Some "Service") "Type" (Some "simple") false
    = Return (Some type) ->
    Str.lower type <> "sysv" ->
    UnitConfigParser.getlist conf (Some "Service") "ExecStop" (Some []) false
    = Return (Some []) ->
    UnitConfigParser.getlist conf (Some "Service") "ExecStopPost" (Some [])
      false
    = Return (Some []) ->
    stop_unit_from os conf w = (Return b, w') ->
    exists pid_file,
      (forall w0, get_pid_file_from conf w0 = (Return (Some pid_file), w0))
      /\ Fs.isfile (sys_fs (w_sys w')) pid_file = false.
Proof.
  intros os conf type w w' b Htype Hsysv Hstop Hpost H.
  unfold stop_unit_from in H.
  apply bind_inv in H as (runs & w1 & Hruns & H).
  assert (runs = Str.lower type) as ->.
  { unfold run_type, get_str, bind, lift in Hruns. rewrite Htype in Hruns.
    unfold ret in Hruns. congruence. }
  apply bind_inv in H as (sudo & w2 & _ & H).
  apply bind_inv in H as (env & w3 & _ & H).
  apply bind_inv in H as (? & w4 & _ & H).
  apply bind_inv in H as (exec_stop & w5 & Hexec & H).
  assert (exec_stop = []) as ->.
  { unfold iter, bind, lift in Hexec. rewrite Hstop in Hexec.
    unfold ret in Hexec. congruence. }
  apply bind_inv in H as (env' & w6 & H & Hrest).
  apply bind_inv in Hrest as (? & w6' & Hhooks & Hrest).
  rewrite (run_hooks_none os conf "ExecStopPost" env' w6 Hpost) in Hhooks.
  injection Hhooks as _ <-. unfold ret in Hrest. injection Hrest as _ <-.
  assert (str_in (Str.lower type) ["sysv"] = false) as Hin.
  { unfold str_in. simpl. rewrite orb_false_r. by apply String.eqb_neq. }
  rewrite Hin in H. rewrite bool_decide_eq_true_2 in H by done.
  apply bind_inv in H as (pid_file & w7 & Hpf & H).
  apply bind_inv in H as (pid & w8 & _ & H).
  apply bind_inv in H as (? & w9 & _ & H).
  destruct pid_file as [pid_file|]; [| discriminate].
  exists pid_file. split.
  { intros w0. rewrite (get_pid_file_from_pure conf w0 w5), Hpf. reflexivity. }
  apply bind_inv in H as (fs & w10 & Hfs & H).
  unfold get_fs in Hfs. injection Hfs as <- <-.
  apply bind_inv in H as (? & w11 & Hrm & H).
  unfold ret in H. injection H as _ <-.
  destruct (Fs.isfile (sys_fs (w_sys w9)) pid_file) eqn:Hfile.
  - unfold fs_update, bind, get_fs, lift, Fs.remove in Hrm.
    rewrite Hfile in Hrm. unfold put_fs in Hrm. injection Hrm as _ <-.
    unfold Fs.isfile. simpl. apply bool_decide_eq_false_2.
    rewrite lookup_delete_eq. by intros [? ?].
  - unfold ret in Hrm. injection Hrm as _ <-. exact Hfile.
Qed.

Lemma stop_by_signal_removes_pid_file_witness :
  exists pid_file,
    (forall w0,
        get_pid_file_from (Run.demo "simple") w0 = (Return (Some pid_file), w0))
    /\ Fs.isfile
         (sys_fs (w_sys (stop_unit_from Sample.os (Run.demo "simple")
                           Run.running).2))
         pid_file = false.
Proof.
  apply (stop_by_signal_removes_pid_file Sample.os (Run.demo "simple")
           "simple" Run.running _ true).
  - reflexivity.
  - discriminate.
  - reflexivity.
  - reflexivity.
  - vm_compute. reflexivity.
Defined.

(** ** Three verbs that cannot run *)

Lemma match_units_returns (fnmatchcase : string -> string -> bool)
    (modules : list string) (suffix : string) (w : World) :
  accepted modules ->
  exists units,
    match_units fnmatchcase modules suffix w = (Return units, catalogued w).
Proof.
  intros Hacc. unfold match_units. eexists.
  rewrite (bind_run _ _ _ _ _ (match_sysd_units_run _ _ _ _ Hacc)).
  rewrite (bind_run _ _ _ _ _ (match_sysv_units_run _ _ _ _ Hacc)).
  reflexivity.
Qed.

Lemma batch_raises (e : exn) (units : list string) (w : World) :
  for_fold units true
    (fun unit done =>
       let* ok := raise e in
       if negb ok then ret false else ret done) w
  = (match units with
     | [] => Return true
     | _ :: _ => Raise e
     end, w).
Proof. by destruct units. Qed.

(** A batch whose verb raises [e], after the match. *)
Lemma batch_after_match (e : exn) (matching : M (list string)) (w : World) :
  (let* units := matching in
   for_fold units true
     (fun unit done =>
        let* ok := raise e in
        if negb ok then ret false else ret done)) w
  = (match (matching w).1 with
     | Return [] => Return true
     | Return (_ :: _) => Raise e
     | Raise e' => Raise e'
     end, (matching w).2).
Proof.
  unfold bind at 1. destruct (matching w) as [[units|e'] w']; [| done].
  by rewrite batch_raises.
Qed.

(** X19: [try-restart], [reload-or-restart] and [reload-or-try-restart]
    work on no unit.  Each of the three batches returns true when no
    unit matches, and raises as soon as one does, before anything is done
    for it: the first and the third call a method that takes no object,
    the second a method that does not exist.  When the match itself
    raises, the batch raises that error.  Nothing changes but what the
    match changes, which for patterns that compile are the catalogues of
    the engine object. *)
Theorem three_verbs_cannot_run :
  forall (fnmatchcase : string -> string -> bool) (modules : list string)
         (w : World),
    try_restart_of_units fnmatchcase modules w
    = (match (match_units fnmatchcase modules ".service" w).1 with
       | Return [] => Return true
       | Return (_ :: _) =>
           Raise (TypeError
                    "try_restart() takes exactly 1 argument (2 given)")
       | Raise e => Raise e
       end, (match_units fnmatchcase modules ".service" w).2)
    /\ reload_or_restart_of_units fnmatchcase modules w
       = (match (match_units fnmatchcase modules ".service" w).1 with
          | Return [] => Return true
          | Return (_ :: _) =>
              Raise (AttributeError
                       "Systemctl instance has no attribute 'reload_or_start'")
          | Raise e => Raise e
          end, (match_units fnmatchcase modules ".service" w).2)
    /\ reload_or_try_restart_of_units fnmatchcase modules w
       = (match (match_units fnmatchcase modules ".service" w).1 with
          | Return [] => Return true
          | Return (_ :: _) =>
              Raise (TypeError
                       "reload_or_try_restart() takes exactly 1 argument (2 given)")
          | Raise e => Raise e
          end, (match_units fnmatchcase modules ".service" w).2)
    /\ (accepted modules ->
        exists units,
          match_units fnmatchcase modules ".service" w
          = (Return units, catalogued w)).
Proof.
  intros fnmatchcase modules w.
  split; [| split; [| split]].
  - apply batch_after_match.
  - apply batch_after_match.
  - apply batch_after_match.
  - apply match_units_returns.
Qed.
